(** * stack-to-openvdb: a shallow embedding of [export.py]

    The script assembles a 4D intensity volume (time, z, y, x) from the planes
    of a microscopy file, rescales it to 8 bits, wraps every frame in a VTK
    image and writes it with the OpenVDB writer.  NumPy arrays are nested
    lists that carry their shape, Python exceptions are an error monad,
    binary64 arithmetic is the kernel's [PrimFloat], the file system and the
    configuration file are finite maps. *)

From Stdlib Require Import ZArith List Bool Lia Floats Ascii String.
From Stdlib Require Uint63.
From stdpp Require Import gmap strings pretty.
Import ListNotations.
Local Open Scope Z_scope.

(** ** Exceptions *)

Inductive exn : Set :=
| TypeError | ValueError | OverflowError | KeyError | IndexError
| IsADirectoryError | FileNotFoundError | IOError
| ParsingError | DuplicateOptionError
| InterpolationSyntaxError | InterpolationMissingOptionError | InterpolationDepthError.

Inductive result (A : Type) : Type :=
| Ok (a : A)
| Err (e : exn).
Arguments Ok {A} a.
Arguments Err {A} e.

Definition bind {A B : Type} (c : result A) (k : A -> result B) : result B :=
  match c with
  | Ok a => k a
  | Err e => Err e
  end.

Notation "'let*' x ':=' c 'in' k" := (bind c (fun x => k))
  (at level 10, x name, c at level 100, k at level 200).

(** A [for] loop whose body may raise: the first exception ends the loop. *)
Fixpoint for_each {A B : Type} (body : A -> result B) (l : list A) : result (list B) :=
  match l with
  | [] => Ok []
  | x :: rest =>
      let* y := body x in
      let* ys := for_each body rest in
      Ok (y :: ys)
  end.

(** ** Python numbers: [int] and [float] *)

Inductive pynum : Set :=
| PyInt (z : Z)
| PyFloat (f : float).

Definition float_of_uint (z : Z) : float := PrimFloat.of_uint63 (Uint63.of_Z z).

(** [float(z)] for a Python int: nearest binary64, [OverflowError] beyond it. *)
Definition float_of_int (z : Z) : result float :=
  let f := SF2Prim (binary_normalize prec emax z 0 false) in
  if PrimFloat.is_infinity f then Err OverflowError else Ok f.

Definition to_float (a : pynum) : result float :=
  match a with
  | PyInt z => float_of_int z
  | PyFloat f => Ok f
  end.

Definition py_sub (a b : pynum) : result pynum :=
  match a, b with
  | PyInt x, PyInt y => Ok (PyInt (x - y))
  | _, _ =>
      let* fa := to_float a in
      let* fb := to_float b in
      Ok (PyFloat (PrimFloat.sub fa fb))
  end.

Definition py_add (a b : pynum) : result pynum :=
  match a, b with
  | PyInt x, PyInt y => Ok (PyInt (x + y))
  | _, _ =>
      let* fa := to_float a in
      let* fb := to_float b in
      Ok (PyFloat (PrimFloat.add fa fb))
  end.

Definition py_abs (a : pynum) : pynum :=
  match a with
  | PyInt x => PyInt (Z.abs x)
  | PyFloat f => PyFloat (PrimFloat.abs f)
  end.

(** The integer part of a finite float, toward zero. *)
Definition trunc (x : float) : option Z :=
  match Prim2SF x with
  | S754_zero _ => Some 0
  | S754_finite s m e =>
      let a := if 0 <=? e then Z.shiftl (Zpos m) e else Z.shiftr (Zpos m) (- e) in
      Some (if s then - a else a)
  | S754_infinity _ | S754_nan => None
  end.

(** [int(a)]: identity on ints, truncation on floats; [int(nan)] is a
    [ValueError], [int(inf)] an [OverflowError]. *)
Definition py_int (a : pynum) : result Z :=
  match a with
  | PyInt z => Ok z
  | PyFloat f =>
      match trunc f with
      | Some z => Ok z
      | None => if PrimFloat.is_nan f then Err ValueError else Err OverflowError
      end
  end.

(** ** Python slices *)

(** A slice bound [i] on a sequence of length [n]: negative bounds count from
    the end, and every bound is clipped to [0..n]. *)
Definition slice_bound (i n : Z) : Z :=
  if i <? 0 then Z.max (i + n) 0 else Z.min i n.

Definition slice_len (start stop : Z) (n : nat) : nat :=
  Z.to_nat (slice_bound stop (Z.of_nat n) - slice_bound start (Z.of_nat n)).

Definition py_slice {A : Type} (start stop : Z) (l : list A) : list A :=
  firstn (slice_len start stop (length l))
         (skipn (Z.to_nat (slice_bound start (Z.of_nat (length l)))) l).

(** ** NumPy arrays *)

Inductive dtype : Set := uint8 | uint16.

Definition bits (d : dtype) : Z :=
  match d with uint8 => 8 | uint16 => 16 end.

(** Storing an integer in an unsigned [d] keeps its low bits. *)
Definition wrap (d : dtype) (z : Z) : Z := z mod 2 ^ bits d.

(** A plane of integer samples as the image source returns it: [shape2] is
    (rows, columns). *)
Record ndarray2 : Type := mk_ndarray2 {
  shape2 : nat * nat;
  rows2 : list (list Z)
}.

Record ndarray3 : Type := mk_ndarray3 {
  dtype3 : dtype;
  shape3 : nat * nat * nat;
  planes3 : list (list (list Z))
}.

Record ndarray4 : Type := mk_ndarray4 {
  dtype4 : dtype;
  shape4 : nat * nat * nat * nat;
  vols4 : list (list (list (list Z)))
}.

Definition has_shape2 (h w : nat) (rows : list (list Z)) : Prop :=
  length rows = h /\ Forall (fun r => length r = w) rows.

Definition has_shape3 (nz h w : nat) (planes : list (list (list Z))) : Prop :=
  length planes = nz /\ Forall (has_shape2 h w) planes.

Definition has_shape4 (nt nz h w : nat) (vols : list (list (list (list Z)))) : Prop :=
  length vols = nt /\ Forall (has_shape3 nz h w) vols.

Definition in_dtype (d : dtype) (z : Z) : Prop := 0 <= z < 2 ^ bits d.

Definition elems3 (planes : list (list (list Z))) : list Z := concat (concat planes).
Definition elems4 (vols : list (list (list (list Z)))) : list Z := concat (map elems3 vols).

Definition wf2 (a : ndarray2) : Prop :=
  has_shape2 (fst (shape2 a)) (snd (shape2 a)) (rows2 a).

Definition wf3 (a : ndarray3) : Prop :=
  (let '(nz, h, w) := shape3 a in has_shape3 nz h w (planes3 a))
  /\ Forall (in_dtype (dtype3 a)) (elems3 (planes3 a)).

Definition wf4 (a : ndarray4) : Prop :=
  (let '(nt, nz, h, w) := shape4 a in has_shape4 nt nz h w (vols4 a))
  /\ Forall (in_dtype (dtype4 a)) (elems4 (vols4 a)).

(** [a[y0:y1, x0:x1]] *)
Definition slice2 (a : ndarray2) (y0 y1 x0 x1 : Z) : ndarray2 :=
  {| shape2 := (slice_len y0 y1 (fst (shape2 a)), slice_len x0 x1 (snd (shape2 a)));
     rows2 := map (py_slice x0 x1) (py_slice y0 y1 (rows2 a)) |}.

(** Broadcasting along one axis: an axis of length one is repeated. *)
Definition broadcast_axis {A : Type} (n : nat) (l : list A) : list A :=
  match l with
  | [x] => repeat x n
  | _ => l
  end.

Definition broadcastable (src dst : nat) : bool :=
  Nat.eqb src dst || Nat.eqb src 1.

(** [dst[j, :, :] = src] for a [uint16] destination of shape (h, w): the source
    is broadcast to the destination and its samples are cast to [uint16]. *)
Definition assign_plane (h w : nat) (src : ndarray2) : result (list (list Z)) :=
  let '(hs, ws) := shape2 src in
  if broadcastable hs h && broadcastable ws w
  then Ok (map (fun r => map (wrap uint16) (broadcast_axis w r))
               (broadcast_axis h (rows2 src)))
  else Err ValueError.

(** A dimension handed to [np.empty]: a float is refused, a negative integer
    too.  The allocation itself is taken to succeed; the statements that say
    an array is returned bound its dimensions by those of the planes the
    source holds. *)
Definition np_dim (a : pynum) : result nat :=
  match a with
  | PyInt z => if z <? 0 then Err ValueError else Ok (Z.to_nat z)
  | PyFloat _ => Err TypeError
  end.

Definition list_min (l : list Z) : result Z :=
  match l with
  | [] => Err ValueError
  | x :: rest => Ok (fold_left Z.min rest x)
  end.

Definition list_max (l : list Z) : result Z :=
  match l with
  | [] => Err ValueError
  | x :: rest => Ok (fold_left Z.max rest x)
  end.

(** ** The image source and the region of interest *)

Record OMEImageFile : Type := mk_OMEImageFile {
  width : Z;
  height : Z;
  zstacks : list Z;
  n_frames : Z;
  n_channels : Z;
  um_per_pix : float;
  um_per_z : float;
  ix_at : Z -> Z -> Z -> result Z;     (* ix_at(c, z, t) *)
  image : Z -> result ndarray2         (* image(ix).image *)
}.

Record ImagejRoi : Type := mk_ImagejRoi {
  left : pynum;
  right : pynum;
  top : pynum;
  bottom : pynum;
  t_position : Z
}.

(** ** Conversion of a binary64 value to [uint8]

    A C conversion of a double to [unsigned char] is the integer part of the
    value when that lies in 0..255; for every other value (NaN, an infinity,
    anything at or above 256 or at or below -1) the language leaves the result
    to the platform. *)

Definition cast_in_range (x : float) : option Z :=
  match trunc x with
  | Some z => if (0 <=? z) && (z <? 256) then Some z else None
  | None => None
  end.

Section Platform.

(** The platform's conversion of an out-of-range double; only its low byte
    reaches the array. *)
Variable undef_cast : float -> Z.

Definition cast_uint8 (x : float) : Z :=
  match cast_in_range x with
  | Some z => z
  | None => undef_cast x mod 256
  end.

(** One sample of line 56: [(v - lo) / scale], then [astype(np.uint8)]. *)
Definition normalize_elem (d : dtype) (lo : Z) (scale : float) (v : Z) : Z :=
  cast_uint8 (PrimFloat.div (float_of_uint (wrap d (v - lo))) scale).

(** Line 56:
    [((image - image.min()) / (image.ptp() / 255.0)).astype(np.uint8)].
    The difference and the peak-to-peak value stay in the array's unsigned
    type, both quotients are binary64 (NumPy 1.x, where arrays have [ptp]);
    [min] and [ptp] of an array without elements raise [ValueError]. *)
Definition normalize (image : ndarray4) : result ndarray4 :=
  let d := dtype4 image in
  let* lo := list_min (elems4 (vols4 image)) in
  let* hi := list_max (elems4 (vols4 image)) in
  let scale := PrimFloat.div (float_of_uint (wrap d (hi - lo))) 255 in
  Ok {| dtype4 := uint8;
        shape4 := shape4 image;
        vols4 := map (map (map (map (normalize_elem d lo scale)))) (vols4 image) |}.

(** Lines 26-41: the crop rectangle (w, h, x0, y0, x1, y1). *)
Definition crop_rectangle (img_struct : OMEImageFile) (roi : option ImagejRoi)
  : result (pynum * pynum * Z * Z * Z * Z) :=
  match roi with
  | Some r =>
      let* dx := py_sub (right r) (left r) in
      let w := py_abs dx in
      let* dy := py_sub (top r) (bottom r) in
      let h := py_abs dy in
      let* x0 := py_int (left r) in
      let* y0 := py_int (top r) in
      let* sx := py_add (PyInt x0) w in
      let* x1 := py_int sx in
      let* sy := py_add (PyInt y0) h in
      let* y1 := py_int sy in
      Ok (w, h, x0, y0, x1, y1)
  | None =>
      let w := width img_struct in
      let h := height img_struct in
      Ok (PyInt w, PyInt h, 0, 0, w, h)
  end.

(** Lines 48-50: fetch the plane at (channel, z, frame), crop it and store
    it in a (h, w) slot of the [uint16] buffer. *)
Definition read_plane (img_struct : OMEImageFile) (channel : Z)
    (hn wn : nat) (x0 y0 x1 y1 : Z) (frame z : Z) : result (list (list Z)) :=
  let* ix := ix_at img_struct channel z frame in
  let* mdimg := image img_struct ix in
  assign_plane hn wn (slice2 mdimg y0 y1 x0 x1).

(** Lines 26-53: the [uint16] volume before normalization.  Every slot of
    the buffers that [np.empty] allocates is overwritten by the loops, so
    their initial contents never show. *)
Definition assemble (img_struct : OMEImageFile) (frames : list Z)
    (roi : option ImagejRoi) (channel : Z) : result ndarray4 :=
  let* rect := crop_rectangle img_struct roi in
  let '(w, h, x0, y0, x1, y1) := rect in
  let* hn := np_dim h in
  let* wn := np_dim w in
  let* vols :=
    for_each (fun frame =>
      for_each (read_plane img_struct channel hn wn x0 y0 x1 y1 frame)
               (zstacks img_struct))
      frames in
  Ok {| dtype4 := uint16;
        shape4 := (length frames, length (zstacks img_struct), hn, wn);
        vols4 := vols |}.

Definition bioformats_to_ndarray_zstack_timeseries (img_struct : OMEImageFile)
    (frames : list Z) (roi : option ImagejRoi) (channel : Z) : result ndarray4 :=
  let* image := assemble img_struct frames roi channel in
  normalize image.

End Platform.

(** ** The VTK image (lines 61-80) *)

Inductive vtk_scalar_type : Set := VTK_SHORT | VTK_UNSIGNED_CHAR.

Record vtkImageImport : Type := mk_vtkImageImport {
  import_void_pointer : list Z;
  data_scalar_type : vtk_scalar_type;
  number_of_scalar_components : Z;
  scalar_array_name : string;
  data_extent : Z * Z * Z * Z * Z * Z;
  whole_extent : Z * Z * Z * Z * Z * Z;
  data_spacing : float * float * float
}.

(** [vtk.vtkImageImport()] with the library's defaults. *)
Definition vtkImageImport_new : vtkImageImport :=
  {| import_void_pointer := [];
     data_scalar_type := VTK_SHORT;
     number_of_scalar_components := 1;
     scalar_array_name := "scalars";
     data_extent := (0, 0, 0, 0, 0, 0);
     whole_extent := (0, 0, 0, 0, 0, 0);
     data_spacing := (1%float, 1%float, 1%float) |}.

Definition CopyImportVoidPointer (buf : list Z) (size : nat) (im : vtkImageImport) : vtkImageImport :=
  {| import_void_pointer := firstn size buf;
     data_scalar_type := data_scalar_type im;
     number_of_scalar_components := number_of_scalar_components im;
     scalar_array_name := scalar_array_name im;
     data_extent := data_extent im;
     whole_extent := whole_extent im;
     data_spacing := data_spacing im |}.

Definition SetDataScalarTypeToUnsignedChar (im : vtkImageImport) : vtkImageImport :=
  {| import_void_pointer := import_void_pointer im;
     data_scalar_type := VTK_UNSIGNED_CHAR;
     number_of_scalar_components := number_of_scalar_components im;
     scalar_array_name := scalar_array_name im;
     data_extent := data_extent im;
     whole_extent := whole_extent im;
     data_spacing := data_spacing im |}.

Definition SetNumberOfScalarComponents (n : Z) (im : vtkImageImport) : vtkImageImport :=
  {| import_void_pointer := import_void_pointer im;
     data_scalar_type := data_scalar_type im;
     number_of_scalar_components := n;
     scalar_array_name := scalar_array_name im;
     data_extent := data_extent im;
     whole_extent := whole_extent im;
     data_spacing := data_spacing im |}.

Definition SetScalarArrayName (s : string) (im : vtkImageImport) : vtkImageImport :=
  {| import_void_pointer := import_void_pointer im;
     data_scalar_type := data_scalar_type im;
     number_of_scalar_components := number_of_scalar_components im;
     scalar_array_name := s;
     data_extent := data_extent im;
     whole_extent := whole_extent im;
     data_spacing := data_spacing im |}.

Definition SetDataExtent (e : Z * Z * Z * Z * Z * Z) (im : vtkImageImport) : vtkImageImport :=
  {| import_void_pointer := import_void_pointer im;
     data_scalar_type := data_scalar_type im;
     number_of_scalar_components := number_of_scalar_components im;
     scalar_array_name := scalar_array_name im;
     data_extent := e;
     whole_extent := whole_extent im;
     data_spacing := data_spacing im |}.

Definition SetWholeExtent (e : Z * Z * Z * Z * Z * Z) (im : vtkImageImport) : vtkImageImport :=
  {| import_void_pointer := import_void_pointer im;
     data_scalar_type := data_scalar_type im;
     number_of_scalar_components := number_of_scalar_components im;
     scalar_array_name := scalar_array_name im;
     data_extent := data_extent im;
     whole_extent := e;
     data_spacing := data_spacing im |}.

Definition SetDataSpacing (sp : float * float * float) (im : vtkImageImport) : vtkImageImport :=
  {| import_void_pointer := import_void_pointer im;
     data_scalar_type := data_scalar_type im;
     number_of_scalar_components := number_of_scalar_components im;
     scalar_array_name := scalar_array_name im;
     data_extent := data_extent im;
     whole_extent := whole_extent im;
     data_spacing := sp |}.

(** The bytes of one item, little-endian. *)
Definition item_bytes (d : dtype) (v : Z) : list Z :=
  match d with
  | uint8 => [v mod 256]
  | uint16 => [v mod 256; (v / 256) mod 256]
  end.

(** [data.tobytes()]: the items in C order, last axis fastest. *)
Definition tobytes (data : ndarray3) : list Z :=
  flat_map (item_bytes (dtype3 data)) (elems3 (planes3 data)).

Definition _ndarray_to_vtk_image (data : ndarray3) (um_per_pix um_per_z : float)
  : vtkImageImport :=
  let '(ztot, col, row) := shape3 data in
  let vtk_image := vtkImageImport_new in
  let data_string := tobytes data in
  let vtk_image := CopyImportVoidPointer data_string (length data_string) vtk_image in
  let vtk_image := SetDataScalarTypeToUnsignedChar vtk_image in
  let vtk_image := SetNumberOfScalarComponents 1 vtk_image in
  let vtk_image := SetScalarArrayName "density" vtk_image in
  let vtk_image :=
    SetDataExtent (1, Z.of_nat row, 1, Z.of_nat col, 1, Z.of_nat ztot) vtk_image in
  let vtk_image :=
    SetWholeExtent (1, Z.of_nat row, 1, Z.of_nat col, 1, Z.of_nat ztot) vtk_image in
  SetDataSpacing (um_per_pix, um_per_pix, um_per_z) vtk_image.

(** ** The file system and the writer (lines 83-94) *)

Inductive node : Type :=
| File (content : list Z)
| Dir.

Definition os_path_exists (filename : string) (fs : gmap string node) : bool :=
  match fs !! filename with
  | Some _ => true
  | None => false
  end.

Definition os_remove (filename : string) (fs : gmap string node) : result (gmap string node) :=
  match fs !! filename with
  | Some (File _) => Ok (delete filename fs)
  | Some Dir => Err IsADirectoryError
  | None => Err FileNotFoundError
  end.

Section Writer.

(** [vtkOpenVDBWriter.Update()] with its input and file name set: what the
    library does to the file system.  VTK reports a failed write on its error
    channel and raises nothing. *)
Variable vdb_update : vtkImageImport -> string -> gmap string node -> gmap string node.

Definition _save_vtk_image_to_disk (vtk_image : vtkImageImport) (filename : string)
    (fs : gmap string node) : result (gmap string node) :=
  let* fs :=
    if os_path_exists filename fs then os_remove filename fs else Ok fs in
  Ok (vdb_update vtk_image filename fs).

Definition save_ndarray_as_vdb (data : ndarray3) (um_per_pix um_per_z : float)
    (filename : string) (fs : gmap string node) : result (gmap string node) :=
  let vtkim := _ndarray_to_vtk_image data um_per_pix um_per_z in
  _save_vtk_image_to_disk vtkim filename fs.

End Writer.

(** ** Paths ([pathlib.PurePosixPath]) *)

(** The root of a path: none, [/], or the [//] that POSIX sets apart; exactly
    two leading slashes are kept, three or more count as one. *)
Inductive root_kind : Set := NoRoot | Slash | DoubleSlash.

Record Path : Type := mk_Path {
  root : root_kind;
  parts : list string
}.

Fixpoint components (s : string) : list string :=
  match s with
  | EmptyString => [EmptyString]
  | String c rest =>
      if Ascii.eqb c "/"%char then EmptyString :: components rest
      else match components rest with
           | hd :: tl => String c hd :: tl
           | [] => [String c EmptyString]
           end
  end.

Definition is_dot (s : string) : bool := String.eqb s "" || String.eqb s ".".

Fixpoint leading_slashes (s : string) : nat :=
  match s with
  | EmptyString => O
  | String c rest => if Ascii.eqb c "/"%char then S (leading_slashes rest) else O
  end.

Definition root_of_string (s : string) : root_kind :=
  match leading_slashes s with
  | O => NoRoot
  | S (S O) => DoubleSlash
  | _ => Slash
  end.

Definition root_string (r : root_kind) : string :=
  match r with
  | NoRoot => ""
  | Slash => "/"
  | DoubleSlash => "//"
  end.

Definition Path_of_string (s : string) : Path :=
  {| root := root_of_string s;
     parts := List.filter (fun c => negb (is_dot c)) (components s) |}.

Definition is_absolute (p : Path) : bool :=
  match root p with
  | NoRoot => false
  | _ => true
  end.

Definition parent (p : Path) : Path :=
  {| root := root p; parts := removelast (parts p) |}.

Definition path_name (p : Path) : string := List.last (parts p) "".

(** [a / b] *)
Definition joinpath (a b : Path) : Path :=
  if is_absolute b then b
  else {| root := root a; parts := parts a ++ parts b |}.

Definition as_posix (p : Path) : string :=
  match root p, parts p with
  | NoRoot, [] => "."
  | r, ps => String.append (root_string r) (String.concat "/" ps)
  end.

(** [f"{z:0<width>d}"] *)
Definition format_d (width : nat) (z : Z) : string :=
  let digits := pretty (Z.abs z) in
  let sign := if z <? 0 then "-"%string else ""%string in
  String.append sign
    (String.append
       (String.concat "" (repeat "0"%string (width - String.length sign - String.length digits)))
       digits).

(** ** The configuration file (lines 100-137) *)

Module ExportConfig.
Record t : Type := mk {
  series : Z;
  frames : list Z;
  channels : list Z;
  path : Path;
  name : string;
  image_file : OMEImageFile;
  roi : option ImagejRoi;
  um_per_z : float
}.
End ExportConfig.

Definition lower_ascii (c : ascii) : ascii :=
  let n := Ascii.nat_of_ascii c in
  if (Nat.leb 65 n && Nat.leb n 90)%bool then Ascii.ascii_of_nat (n + 32) else c.

Fixpoint lower (s : string) : string :=
  match s with
  | EmptyString => EmptyString
  | String c rest => String (lower_ascii c) (lower rest)
  end.

(** A parsed file ([configparser.ConfigParser] after [read]): the options of
    the [DEFAULT] section and those of every other section.  The parser stores
    option names in lower case and looks them up in lower case. *)
Record ConfigParser : Type := mk_ConfigParser {
  defaults : gmap string string;
  sections : gmap string (gmap string string)
}.

(** [cfg[name]]: the options of the section with the defaults behind them. *)
Definition parser_get (name : string) (cfg : ConfigParser)
  : result (gmap string string) :=
  if String.eqb name "DEFAULT" then Ok (defaults cfg)
  else match sections cfg !! name with
       | Some sect => Ok (sect ∪ defaults cfg)
       | None => Err KeyError
       end.

(** [key in cfg[name]] *)
Definition section_contains (key : string) (sect : gmap string string) : bool :=
  match sect !! lower key with
  | Some _ => true
  | None => false
  end.

Fixpoint has_percent (s : string) : bool :=
  match s with
  | EmptyString => false
  | String c rest => Ascii.eqb c "%"%char || has_percent rest
  end.

(** [BasicInterpolation], the default of [ConfigParser]: in a value [%%] is a
    percent sign, [%(name)s] is the value of the option [name], itself
    interpolated, and any other [%] is an [InterpolationSyntaxError]. *)
Inductive scan_state : Type :=
| Plain                         (* outside a reference *)
| AfterPercent                  (* a [%] was read *)
| InName (name : string)        (* inside [%(...] *)
| AfterName (name : string).    (* [%(name)] was read, [s] is due *)

Fixpoint interpolate_scan (nested : string -> result string) (options : gmap string string)
    (st : scan_state) (rest : string) : result string :=
  match rest with
  | EmptyString =>
      match st with
      | Plain => Ok EmptyString
      | _ => Err InterpolationSyntaxError
      end
  | String c tail =>
      match st with
      | Plain =>
          if Ascii.eqb c "%"%char then interpolate_scan nested options AfterPercent tail
          else let* t := interpolate_scan nested options Plain tail in Ok (String c t)
      | AfterPercent =>
          if Ascii.eqb c "%"%char then
            let* t := interpolate_scan nested options Plain tail in Ok (String "%"%char t)
          else if Ascii.eqb c "("%char then
            interpolate_scan nested options (InName EmptyString) tail
          else Err InterpolationSyntaxError
      | InName name =>
          if Ascii.eqb c ")"%char then
            match name with
            | EmptyString => Err InterpolationSyntaxError
            | _ => interpolate_scan nested options (AfterName name) tail
            end
          else interpolate_scan nested options
                 (InName (String.append name (String c EmptyString))) tail
      | AfterName name =>
          if Ascii.eqb c "s"%char then
            match options !! lower name with
            | None => Err InterpolationMissingOptionError
            | Some v =>
                let* a := if has_percent v then nested v else Ok v in
                let* t := interpolate_scan nested options Plain tail in
                Ok (String.append a t)
            end
          else Err InterpolationSyntaxError
      end
  end.

(** [depth] levels of nested references are left ([MAX_INTERPOLATION_DEPTH]
    is 10). *)
Fixpoint interpolate_some (depth : nat) (options : gmap string string) (rest : string)
  : result string :=
  match depth with
  | O => Err InterpolationDepthError
  | S d => interpolate_scan (interpolate_some d options) options Plain rest
  end.

Definition before_get (options : gmap string string) (value : string) : result string :=
  interpolate_some 10 options value.

(** [cfg[name][key]] *)
Definition section_get (key : string) (sect : gmap string string) : result string :=
  match sect !! lower key with
  | Some v => before_get sect v
  | None => Err KeyError
  end.

Definition py_range (n : Z) : list Z := map Z.of_nat (seq 0 (Z.to_nat n)).

(** [im_frame] holds the text of [DATA.frame] or, after a region of interest
    was read, its integer time position. *)
Inductive frame_value : Type :=
| FrameStr (s : string)
| FrameInt (z : Z).

Section Script.

Variable undef_cast : float -> Z.
Variable vdb_update : vtkImageImport -> string -> gmap string node -> gmap string node.

(** The library calls of [read_config] and of the driver.  [prj.read(path)]
    skips a file it cannot open and raises on one it cannot parse (no section
    header, a duplicate option, ...). *)
Variable configparser_read : Path -> result ConfigParser.
Variable int_of_str : string -> result Z.
Variable float_of_str : string -> result float.
Variable ImagejRoi_fromfile : Path -> result ImagejRoi.
Variable OMEImageFile_open : string -> Z -> result OMEImageFile.
Variable ensure_dir : Path -> gmap string node -> result (Path * gmap string node).

Definition _load_project_file (path : Path) : result ConfigParser :=
  configparser_read path.

(** [int(im_frame)] *)
Definition int_of_frame (v : frame_value) : result Z :=
  match v with
  | FrameStr s => int_of_str s
  | FrameInt z => Ok z
  end.

Definition frame_is_all (v : frame_value) : bool :=
  match v with
  | FrameStr s => String.eqb s "all"
  | FrameInt _ => false
  end.

(** Lines 119-126: the region of interest and the frame value after it. *)
Definition process_roi (cfg_path : Path) (data : gmap string string) (im_frame : string)
  : result (option ImagejRoi * frame_value) :=
  if section_contains "ROI" data then
    let* s := section_get "ROI" data in
    let roi_path := Path_of_string s in
    if negb (is_absolute roi_path) then
      let roi_path := joinpath (parent cfg_path) roi_path in
      let* roi := ImagejRoi_fromfile roi_path in
      Ok (Some roi, FrameInt (t_position roi))
    else Ok (None, FrameStr im_frame)
  else Ok (None, FrameStr im_frame).

Definition read_config (cfg_path : Path) : result ExportConfig.t :=
  let* cfg := _load_project_file cfg_path in
  let* data := parser_get "DATA" cfg in
  let* s_series := section_get "series" data in
  let* im_series := int_of_str s_series in
  let* im_frame := section_get "frame" data in
  let* im_channel := section_get "channel" data in
  let* s_image := section_get "image" data in
  let img_path := Path_of_string s_image in
  let* rf := process_roi cfg_path data im_frame in
  let '(roi, im_frame) := rf in
  let* img_file := OMEImageFile_open (as_posix img_path) im_series in
  let* frames :=
    if frame_is_all im_frame then Ok (py_range (n_frames img_file))
    else let* fr := int_of_frame im_frame in Ok [fr] in
  let* channels :=
    if String.eqb im_channel "all" then Ok (py_range (n_channels img_file))
    else let* ch := int_of_str im_channel in Ok [ch] in
  let* z_spacing :=
    if section_contains "um_per_z" data
    then let* s := section_get "um_per_z" data in float_of_str s
    else Ok (um_per_z img_file) in
  Ok {| ExportConfig.series := im_series;
        ExportConfig.frames := frames;
        ExportConfig.channels := channels;
        ExportConfig.path := parent cfg_path;
        ExportConfig.name := path_name cfg_path;
        ExportConfig.image_file := img_file;
        ExportConfig.um_per_z := z_spacing;
        ExportConfig.roi := roi |}.

(** ** The driver (lines 140-160) *)

(** Iterating over a 4D array yields its 3D sub-arrays. *)
Definition iter4 (a : ndarray4) : list ndarray3 :=
  let '(_, nz, h, w) := shape4 a in
  map (fun v => {| dtype3 := dtype4 a; shape3 := (nz, h, w); planes3 := v |}) (vols4 a).

Definition enumerate {A : Type} (l : list A) : list (nat * A) :=
  combine (seq 0 (length l)) l.

(** [fr in cfg.frames] *)
Definition frame_selected (cfg : ExportConfig.t) (fr : nat) : bool :=
  existsb (Z.eqb (Z.of_nat fr)) (ExportConfig.frames cfg).

Definition vol_filename (export_path : Path) (ch : Z) (fr : nat) : string :=
  as_posix (joinpath export_path
    (Path_of_string
       (String.append "vol_ch"
         (String.append (format_d 1 ch)
           (String.append "_fr"
             (String.append (format_d 3 (Z.of_nat fr)) ".vdb")))))).

(** Lines 156-160: one turn of the loop over the frames of the volume. *)
Definition export_frame (cfg : ExportConfig.t) (export_path : Path) (ch : Z)
    (fs : gmap string node) (item : nat * ndarray3) : result (gmap string node) :=
  let '(fr, vol) := item in
  if negb (frame_selected cfg fr) then Ok fs
  else
    let vtkim := _ndarray_to_vtk_image vol
                   (um_per_pix (ExportConfig.image_file cfg)) (ExportConfig.um_per_z cfg) in
    _save_vtk_image_to_disk vdb_update vtkim (vol_filename export_path ch fr) fs.

(** A loop that threads the file system through its turns. *)
Fixpoint for_state {A S : Type} (body : S -> A -> result S) (l : list A) (s : S) : result S :=
  match l with
  | [] => Ok s
  | x :: rest => let* s' := body s x in for_state body rest s'
  end.

(** Lines 149-160: the body of the loop over the channels. *)
Definition export_channel (cfg_path : Path) (cfg : ExportConfig.t)
    (fs : gmap string node) (ch : Z) : result (gmap string node) :=
  let* r := ensure_dir
      (joinpath (joinpath (parent cfg_path) (Path_of_string "openvdb"))
                (Path_of_string (String.append "ch" (format_d 1 ch)))) fs in
  let '(export_path, fs) := r in
  let frames := py_range (n_frames (ExportConfig.image_file cfg)) in
  let* vol_timeseries :=
    bioformats_to_ndarray_zstack_timeseries undef_cast
      (ExportConfig.image_file cfg) frames (ExportConfig.roi cfg) ch in
  for_state (export_frame cfg export_path ch) (enumerate (iter4 vol_timeseries)) fs.

(** Lines 145-160: the export of one configuration file. *)
Definition export_config (fs : gmap string node) (cfg_path : Path) : result (gmap string node) :=
  let* cfg := read_config cfg_path in
  for_state (export_channel cfg_path cfg) (ExportConfig.channels cfg) fs.

Definition main (fs : gmap string node) : result (gmap string node) :=
  let base_path := Path_of_string "." in
  let cfg_path_list := [joinpath base_path (Path_of_string "example.cfg")] in
  for_state export_config cfg_path_list fs.

End Script.

(** ** Vocabulary of the statements *)

Definition map4 (f : Z -> Z) (vols : list (list (list (list Z)))) :=
  map (map (map (map f))) vols.

(** The planes a source hands out are arrays: their data has their shape. *)
Definition planes_wf (src : OMEImageFile) : Prop :=
  forall ix p, image src ix = Ok p -> wf2 p.

Definition planes_available (src : OMEImageFile) (frames : list Z) (channel : Z)
    (H W : nat) : Prop :=
  forall frame z, In frame frames -> In z (zstacks src) ->
    exists ix p,
      ix_at src channel z frame = Ok ix /\ image src ix = Ok p /\ shape2 p = (H, W).

Definition last_two_dims (a : ndarray4) : Z * Z :=
  let '(_, _, h, w) := shape4 a in (Z.of_nat h, Z.of_nat w).

(** A region of interest whose four bounds are integers. *)
Definition int_roi (l r t b tpos : Z) : ImagejRoi :=
  {| left := PyInt l; right := PyInt r; top := PyInt t; bottom := PyInt b;
     t_position := tpos |}.

(** The crop window, anchored at (left, top), lies inside an H by W plane. *)
Definition roi_inside (l r t b : Z) (H W : nat) : Prop :=
  0 <= l /\ l + Z.abs (r - l) <= Z.of_nat W /\ 0 <= t /\ t + Z.abs (t - b) <= Z.of_nat H.

(** The least and the greatest element of a list. *)
Definition is_min (lo : Z) (l : list Z) : Prop := In lo l /\ forall x, In x l -> lo <= x.
Definition is_max (hi : Z) (l : list Z) : Prop := In hi l /\ forall x, In x l -> x <= hi.

(** The sample that line 56 computes, written with the minimum [lo] and the
    maximum [hi] of the volume: a binary64 quotient whose integer part is kept. *)
Definition scaled_sample (undef_cast : float -> Z) (lo hi v : Z) : Z :=
  cast_uint8 undef_cast
    (PrimFloat.div (float_of_uint (v - lo))
                   (PrimFloat.div (float_of_uint (hi - lo)) 255)).

(** Rounding to the nearest integer, ties to even ([round], [np.round]). *)
Definition round_half_even (x : float) : option Z :=
  match Prim2SF x with
  | S754_zero _ => Some 0
  | S754_finite s m e =>
      let a :=
        if 0 <=? e then Z.shiftl (Zpos m) e
        else
          let d := 2 ^ (- e) in
          let q := Zpos m / d in
          let r := Zpos m mod d in
          match 2 * r ?= d with
          | Lt => q
          | Gt => q + 1
          | Eq => if Z.even q then q else q + 1
          end in
      Some (if s then - a else a)
  | S754_infinity _ | S754_nan => None
  end.

(** The sample as the specification words it:
    [round((v - lo) / (range / 255.0))] cast to unsigned 8-bit. *)
Definition spec_normalize_elem (lo range v : Z) : option Z :=
  match round_half_even
          (PrimFloat.div (float_of_uint (v - lo))
                         (PrimFloat.div (float_of_uint range) 255)) with
  | Some z => Some (z mod 256)
  | None => None
  end.

(** The two ends of the scale for a range [r]: the least sample goes to 0,
    the greatest to 254 or 255. *)
Definition endpoints_ok (r : Z) : bool :=
  match cast_in_range (PrimFloat.div (float_of_uint 0)
                         (PrimFloat.div (float_of_uint r) 255)),
        cast_in_range (PrimFloat.div (float_of_uint r)
                         (PrimFloat.div (float_of_uint r) 255)) with
  | Some a, Some b => (a =? 0) && ((b =? 254) || (b =? 255))
  | _, _ => false
  end.

(** [test] holds on the [n] integers from [r] on. *)
Fixpoint all_from (test : Z -> bool) (r : Z) (n : nat) : bool :=
  match n with
  | O => true
  | S n' => test r && all_from test (r + 1) n'
  end.

(** The scale of line 56 for the range [r]: a binary64 number of 53
    significant bits within half a unit in the last place of [r / 255]. *)
Definition scale_ok (r : Z) : bool :=
  match Prim2SF (PrimFloat.div (float_of_uint r) 255) with
  | S754_finite false m e =>
      (2 ^ 52 <=? Zpos m) && (Zpos m <? 2 ^ 53) && (-61 <=? e) && (e <=? -44)
      && (Z.abs (255 * Zpos m - r * 2 ^ (- e)) <=? 127)
  | _ => false
  end.

(** The binary64 number of the integer [d]: [d] itself, on 53 bits. *)
Definition numerator_ok (d : Z) : bool :=
  match Prim2SF (float_of_uint d) with
  | S754_finite false m e =>
      (2 ^ 52 <=? Zpos m) && (Zpos m <? 2 ^ 53) && (-52 <=? e) && (e <=? -37)
      && (Zpos m =? d * 2 ^ (- e))
  | _ => false
  end.

(** The configuration with another frame selection. *)
Definition with_frames (cfg : ExportConfig.t) (F : list Z) : ExportConfig.t :=
  {| ExportConfig.series := ExportConfig.series cfg;
     ExportConfig.frames := F;
     ExportConfig.channels := ExportConfig.channels cfg;
     ExportConfig.path := ExportConfig.path cfg;
     ExportConfig.name := ExportConfig.name cfg;
     ExportConfig.image_file := ExportConfig.image_file cfg;
     ExportConfig.roi := ExportConfig.roi cfg;
     ExportConfig.um_per_z := ExportConfig.um_per_z cfg |}.

(** The file name and the image that the loop hands to the writer for one
    frame of the volume. *)
Definition frame_write (cfg : ExportConfig.t) (export_path : Path) (ch : Z)
    (item : nat * ndarray3) : string * vtkImageImport :=
  (vol_filename export_path ch (fst item),
   _ndarray_to_vtk_image (snd item)
     (um_per_pix (ExportConfig.image_file cfg)) (ExportConfig.um_per_z cfg)).


Definition save_all
    (vdb_update : vtkImageImport -> string -> gmap string node -> gmap string node)
    (writes : list (string * vtkImageImport)) (fs : gmap string node)
  : result (gmap string node) :=
  for_state (fun fs w => _save_vtk_image_to_disk vdb_update (snd w) (fst w) fs) writes fs.

(** What a path holds after a run, if the run succeeded. *)
Definition file_after (run : result (gmap string node)) (p : string) : option node :=
  match run with
  | Ok fs => fs !! p
  | Err _ => None
  end.

(** The sample at row [y], column [x] of a plane, and at frame [i], slice
    [j], row [y], column [x] of a volume. *)
Definition sample2 (rows : list (list Z)) (y x : nat) : option Z :=
  match nth_error rows y with
  | Some r => nth_error r x
  | None => None
  end.

Definition sample4 (vols : list (list (list (list Z)))) (i j y x : nat) : option Z :=
  match nth_error vols i with
  | Some vol =>
      match nth_error vol j with
      | Some p => sample2 p y x
      | None => None
      end
  | None => None
  end.

(** No region of interest, or one whose four bounds are integers. *)
Definition integer_bounds (roi : option ImagejRoi) : Prop :=
  match roi with
  | None => True
  | Some r => exists l r' t b tpos, r = int_roi l r' t b tpos
  end.

(** [image + k]: the same array with [k] added to every sample. *)
Definition add_offset (k : Z) (image : ndarray4) : ndarray4 :=
  {| dtype4 := dtype4 image;
     shape4 := shape4 image;
     vols4 := map4 (fun v => v + k) (vols4 image) |}.

(** Whether a string holds the separator of paths. *)
Fixpoint has_slash (s : string) : bool :=
  match s with
  | EmptyString => false
  | String c rest => Ascii.eqb c "/"%char || has_slash rest
  end.

(** ** Example data *)

(** A platform that converts through a signed 32-bit integer and answers the
    "integer indefinite" value for NaN and for anything outside its range. *)
Definition x86_cast (x : float) : Z :=
  match trunc x with
  | Some z => if (- 2 ^ 31 <=? z) && (z <? 2 ^ 31) then z else - 2 ^ 31
  | None => - 2 ^ 31
  end.

(** A 4 by 4 plane with the intensities 0, k, 2k, ..., 15k. *)
Definition plane44 (k : Z) : ndarray2 :=
  {| shape2 := (4%nat, 4%nat);
     rows2 := map (fun r => map (fun c => k * (4 * r + c)) [0; 1; 2; 3]) [0; 1; 2; 3] |}.

(** Two frames of three z-slices of 4 by 4 planes, one channel. *)
Definition src44 : OMEImageFile :=
  {| width := 4; height := 4; zstacks := [0; 1; 2]; n_frames := 2; n_channels := 1;
     um_per_pix := 0.5; um_per_z := 2;
     ix_at := fun c z t =>
       if (c =? 0) && (0 <=? z) && (z <? 3) && (0 <=? t) && (t <? 2)
       then Ok (3 * t + z) else Err IndexError;
     image := fun ix => Ok (plane44 (ix + 1)) |}.

Definition roi13 : ImagejRoi := int_roi 1 3 1 3 0.

Definition roi13_float : ImagejRoi :=
  {| left := PyFloat 1; right := PyFloat 3; top := PyFloat 1; bottom := PyFloat 3;
     t_position := 0 |}.

(** A source with a single plane that holds one row of samples. *)
Definition one_row_source (samples : list Z) : OMEImageFile :=
  {| width := Z.of_nat (length samples); height := 1; zstacks := [0];
     n_frames := 1; n_channels := 1; um_per_pix := 1; um_per_z := 1;
     ix_at := fun c z t => Ok 0;
     image := fun ix => Ok {| shape2 := (1%nat, length samples); rows2 := [samples] |} |}.

(** A volume of two samples, both 7. *)
Definition constant_volume : ndarray4 :=
  {| dtype4 := uint16; shape4 := (1%nat, 1%nat, 1%nat, 2%nat); vols4 := [[[[7; 7]]]] |}.

(** An 8-bit volume that already spans 0..255. *)
Definition full_range_volume : ndarray4 :=
  {| dtype4 := uint8; shape4 := (1%nat, 1%nat, 2%nat, 2%nat);
     vols4 := [[[[0; 17]; [128; 255]]]] |}.

(** [int(s)] for a string of ASCII characters: white space around the
    numeral is skipped, a sign may come first, and single underscores may
    separate digits. *)
Definition is_space (c : ascii) : bool :=
  let n := Ascii.nat_of_ascii c in
  (Nat.leb 9 n && Nat.leb n 13) || (Nat.leb 28 n && Nat.leb n 32).

Fixpoint lstrip (s : string) : string :=
  match s with
  | EmptyString => EmptyString
  | String c rest => if is_space c then lstrip rest else s
  end.

Fixpoint all_space (s : string) : bool :=
  match s with
  | EmptyString => true
  | String c rest => is_space c && all_space rest
  end.

(** The digits of a numeral; [after_digit] tells whether the character before
    was a digit, which an underscore and the end need. *)
Fixpoint digits_value (s : string) (acc : Z) (after_digit : bool) : option Z :=
  match s with
  | EmptyString => if after_digit then Some acc else None
  | String c rest =>
      let n := Ascii.nat_of_ascii c in
      if (Nat.leb 48 n && Nat.leb n 57)%bool
      then digits_value rest (10 * acc + Z.of_nat (n - 48)) true
      else if Ascii.eqb c "_"%char && after_digit then digits_value rest acc false
      else if after_digit && all_space s then Some acc
      else None
  end.

Definition decimal_int (s : string) : result Z :=
  match lstrip s with
  | EmptyString => Err ValueError
  | String c rest as numeral =>
      let signed := Ascii.eqb c "-"%char || Ascii.eqb c "+"%char in
      match digits_value (if signed then rest else numeral) 0 false with
      | Some z => Ok (if Ascii.eqb c "-"%char then - z else z)
      | None => Err ValueError
      end
  end.

(** A project file whose [DATA] section selects frame 1 and channel 0 and
    names a region of interest at [roi_path]. *)
Definition example_data (roi_path : string) : gmap string string :=
  list_to_map [("series", "0"); ("frame", "1"); ("channel", "0");
               ("image", "stack.tif"); ("roi", roi_path)]%string.

Definition example_project (roi_path : string) : ConfigParser :=
  {| defaults := ∅; sections := {[ "DATA"%string := example_data roi_path ]} |}.

(** The region of interest file of the examples: time position 0. *)
Definition example_read_config (roi_path : string) : result ExportConfig.t :=
  read_config (fun _ => Ok (example_project roi_path)) decimal_int (fun _ => Err ValueError)
    (fun _ => Ok roi13) (fun _ _ => Ok src44) (Path_of_string "example.cfg").

(** A 2 by 2 by 3 array of bytes. *)
Definition small_volume : ndarray3 :=
  {| dtype3 := uint8; shape3 := (2%nat, 2%nat, 3%nat);
     planes3 := [[[1; 2; 3]; [4; 5; 6]]; [[7; 8; 9]; [10; 11; 12]]] |}.

(** A writer that fails after the first byte of the image buffer and leaves
    the torn file behind. *)
Definition torn_writer (vtk_image : vtkImageImport) (filename : string)
    (fs : gmap string node) : gmap string node :=
  <[filename := File (firstn 1 (import_void_pointer vtk_image))]> fs.

(** A configuration of the example source with the frame selection [F]. *)
Definition example_cfg (F : list Z) : ExportConfig.t :=
  {| ExportConfig.series := 0;
     ExportConfig.frames := F;
     ExportConfig.channels := [0];
     ExportConfig.path := Path_of_string ".";
     ExportConfig.name := "example.cfg";
     ExportConfig.image_file := src44;
     ExportConfig.roi := None;
     ExportConfig.um_per_z := 2 |}.

(** A writer that completes and stores the image buffer, and an [ensure_dir]
    that records the directory. *)
Definition buffer_writer (vtk_image : vtkImageImport) (filename : string)
    (fs : gmap string node) : gmap string node :=
  <[filename := File (import_void_pointer vtk_image)]> fs.

Definition record_dir (p : Path) (fs : gmap string node) : result (Path * gmap string node) :=
  Ok (p, <[as_posix p := Dir]> fs).

Definition example_export (F : list Z) : result (gmap string node) :=
  export_channel x86_cast buffer_writer record_dir (Path_of_string "example.cfg")
    (example_cfg F) ∅ 0.

(** A project file that selects every frame, channel 1, gives the z spacing
    and names no region of interest. *)
Definition example_data_plain : gmap string string :=
  list_to_map [("series", "0"); ("frame", "all"); ("channel", "1");
               ("image", "stack.tif"); ("um_per_z", "0.5")]%string.

Definition example_project_plain : ConfigParser :=
  {| defaults := ∅; sections := {[ "DATA"%string := example_data_plain ]} |}.

(** [float] on the one numeral of the examples. *)
Definition example_float (s : string) : result float :=
  if String.eqb s "0.5" then Ok 0.5%float else Err ValueError.

(** * Properties *)

(** ** The error monad and its loops *)

Lemma bind_Ok {A B : Type} (c : result A) (k : A -> result B) (b : B) :
  bind c k = Ok b -> exists a, c = Ok a /\ k a = Ok b.
Proof. destruct c as [a|e]; simpl; intros H; [eauto | discriminate]. Qed.

Ltac bind_inv H :=
  let a := fresh "a" in
  let Ha := fresh "Ha" in
  apply bind_Ok in H; destruct H as (a & Ha & H).

Tactic Notation "unbind" hyp(H) "as" ident(a) ident(Ha) :=
  apply bind_Ok in H; destruct H as (a & Ha & H).

Lemma for_each_length {A B : Type} (f : A -> result B) (l : list A) (ys : list B) :
  for_each f l = Ok ys -> length ys = length l.
Proof.
  revert ys; induction l as [|x l IH]; simpl; intros ys H.
  - injection H as <-; reflexivity.
  - bind_inv H. bind_inv H. injection H as <-. simpl. f_equal. auto.
Qed.

Lemma for_each_Forall {A B : Type} (f : A -> result B) (P : B -> Prop) (l : list A)
    (ys : list B) :
  (forall x y, In x l -> f x = Ok y -> P y) ->
  for_each f l = Ok ys -> Forall P ys.
Proof.
  revert ys; induction l as [|x l IH]; simpl; intros ys HP H.
  - injection H as <-; constructor.
  - bind_inv H. bind_inv H. injection H as <-. constructor; eauto.
Qed.

Lemma for_each_total {A B : Type} (f : A -> result B) (l : list A) :
  (forall x, In x l -> exists y, f x = Ok y) ->
  exists ys, for_each f l = Ok ys.
Proof.
  induction l as [|x l IH]; simpl; intros H.
  - eauto.
  - destruct (H x) as [y Hy]; [auto|].
    destruct IH as [ys Hys]; [auto|].
    exists (y :: ys). rewrite Hy, Hys. reflexivity.
Qed.

(** ** Slices and broadcasting keep arrays rectangular *)

Lemma slice_bound_range (i n : Z) : 0 <= n -> 0 <= slice_bound i n <= n.
Proof. unfold slice_bound; intros; destruct (Z.ltb_spec i 0); lia. Qed.

Lemma py_slice_length {A : Type} (start stop : Z) (l : list A) :
  length (py_slice start stop l) = slice_len start stop (length l).
Proof.
  unfold py_slice. rewrite length_firstn, length_skipn.
  unfold slice_len.
  pose proof (slice_bound_range start (Z.of_nat (length l)) ltac:(lia)).
  pose proof (slice_bound_range stop (Z.of_nat (length l)) ltac:(lia)).
  lia.
Qed.

Lemma In_firstn_list {A : Type} (n : nat) (l : list A) (x : A) :
  In x (firstn n l) -> In x l.
Proof.
  intros H. rewrite <- (firstn_skipn n l). apply in_or_app. auto.
Qed.

Lemma In_skipn_list {A : Type} (n : nat) (l : list A) (x : A) :
  In x (skipn n l) -> In x l.
Proof.
  intros H. rewrite <- (firstn_skipn n l). apply in_or_app. auto.
Qed.

Lemma py_slice_In {A : Type} (start stop : Z) (l : list A) (x : A) :
  In x (py_slice start stop l) -> In x l.
Proof.
  unfold py_slice; intros H.
  apply In_firstn_list in H. apply In_skipn_list in H. assumption.
Qed.

Lemma slice2_wf (a : ndarray2) (y0 y1 x0 x1 : Z) : wf2 a -> wf2 (slice2 a y0 y1 x0 x1).
Proof.
  intros [Hlen Hrows]. unfold wf2, slice2, has_shape2; simpl. split.
  - rewrite length_map, py_slice_length, Hlen. reflexivity.
  - apply List.Forall_forall. intros r Hr. apply in_map_iff in Hr as (r0 & <- & Hr0).
    rewrite py_slice_length. f_equal.
    rewrite List.Forall_forall in Hrows. apply Hrows. eapply py_slice_In; eauto.
Qed.

Lemma broadcast_axis_length {A : Type} (n : nat) (l : list A) :
  broadcastable (length l) n = true -> length (broadcast_axis n l) = n.
Proof.
  unfold broadcastable. intros H. apply orb_true_iff in H.
  assert (Hl : length l = n \/ length l = 1%nat)
    by (destruct H as [H|H]; apply Nat.eqb_eq in H; auto).
  clear H. destruct l as [|x [|y l]]; simpl in *.
  - destruct Hl; [auto | discriminate].
  - apply repeat_length.
  - destruct Hl; [auto | discriminate].
Qed.

Lemma broadcast_axis_In {A : Type} (n : nat) (l : list A) (x : A) :
  In x (broadcast_axis n l) -> In x l.
Proof.
  destruct l as [|y [|z l]]; simpl; auto.
  intros H. apply repeat_spec in H. auto.
Qed.

Lemma assign_plane_shape (h w : nat) (src : ndarray2) (rows : list (list Z)) :
  wf2 src -> assign_plane h w src = Ok rows -> has_shape2 h w rows.
Proof.
  unfold assign_plane, wf2. destruct (shape2 src) as [hs ws]; simpl.
  intros [Hlen Hrows] H.
  destruct (broadcastable hs h && broadcastable ws w) eqn:Hb; [|discriminate].
  apply andb_true_iff in Hb as [Hb1 Hb2]. injection H as <-.
  split.
  - rewrite length_map. apply broadcast_axis_length. rewrite Hlen. assumption.
  - apply List.Forall_forall. intros r Hr. apply in_map_iff in Hr as (r0 & <- & Hr0).
    rewrite length_map. apply broadcast_axis_length.
    apply broadcast_axis_In in Hr0.
    rewrite List.Forall_forall in Hrows. rewrite (Hrows _ Hr0). assumption.
Qed.

Lemma wrap_in_dtype (d : dtype) (z : Z) : in_dtype d (wrap d z).
Proof.
  unfold in_dtype, wrap. apply Z.mod_pos_bound. destruct d; reflexivity.
Qed.

Lemma assign_plane_uint16 (h w : nat) (src : ndarray2) (rows : list (list Z)) :
  assign_plane h w src = Ok rows -> Forall (Forall (in_dtype uint16)) rows.
Proof.
  unfold assign_plane. destruct (shape2 src) as [hs ws].
  destruct (_ && _); [|discriminate]. intros H; injection H as <-.
  apply List.Forall_forall. intros r Hr. apply in_map_iff in Hr as (r0 & <- & _).
  apply List.Forall_forall. intros v Hv. apply in_map_iff in Hv as (v0 & <- & _).
  apply wrap_in_dtype.
Qed.

(** ** Elementwise maps keep the shape *)

Lemma map_has_shape2 (f : Z -> Z) (h w : nat) (rows : list (list Z)) :
  has_shape2 h w rows -> has_shape2 h w (map (map f) rows).
Proof.
  intros [Hl Hr]. split; [rewrite length_map; assumption|].
  apply List.Forall_map. eapply List.Forall_impl; [|exact Hr].
  simpl. intros r <-. apply length_map.
Qed.

Lemma map_has_shape3 (f : Z -> Z) (nz h w : nat) (planes : list (list (list Z))) :
  has_shape3 nz h w planes -> has_shape3 nz h w (map (map (map f)) planes).
Proof.
  intros [Hl Hp]. split; [rewrite length_map; assumption|].
  apply List.Forall_map. eapply List.Forall_impl; [|exact Hp].
  intros p. apply map_has_shape2.
Qed.

Lemma map_has_shape4 (f : Z -> Z) (nt nz h w : nat) (vols : list (list (list (list Z)))) :
  has_shape4 nt nz h w vols -> has_shape4 nt nz h w (map4 f vols).
Proof.
  intros [Hl Hv]. split; [unfold map4; rewrite length_map; assumption|].
  apply List.Forall_map. eapply List.Forall_impl; [|exact Hv].
  intros v. apply map_has_shape3.
Qed.

Lemma elems3_map (f : Z -> Z) (planes : list (list (list Z))) :
  elems3 (map (map (map f)) planes) = map f (elems3 planes).
Proof.
  unfold elems3. rewrite <- !concat_map. reflexivity.
Qed.

Lemma elems4_map (f : Z -> Z) (vols : list (list (list (list Z)))) :
  elems4 (map4 f vols) = map f (elems4 vols).
Proof.
  unfold elems4, map4. rewrite concat_map, !map_map. f_equal.
  apply map_ext. intros v. apply elems3_map.
Qed.

Lemma cast_in_range_bound (x : float) (z : Z) :
  cast_in_range x = Some z -> 0 <= z < 256.
Proof.
  unfold cast_in_range. destruct (trunc x) as [t|]; [|discriminate].
  destruct ((0 <=? t) && (t <? 256)) eqn:Hb; [|discriminate].
  intros H; injection H as <-. apply andb_true_iff in Hb as [H1 H2].
  apply Z.leb_le in H1. apply Z.ltb_lt in H2. lia.
Qed.

Lemma cast_uint8_byte (undef_cast : float -> Z) (x : float) :
  in_dtype uint8 (cast_uint8 undef_cast x).
Proof.
  unfold cast_uint8, in_dtype. simpl.
  destruct (cast_in_range x) as [z|] eqn:Hz.
  - apply cast_in_range_bound in Hz. lia.
  - apply Z.mod_pos_bound. lia.
Qed.

(** ** Assembly *)

Lemma elems_Forall (P : Z -> Prop) (vols : list (list (list (list Z)))) :
  Forall (Forall (Forall (Forall P))) vols -> Forall P (elems4 vols).
Proof.
  intros H. unfold elems4, elems3.
  apply List.Forall_concat, List.Forall_map. eapply List.Forall_impl; [|exact H].
  intros v Hv. apply List.Forall_concat, List.Forall_concat.
  assumption.
Qed.

Lemma assemble_inv (src : OMEImageFile) (frames : list Z) (roi : option ImagejRoi)
    (channel : Z) (img : ndarray4) :
  assemble src frames roi channel = Ok img ->
  exists w h x0 y0 x1 y1 hn wn,
    crop_rectangle src roi = Ok (w, h, x0, y0, x1, y1)
    /\ np_dim h = Ok hn /\ np_dim w = Ok wn
    /\ dtype4 img = uint16
    /\ shape4 img = (length frames, length (zstacks src), hn, wn)
    /\ Forall (in_dtype uint16) (elems4 (vols4 img))
    /\ (planes_wf src ->
        has_shape4 (length frames) (length (zstacks src)) hn wn (vols4 img)).
Proof.
  unfold assemble. intros H. bind_inv H.
  destruct a as [[[[[w h] x0] y0] x1] y1].
  bind_inv H. rename a into hn. bind_inv H. rename a into wn.
  bind_inv H. rename a into vols. injection H as <-. simpl.
  exists w, h, x0, y0, x1, y1, hn, wn.
  split; [assumption|]. split; [assumption|]. split; [assumption|].
  split; [reflexivity|]. split; [reflexivity|]. split.
  - apply elems_Forall.
    eapply for_each_Forall; [|exact Ha2]. intros fr v _ Hv.
    eapply for_each_Forall; [|exact Hv]. intros z rows _ Hrows.
    unfold read_plane in Hrows. bind_inv Hrows. bind_inv Hrows.
    eapply assign_plane_uint16; eauto.
  - intros Hwf. split; [eapply for_each_length; eauto|].
    eapply for_each_Forall; [|exact Ha2]. intros fr v _ Hv. simpl in Hv.
    split; [eapply for_each_length; eauto|].
    eapply for_each_Forall; [|exact Hv]. intros z rows _ Hrows.
    unfold read_plane in Hrows. bind_inv Hrows. bind_inv Hrows.
    eapply assign_plane_shape; [|exact Hrows]. apply slice2_wf. eauto.
Qed.

Lemma normalize_inv (undef_cast : float -> Z) (image out : ndarray4) :
  normalize undef_cast image = Ok out ->
  exists lo hi,
    list_min (elems4 (vols4 image)) = Ok lo
    /\ list_max (elems4 (vols4 image)) = Ok hi
    /\ dtype4 out = uint8
    /\ shape4 out = shape4 image
    /\ vols4 out =
       map4 (normalize_elem undef_cast (dtype4 image) lo
               (PrimFloat.div (float_of_uint (wrap (dtype4 image) (hi - lo))) 255))
            (vols4 image).
Proof.
  unfold normalize. intros H. bind_inv H. bind_inv H. injection H as <-.
  simpl. eauto 10.
Qed.

Lemma normalize_wf (undef_cast : float -> Z) (image out : ndarray4) :
  normalize undef_cast image = Ok out ->
  (let '(nt, nz, h, w) := shape4 image in has_shape4 nt nz h w (vols4 image)) ->
  wf4 out.
Proof.
  intros H Hs. apply normalize_inv in H as (lo & hi & _ & _ & Hd & Hsh & Hv).
  unfold wf4. rewrite Hd, Hsh, Hv.
  destruct (shape4 image) as [[[nt nz] h] w]. split.
  - apply map_has_shape4. assumption.
  - rewrite elems4_map. apply List.Forall_map, List.Forall_forall.
    intros v _. apply cast_uint8_byte.
Qed.

Lemma assemble_total (src : OMEImageFile) (frames : list Z) (roi : option ImagejRoi)
    (channel : Z) (w h : pynum) (x0 y0 x1 y1 : Z) (hn wn H W : nat) :
  crop_rectangle src roi = Ok (w, h, x0, y0, x1, y1) ->
  np_dim h = Ok hn -> np_dim w = Ok wn ->
  planes_available src frames channel H W ->
  slice_len y0 y1 H = hn -> slice_len x0 x1 W = wn ->
  exists img, assemble src frames roi channel = Ok img.
Proof.
  intros Hrect Hh Hw Hav Hsy Hsx. unfold assemble.
  rewrite Hrect; simpl. rewrite Hh; simpl. rewrite Hw; simpl.
  destruct (for_each_total
    (fun frame => for_each (read_plane src channel hn wn x0 y0 x1 y1 frame) (zstacks src))
    frames) as [vols Hvols].
  - intros frame Hfr. apply for_each_total. intros z Hz.
    destruct (Hav frame z Hfr Hz) as (ix & p & Hix & Hp & Hshape).
    unfold read_plane. rewrite Hix; simpl. rewrite Hp; simpl.
    unfold assign_plane, slice2; simpl. rewrite Hshape; simpl.
    rewrite Hsy, Hsx. unfold broadcastable. rewrite !Nat.eqb_refl. simpl. eauto.
  - rewrite Hvols. simpl. eauto.
Qed.

Lemma has_shape4_nonempty (nt nz h w : nat) (vols : list (list (list (list Z)))) :
  has_shape4 nt nz h w vols ->
  (0 < nt)%nat -> (0 < nz)%nat -> (0 < h)%nat -> (0 < w)%nat ->
  elems4 vols <> [].
Proof.
  intros [Hl Hv] Hnt Hnz Hh Hw.
  destruct vols as [|v vols]; [simpl in Hl; lia|].
  inversion Hv as [|? ? [Hlv Hp] _]; subst.
  destruct v as [|p v]; [simpl in Hnz; lia|].
  inversion Hp as [|? ? [Hlp Hr] _]; subst.
  destruct p as [|r p]; [simpl in Hh; lia|].
  inversion Hr as [|? ? Hlr _]; subst.
  destruct r as [|x r]; [simpl in Hw; lia|].
  discriminate.
Qed.

Lemma normalize_total (undef_cast : float -> Z) (image : ndarray4) :
  elems4 (vols4 image) <> [] -> exists out, normalize undef_cast image = Ok out.
Proof.
  intros Hne. unfold normalize.
  destruct (elems4 (vols4 image)) as [|x l]; [congruence|]. simpl. eauto.
Qed.

Lemma length_nonempty {A : Type} (l : list A) : l <> [] -> (0 < length l)%nat.
Proof. destruct l; [congruence | simpl; lia]. Qed.

(** ** The shape of the assembled volume *)

Lemma timeseries_dims (undef_cast : float -> Z) (src : OMEImageFile) (frames : list Z)
    (roi : option ImagejRoi) (channel : Z) (img : ndarray4) :
  planes_wf src ->
  bioformats_to_ndarray_zstack_timeseries undef_cast src frames roi channel = Ok img ->
  exists w h x0 y0 x1 y1 hn wn,
    crop_rectangle src roi = Ok (w, h, x0, y0, x1, y1)
    /\ np_dim h = Ok hn /\ np_dim w = Ok wn
    /\ shape4 img = (length frames, length (zstacks src), hn, wn)
    /\ wf4 img.
Proof.
  intros Hwf H. unfold bioformats_to_ndarray_zstack_timeseries in H.
  bind_inv H. rename a into raw.
  destruct (assemble_inv _ _ _ _ _ Ha)
    as (w & h & x0 & y0 & x1 & y1 & hn & wn & Hr & Hh & Hw & Hd & Hs & _ & Hshape).
  exists w, h, x0, y0, x1, y1, hn, wn.
  split; [assumption|]. split; [assumption|]. split; [assumption|]. split.
  - apply normalize_inv in H as (lo & hi & _ & _ & _ & Hsh & _). congruence.
  - eapply normalize_wf; [exact H|]. rewrite Hs. auto.
Qed.

Lemma timeseries_total (undef_cast : float -> Z) (src : OMEImageFile) (frames : list Z)
    (roi : option ImagejRoi) (channel : Z) (w h : pynum) (x0 y0 x1 y1 : Z)
    (hn wn H W : nat) :
  planes_wf src ->
  crop_rectangle src roi = Ok (w, h, x0, y0, x1, y1) ->
  np_dim h = Ok hn -> np_dim w = Ok wn ->
  planes_available src frames channel H W ->
  slice_len y0 y1 H = hn -> slice_len x0 x1 W = wn ->
  frames <> [] -> zstacks src <> [] -> (0 < hn)%nat -> (0 < wn)%nat ->
  exists img,
    bioformats_to_ndarray_zstack_timeseries undef_cast src frames roi channel = Ok img.
Proof.
  intros Hwf Hr Hh Hw Hav Hsy Hsx Hfr Hz Hhn Hwn.
  destruct (assemble_total _ _ _ _ _ _ _ _ _ _ _ _ _ _ Hr Hh Hw Hav Hsy Hsx) as [raw Hraw].
  unfold bioformats_to_ndarray_zstack_timeseries. rewrite Hraw. simpl.
  apply normalize_total.
  destruct (assemble_inv _ _ _ _ _ Hraw)
    as (w' & h' & x0' & y0' & x1' & y1' & hn' & wn' & Hr' & Hh' & Hw' & _ & _ & _ & Hshape).
  rewrite Hr in Hr'. injection Hr' as <- <- <- <- <- <-.
  rewrite Hh in Hh'. injection Hh' as <-. rewrite Hw in Hw'. injection Hw' as <-.
  eapply has_shape4_nonempty; eauto using length_nonempty.
Qed.

Lemma slice_len_window (x0 n : Z) (N : nat) :
  0 <= x0 -> 0 <= n -> x0 + n <= Z.of_nat N -> slice_len x0 (x0 + n) N = Z.to_nat n.
Proof.
  intros H0 Hn HN. unfold slice_len, slice_bound.
  destruct (Z.ltb_spec (x0 + n) 0); destruct (Z.ltb_spec x0 0); f_equal; lia.
Qed.

(** X19.  The shape of the volume without a region of interest, and with one
    whose bounds are integers.  Whenever the function returns a volume, the
    last two dimensions are the source's (height, width) without a region of
    interest and (abs(top - bottom), abs(right - left)) with one, and the
    data has the declared shape.  It does return one when the frame and z
    lists are not empty, every requested plane is available with the shape of
    the source, and the region has positive width and height and lies inside
    the plane. *)
Theorem assembled_volume_dims (undef_cast : float -> Z) (src : OMEImageFile)
    (frames : list Z) (channel : Z) :
  planes_wf src ->
  (forall img,
      bioformats_to_ndarray_zstack_timeseries undef_cast src frames None channel = Ok img ->
      last_two_dims img = (height src, width src) /\ wf4 img)
  /\ (frames <> [] -> zstacks src <> [] -> 0 < height src -> 0 < width src ->
      planes_available src frames channel (Z.to_nat (height src)) (Z.to_nat (width src)) ->
      exists img,
        bioformats_to_ndarray_zstack_timeseries undef_cast src frames None channel = Ok img)
  /\ (forall l r t b tpos img,
      bioformats_to_ndarray_zstack_timeseries undef_cast src frames
        (Some (int_roi l r t b tpos)) channel = Ok img ->
      last_two_dims img = (Z.abs (t - b), Z.abs (r - l)) /\ wf4 img)
  /\ (forall l r t b tpos H W,
      frames <> [] -> zstacks src <> [] -> 0 < Z.abs (t - b) -> 0 < Z.abs (r - l) ->
      planes_available src frames channel H W -> roi_inside l r t b H W ->
      exists img,
        bioformats_to_ndarray_zstack_timeseries undef_cast src frames
          (Some (int_roi l r t b tpos)) channel = Ok img).
Proof.
  intros Hwf. split; [|split; [|split]].
  - intros img H.
    destruct (timeseries_dims _ _ _ _ _ _ Hwf H)
      as (w & h & x0 & y0 & x1 & y1 & hn & wn & Hr & Hh & Hw & Hs & Hwf4).
    split; [|assumption].
    simpl in Hr. injection Hr as <- <- <- <- <- <-.
    unfold last_two_dims. rewrite Hs. simpl in Hh, Hw.
    destruct (Z.ltb_spec (height src) 0); [discriminate|].
    destruct (Z.ltb_spec (width src) 0); [discriminate|].
    injection Hh as <-. injection Hw as <-. f_equal; lia.
  - intros Hfr Hz Hh Hw Hav.
    eapply (timeseries_total undef_cast src frames None channel
              (PyInt (width src)) (PyInt (height src)) 0 0 (width src) (height src)
              (Z.to_nat (height src)) (Z.to_nat (width src))
              (Z.to_nat (height src)) (Z.to_nat (width src)));
      eauto.
    + simpl. destruct (Z.ltb_spec (height src) 0); [lia | reflexivity].
    + simpl. destruct (Z.ltb_spec (width src) 0); [lia | reflexivity].
    + rewrite <- (Z.add_0_l (height src)) at 1. apply slice_len_window; lia.
    + rewrite <- (Z.add_0_l (width src)) at 1. apply slice_len_window; lia.
    + lia.
    + lia.
  - intros l r t b tpos img H.
    destruct (timeseries_dims _ _ _ _ _ _ Hwf H)
      as (w & h & x0 & y0 & x1 & y1 & hn & wn & Hr & Hh & Hw & Hs & Hwf4).
    split; [|assumption].
    simpl in Hr. injection Hr as <- <- <- <- <- <-.
    unfold last_two_dims. rewrite Hs. simpl in Hh, Hw.
    destruct (Z.ltb_spec (Z.abs (t - b)) 0); [discriminate|].
    destruct (Z.ltb_spec (Z.abs (r - l)) 0); [discriminate|].
    injection Hh as <-. injection Hw as <-. f_equal; lia.
  - intros l r t b tpos H W Hfr Hz Hh Hw Hav (Hl & HlW & Ht & HtH).
    eapply (timeseries_total undef_cast src frames (Some (int_roi l r t b tpos)) channel
              (PyInt (Z.abs (r - l))) (PyInt (Z.abs (t - b)))
              l t (l + Z.abs (r - l)) (t + Z.abs (t - b))
              (Z.to_nat (Z.abs (t - b))) (Z.to_nat (Z.abs (r - l))) H W);
      eauto.
    + simpl. destruct (Z.ltb_spec (Z.abs (t - b)) 0); [lia | reflexivity].
    + simpl. destruct (Z.ltb_spec (Z.abs (r - l)) 0); [lia | reflexivity].
    + apply slice_len_window; lia.
    + apply slice_len_window; lia.
    + lia.
    + lia.
Qed.

Lemma py_sub_float (a b : pynum) (v : pynum) :
  (forall x y, (a, b) <> (PyInt x, PyInt y)) ->
  py_sub a b = Ok v -> exists f, v = PyFloat f.
Proof.
  intros Hne H. destruct a as [x|fa], b as [y|fb]; simpl in H.
  - exfalso. apply (Hne x y). reflexivity.
  - bind_inv H. injection H as <-. eauto.
  - bind_inv H. injection H as <-. eauto.
  - injection H as <-. eauto.
Qed.

(** A region of interest with a floating bound: the derived width or height is
    a float, and [np.empty] refuses a float as a dimension. *)
Lemma float_bound_raises (src : OMEImageFile) (frames : list Z) (r : ImagejRoi)
    (channel : Z) :
  (forall l r' t b, (left r, right r, top r, bottom r) <> (PyInt l, PyInt r', PyInt t, PyInt b)) ->
  exists e, assemble src frames (Some r) channel = Err e.
Proof.
  intros Hf. destruct (assemble src frames (Some r) channel) as [img|e] eqn:H; [|eauto].
  exfalso.
  destruct (assemble_inv _ _ _ _ _ H)
    as (w & h & x0 & y0 & x1 & y1 & hn & wn & Hr & Hh & Hw & _).
  simpl in Hr. bind_inv Hr. bind_inv Hr. bind_inv Hr. bind_inv Hr.
  bind_inv Hr. bind_inv Hr. bind_inv Hr. bind_inv Hr.
  injection Hr as <- <- <- <- <- <-.
  destruct (left r) as [l|fl] eqn:El, (right r) as [r'|fr] eqn:Er;
    try (apply py_sub_float in Ha as [f ->]; [discriminate | intros ? ?; congruence]).
  destruct (top r) as [t|ft] eqn:Et, (bottom r) as [b|fb] eqn:Eb;
    try (apply py_sub_float in Ha0 as [f ->]; [discriminate | intros ? ?; congruence]).
  apply (Hf l r' t b). reflexivity.
Qed.

Lemma src44_planes_wf : planes_wf src44.
Proof.
  intros ix p H. injection H as <-. split; [reflexivity|].
  simpl. repeat constructor.
Qed.

Lemma src44_planes_available : planes_available src44 [0; 1] 0 4 4.
Proof.
  intros frame z Hf Hz. simpl in Hf, Hz.
  destruct Hf as [<-|[<-|[]]]; destruct Hz as [<-|[<-|[<-|[]]]]; simpl; eauto.
Qed.

(** The example source with the region (1, 3, 1, 3): a volume comes back and
    its last two dimensions are (2, 2). *)
Lemma assembled_volume_dims_witness :
  exists img,
    bioformats_to_ndarray_zstack_timeseries x86_cast src44 [0; 1] (Some roi13) 0 = Ok img
    /\ last_two_dims img = (2, 2).
Proof.
  destruct (assembled_volume_dims x86_cast src44 [0; 1] 0 src44_planes_wf)
    as (_ & _ & Hdims & Htotal).
  destruct (Htotal 1 3 1 3 0 4%nat 4%nat) as [img Himg].
  - discriminate.
  - discriminate.
  - reflexivity.
  - reflexivity.
  - exact src44_planes_available.
  - unfold roi_inside. simpl. lia.
  - exists img. split; [exact Himg|]. exact (proj1 (Hdims 1 3 1 3 0 img Himg)).
Defined.

(** C1 fails on the code for floating bounds.  For the region with the
    bounds 1.0, 3.0, 1.0, 3.0 lines 30-33 convert the corners to the integers
    1, 1, 3, 3, but the width and the height stay the positive floats 2.0; line
    43 hands them to [np.empty], which raises [TypeError], and no volume with
    the last two dimensions (2, 2) comes back. *)
Lemma float_roi_no_volume :
  crop_rectangle src44 (Some roi13_float) = Ok (PyFloat 2, PyFloat 2, 1, 1, 3, 3)
  /\ bioformats_to_ndarray_zstack_timeseries x86_cast src44 [0; 1] (Some roi13_float) 0
     = Err TypeError
  /\ ~ (exists img,
         bioformats_to_ndarray_zstack_timeseries x86_cast src44 [0; 1] (Some roi13_float) 0
         = Ok img
         /\ last_two_dims img = (2, 2)).
Proof.
  split; [vm_compute; reflexivity|]. split; [vm_compute; reflexivity|].
  intros (img & H & _). vm_compute in H. discriminate.
Qed.

(** ** Normalization *)

Lemma fold_min_le (l : list Z) (x : Z) :
  fold_left Z.min l x <= x /\ (forall y, In y l -> fold_left Z.min l x <= y).
Proof.
  revert x; induction l as [|a l IH]; simpl; intros x.
  - split; [lia | tauto].
  - destruct (IH (Z.min x a)) as [H1 H2]. split; [lia|].
    intros y [<-|Hy]; [lia | auto].
Qed.

Lemma fold_min_In (l : list Z) (x : Z) : In (fold_left Z.min l x) (x :: l).
Proof.
  revert x; induction l as [|a l IH]; simpl; intros x; [auto|].
  destruct (IH (Z.min x a)) as [H|H]; [|auto].
  rewrite <- H. destruct (Z.min_spec x a) as [[_ ->]|[_ ->]]; auto.
Qed.

Lemma fold_max_ge (l : list Z) (x : Z) :
  x <= fold_left Z.max l x /\ (forall y, In y l -> y <= fold_left Z.max l x).
Proof.
  revert x; induction l as [|a l IH]; simpl; intros x.
  - split; [lia | tauto].
  - destruct (IH (Z.max x a)) as [H1 H2]. split; [lia|].
    intros y [<-|Hy]; [lia | auto].
Qed.

Lemma fold_max_In (l : list Z) (x : Z) : In (fold_left Z.max l x) (x :: l).
Proof.
  revert x; induction l as [|a l IH]; simpl; intros x; [auto|].
  destruct (IH (Z.max x a)) as [H|H]; [|auto].
  rewrite <- H. destruct (Z.max_spec x a) as [[_ ->]|[_ ->]]; auto.
Qed.

Lemma list_min_is_min (l : list Z) (lo : Z) : is_min lo l -> list_min l = Ok lo.
Proof.
  intros [Hin Hle]. destruct l as [|x l]; [destruct Hin|]. simpl. f_equal.
  pose proof (fold_min_le l x) as [H1 H2]. pose proof (fold_min_In l x) as H3.
  apply Z.le_antisymm.
  - destruct Hin as [<-|Hin]; auto.
  - apply Hle. assumption.
Qed.

Lemma list_max_is_max (l : list Z) (hi : Z) : is_max hi l -> list_max l = Ok hi.
Proof.
  intros [Hin Hle]. destruct l as [|x l]; [destruct Hin|]. simpl. f_equal.
  pose proof (fold_max_ge l x) as [H1 H2]. pose proof (fold_max_In l x) as H3.
  apply Z.le_antisymm.
  - apply Hle. assumption.
  - destruct Hin as [<-|Hin]; auto.
Qed.

Lemma wrap_id (d : dtype) (z : Z) : in_dtype d z -> wrap d z = z.
Proof. unfold wrap, in_dtype. intros H. apply Z.mod_small. assumption. Qed.

Lemma In_elems4 (v : Z) (vols : list (list (list (list Z))))
    (vol : list (list (list Z))) (p : list (list Z)) (r : list Z) :
  In vol vols -> In p vol -> In r p -> In v r -> In v (elems4 vols).
Proof.
  intros H1 H2 H3 H4. unfold elems4, elems3.
  apply in_concat. exists (concat (concat vol)). split.
  - apply in_map_iff. eauto.
  - apply in_concat. exists r. split; [|assumption].
    apply in_concat. eauto.
Qed.

Lemma map4_ext_in (f g : Z -> Z) (vols : list (list (list (list Z)))) :
  (forall v, In v (elems4 vols) -> f v = g v) -> map4 f vols = map4 g vols.
Proof.
  intros H. unfold map4.
  apply map_ext_in. intros vol Hvol.
  apply map_ext_in. intros p Hp.
  apply map_ext_in. intros r Hr.
  apply map_ext_in. intros v Hv.
  apply H. eapply In_elems4; eauto.
Qed.

(** Line 56 on an array whose samples fit its type: every sample is scaled
    with the least and the greatest one. *)
Lemma normalize_scaled (undef_cast : float -> Z) (image : ndarray4) (lo hi : Z) :
  Forall (in_dtype (dtype4 image)) (elems4 (vols4 image)) ->
  is_min lo (elems4 (vols4 image)) ->
  is_max hi (elems4 (vols4 image)) ->
  normalize undef_cast image
  = Ok {| dtype4 := uint8;
          shape4 := shape4 image;
          vols4 := map4 (scaled_sample undef_cast lo hi) (vols4 image) |}.
Proof.
  intros Hrange Hlo Hhi. unfold normalize.
  rewrite (list_min_is_min _ _ Hlo), (list_max_is_max _ _ Hhi). simpl.
  rewrite List.Forall_forall in Hrange.
  pose proof (Hrange lo (proj1 Hlo)) as Hlo_range.
  pose proof (Hrange hi (proj1 Hhi)) as Hhi_range.
  pose proof (proj2 Hlo hi (proj1 Hhi)) as Hle.
  assert (Hsub : forall v, In v (elems4 (vols4 image)) ->
                           wrap (dtype4 image) (v - lo) = v - lo).
  { intros v Hv. apply wrap_id.
    pose proof (Hrange v Hv) as Hv_range. pose proof (proj2 Hlo v Hv) as Hlov.
    unfold in_dtype in *. lia. }
  f_equal. f_equal. apply map4_ext_in. intros v Hv.
  unfold normalize_elem, scaled_sample.
  rewrite (Hsub v Hv), (Hsub hi (proj1 Hhi)). reflexivity.
Qed.

(** C2 as stated fails: for the samples 0, 1, 300 the middle quotient is
    0.85, which the specification rounds to 1 and the code truncates to 0. *)
Lemma normalized_sample_not_rounded :
  assemble (one_row_source [0; 1; 300]) [0] None 0
  = Ok {| dtype4 := uint16; shape4 := (1%nat, 1%nat, 1%nat, 3%nat);
          vols4 := [[[[0; 1; 300]]]] |}
  /\ bioformats_to_ndarray_zstack_timeseries x86_cast (one_row_source [0; 1; 300]) [0] None 0
     = Ok {| dtype4 := uint8; shape4 := (1%nat, 1%nat, 1%nat, 3%nat);
             vols4 := [[[[0; 0; 255]]]] |}
  /\ map (spec_normalize_elem 0 300) [0; 1; 300] = [Some 0; Some 1; Some 255].
Proof.
  split; [vm_compute; reflexivity|]. split; vm_compute; reflexivity.
Qed.

(** C3 fails on the code.  With the samples 0 and 33 the quotient
    [33 / (33 / 255.0)] is the binary64 number just below 255 and the cast
    keeps 254; the same happens in the scenario of two frames of three 4 by 4
    planes with linearly increasing intensities, whose peak is 90: the output
    spans 0..254. *)
Theorem normalized_peak_below_255 (undef_cast : float -> Z) :
  bioformats_to_ndarray_zstack_timeseries undef_cast (one_row_source [0; 33]) [0] None 0
  = Ok {| dtype4 := uint8; shape4 := (1%nat, 1%nat, 1%nat, 2%nat);
          vols4 := [[[[0; 254]]]] |}
  /\ exists out,
       bioformats_to_ndarray_zstack_timeseries undef_cast src44 [0; 1] None 0 = Ok out
       /\ list_min (elems4 (vols4 out)) = Ok 0
       /\ list_max (elems4 (vols4 out)) = Ok 254.
Proof.
  split; [vm_compute; reflexivity|].
  eexists. split; [vm_compute; reflexivity|].
  split; vm_compute; reflexivity.
Qed.

Lemma all_from_spec (test : Z -> bool) (n : nat) (r x : Z) :
  all_from test r n = true -> r <= x < r + Z.of_nat n -> test x = true.
Proof.
  revert r. induction n as [|n IH]; intros r H Hx; [lia|].
  simpl in H. apply andb_true_iff in H as [Hr Hrest].
  destruct (Z.eq_dec x r) as [->|Hne]; [assumption|].
  apply (IH (r + 1)); [assumption | lia].
Qed.

(** Checked on each of the 65535 ranges a [uint16] volume can have. *)
Lemma endpoints_checked : all_from endpoints_ok 1 (Z.to_nat 65535) = true.
Proof. vm_compute. reflexivity. Qed.

(** *** The binary64 quotient and the exact one

    Division on binary64 is followed through the kernel's specification of
    the format ([SFdiv]): for two mantissas of 53 bits the result is their
    integer quotient at 53 more bits, up to the last place. *)

Lemma digits2_pos_size (p : positive) : digits2_pos p = Pos.size p.
Proof. induction p as [p IH|p IH|]; simpl; [rewrite IH | rewrite IH |]; reflexivity. Qed.

Lemma Zdigits2_log2 (p : positive) : Zdigits2 (Zpos p) = Z.log2 (Zpos p) + 1.
Proof.
  simpl. rewrite digits2_pos_size. destruct p as [p|p|]; simpl; try reflexivity.
  all: rewrite <- Pos.add_1_r; reflexivity.
Qed.

Lemma Zdigits2_unique (z n : Z) : 0 < n -> 2 ^ (n - 1) <= z < 2 ^ n -> Zdigits2 z = n.
Proof.
  intros Hn Hz. assert (0 < z) by (pose proof (Z.pow_pos_nonneg 2 (n - 1)); lia).
  destruct z as [|p|p]; try lia.
  rewrite Zdigits2_log2. rewrite (Z.log2_unique (Zpos p) (n - 1)); try lia.
  replace (Z.succ (n - 1)) with n by lia. exact Hz.
Qed.

Lemma round_nearest_even_cases (m : Z) (l : location) :
  round_nearest_even m l = m \/ round_nearest_even m l = m + 1.
Proof.
  destruct l as [|[| |]]; simpl; auto. destruct (IntDef.Z.even m); auto.
Qed.

Lemma shr_m_record_of_loc m l : shr_m (shr_record_of_loc m l) = m.
Proof. destruct l as [|[| |]]; reflexivity. Qed.

Lemma fexp_normal (e : Z) : -1074 <= e - 53 -> fexp prec emax e = e - 53.
Proof. intros H. unfold fexp, emin, prec, emax. lia. Qed.

Lemma shr_1_m (m : Z) (r s : bool) :
  0 < m -> shr_m (shr_1 {| shr_m := m; shr_r := r; shr_s := s |}) = m / 2.
Proof.
  intros Hm. destruct m as [|p|p]; try lia. destruct p as [p|p|]; simpl.
  - rewrite Pos2Z.inj_xI. apply Z.div_unique with 1; lia.
  - rewrite Pos2Z.inj_xO. apply Z.div_unique with 0; lia.
  - reflexivity.
Qed.

(** The last step of rounding on a mantissa of 53 bits, or 2^53. *)
Lemma round_finish (sx : bool) (m e : Z) :
  2 ^ 52 <= m <= 2 ^ 53 -> -1074 <= e -> e + 1 <= 971 ->
  exists mq eq,
    (let '(mrs, e'') := shr_fexp prec emax m e loc_Exact in
     match shr_m mrs with
     | 0 => S754_zero sx
     | Z.pos mz => if e'' <=? emax - prec then S754_finite sx mz e'' else S754_infinity sx
     | Z.neg _ => S754_nan
     end) = S754_finite sx mq eq
    /\ e <= eq <= e + 1 /\ Zpos mq * 2 ^ (eq - e) = m.
Proof.
  intros Hm He1 He2.
  destruct (Z.eq_dec m (2 ^ 53)) as [->|Hne].
  - exists (Z.to_pos (2 ^ 52)), (e + 1). unfold shr_fexp.
    rewrite (Zdigits2_unique (2 ^ 53) 54) by (simpl; lia).
    rewrite fexp_normal by lia.
    replace (54 + e - 53 - e) with 1 by lia.
    simpl shr. cbv iota beta.
    destruct (Z.leb_spec (e + 1) (emax - prec)); [|unfold emax, prec in *; lia].
    split; [reflexivity|]. split; [lia|]. replace (e + 1 - e) with 1 by lia. reflexivity.
  - assert (0 < m) by lia. destruct m as [|p|p]; try lia.
    exists p, e. unfold shr_fexp.
    rewrite (Zdigits2_unique (Zpos p) 53) by (simpl; lia).
    rewrite fexp_normal by lia.
    replace (53 + e - 53 - e) with 0 by lia.
    simpl shr. cbv iota beta. cbn [shr_record_of_loc shr_m].
    destruct (Z.leb_spec e (emax - prec)); [|unfold emax, prec in *; lia].
    split; [reflexivity|]. split; [lia|]. rewrite Z.sub_diag. simpl. lia.
Qed.


(** Division of two binary64 mantissas of 53 bits: the result is the integer
    quotient [q0] of the mantissas, taken at 53 more bits, up to the last
    place. *)
Lemma SFdiv_normal (m1 m2 : positive) (e1 e2 : Z) :
  2 ^ 52 <= Zpos m1 < 2 ^ 53 -> 2 ^ 52 <= Zpos m2 < 2 ^ 53 ->
  -1074 <= e1 - e2 - 53 -> e1 - e2 - 53 + 2 <= 971 ->
  exists mq eq,
    SFdiv prec emax (S754_finite false m1 e1) (S754_finite false m2 e2)
    = S754_finite false mq eq
    /\ e1 - e2 - 53 <= eq <= e1 - e2 - 53 + 2
    /\ (Zpos m1 * 2 ^ 53) / Zpos m2 - 1
       <= Zpos mq * 2 ^ (eq - (e1 - e2 - 53))
       <= (Zpos m1 * 2 ^ 53) / Zpos m2 + 2.
Proof.
  intros H1 H2 Hlo Hhi.
  unfold SFdiv, SFdiv_core_binary.
  rewrite (Zdigits2_unique (Zpos m1) 53), (Zdigits2_unique (Zpos m2) 53) by (simpl; lia).
  rewrite fexp_normal by lia.
  replace (IntDef.Z.min (53 + e1 - (53 + e2) - 53) (e1 - e2)) with (e1 - e2 - 53) by lia.
  replace (e1 - e2 - (e1 - e2 - 53)) with 53 by lia.
  set (E := e1 - e2 - 53) in *.
  cbv iota beta.
  rewrite Z.shiftl_mul_pow2 by lia.
  pose proof (Z_div_mod (Zpos m1 * 2 ^ 53) (Zpos m2) ltac:(lia)) as Hdiv.
  unfold Z.div.
  destruct (Z.div_eucl (Zpos m1 * 2 ^ 53) (Zpos m2)) as [q r].
  destruct Hdiv as [Hqr Hr].
  assert (Hq : 2 ^ 52 <= q < 2 ^ 54) by nia.
  cbv iota beta.
  unfold binary_round_aux. change (xorb false false) with false.
  generalize (new_location (Zpos m2) r). intros l.
  unfold shr_fexp at 1.
  destruct (Z_lt_le_dec q (2 ^ 53)) as [Hsmall|Hbig].
  - rewrite (Zdigits2_unique q 53) by (simpl; lia).
    rewrite fexp_normal by lia.
    replace (53 + E - 53 - E) with 0 by lia.
    simpl shr. cbv iota beta. rewrite shr_m_record_of_loc.
    generalize (loc_of_shr_record (shr_record_of_loc q l)). intros l'.
    destruct (round_nearest_even_cases q l') as [-> | ->].
    + destruct (round_finish false q E) as (mq & eq & -> & He & Hm); try lia.
      exists mq, eq. split; [reflexivity|]. split; lia.
    + destruct (round_finish false (q + 1) E) as (mq & eq & -> & He & Hm); try lia.
      exists mq, eq. split; [reflexivity|]. split; lia.
  - rewrite (Zdigits2_unique q 54) by (simpl; lia).
    rewrite fexp_normal by lia.
    replace (54 + E - 53 - E) with 1 by lia.
    simpl shr. cbv iota beta.
    assert (Hhalf : shr_m (shr_1 (shr_record_of_loc q l)) = q / 2).
    { destruct l as [|[| |]]; apply shr_1_m; lia. }
    rewrite Hhalf.
    generalize (loc_of_shr_record (shr_1 (shr_record_of_loc q l))). intros l'.
    assert (Hq2 : 2 ^ 52 <= q / 2 < 2 ^ 53).
    { split; [apply Z.div_le_lower_bound | apply Z.div_lt_upper_bound]; lia. }
    assert (Hq3 : 2 * (q / 2) <= q <= 2 * (q / 2) + 1).
    { pose proof (Z.div_mod q 2 ltac:(lia)). pose proof (Z.mod_pos_bound q 2 ltac:(lia)). lia. }
    destruct (round_nearest_even_cases (q / 2) l') as [-> | ->].
    + destruct (round_finish false (q / 2) (E + 1)) as (mq & eq & -> & He & Hm); try lia.
      exists mq, eq. split; [reflexivity|]. split; [lia|].
      replace (eq - E) with (eq - (E + 1) + 1) by lia.
      rewrite Z.pow_add_r by lia. lia.
    + destruct (round_finish false (q / 2 + 1) (E + 1)) as (mq & eq & -> & He & Hm); try lia.
      exists mq, eq. split; [reflexivity|]. split; [lia|].
      replace (eq - E) with (eq - (E + 1) + 1) by lia.
      rewrite Z.pow_add_r by lia. lia.
Qed.

Lemma scales_checked : all_from scale_ok 1 (Z.to_nat 65535) = true.
Proof. vm_compute. reflexivity. Qed.

Lemma numerators_checked : all_from numerator_ok 1 (Z.to_nat 65535) = true.
Proof. vm_compute. reflexivity. Qed.

(** The integer part of a quotient that lies strictly between two
    neighbouring multiples. *)
Lemma floor_between (k A B M d r q : Z) :
  0 <= k <= 254 -> 1 <= r ->
  k * r + 1 <= 255 * d <= (k + 1) * r - 1 ->
  2 ^ 44 <= A -> 2 ^ 29 <= B -> 2 ^ 52 <= M < 2 ^ 53 ->
  Z.abs (255 * M - r * A) <= 127 ->
  q = (d * A * B) / M ->
  k * B <= q - 1 /\ q + 2 < (k + 1) * B.
Proof.
  intros Hk Hr Hd HA HB HM Herr ->.
  assert (Hlow : 255 * (d * A - k * M) >= A - 127 * 254).
  { assert (k * (255 * M) <= k * (r * A + 127)) by (apply Z.mul_le_mono_nonneg_l; lia).
    assert (A * (k * r + 1) <= A * (255 * d)) by (apply Z.mul_le_mono_nonneg_l; lia).
    nia. }
  assert (Hhigh : 255 * ((k + 1) * M - d * A) >= A - 127 * 255).
  { assert ((k + 1) * (r * A - 127) <= (k + 1) * (255 * M))
      by (apply Z.mul_le_mono_nonneg_l; lia).
    assert (A * (255 * d) <= A * ((k + 1) * r - 1)) by (apply Z.mul_le_mono_nonneg_l; lia).
    nia. }
  split.
  - assert (k * B + 1 <= d * A * B / M); [|lia].
    apply Z.div_le_lower_bound; [lia|].
    assert (2 ^ 35 <= d * A - k * M) by lia.
    assert (2 ^ 35 * B <= (d * A - k * M) * B) by (apply Z.mul_le_mono_nonneg_r; lia).
    nia.
  - assert (d * A * B / M < (k + 1) * B - 2); [|lia].
    apply Z.div_lt_upper_bound; [lia|].
    assert (2 ^ 35 <= (k + 1) * M - d * A) by lia.
    assert (2 ^ 35 * B <= ((k + 1) * M - d * A) * B) by (apply Z.mul_le_mono_nonneg_r; lia).
    nia.
Qed.

Lemma scaled_quotient_floor (d r : Z) :
  1 <= r <= 65535 -> 0 <= d <= r -> (255 * d) mod r <> 0 ->
  cast_in_range (PrimFloat.div (float_of_uint d) (PrimFloat.div (float_of_uint r) 255))
  = Some (255 * d / r).
Proof.
  intros Hr Hd Hmod.
  assert (Hd1 : 1 <= d).
  { destruct (Z.eq_dec d 0) as [->|]; [|lia]. exfalso. apply Hmod.
    rewrite Z.mul_0_r. apply Z.mod_0_l. lia. }
  assert (Hs : scale_ok r = true).
  { apply (all_from_spec _ (Z.to_nat 65535) 1); [exact scales_checked | lia]. }
  assert (Hn : numerator_ok d = true).
  { apply (all_from_spec _ (Z.to_nat 65535) 1); [exact numerators_checked | lia]. }
  unfold scale_ok in Hs. unfold numerator_ok in Hn.
  unfold cast_in_range, trunc. rewrite div_spec.
  destruct (Prim2SF (PrimFloat.div (float_of_uint r) 255)) as [| | |[|] m2 e2];
    try discriminate.
  destruct (Prim2SF (float_of_uint d)) as [| | |[|] m1 e1]; try discriminate.
  repeat (apply andb_prop in Hs as [Hs ?]). repeat (apply andb_prop in Hn as [Hn ?]).
  repeat match goal with
         | H : (_ <=? _) = true |- _ => apply Z.leb_le in H
         | H : (_ <? _) = true |- _ => apply Z.ltb_lt in H
         | H : (_ =? _) = true |- _ => apply Z.eqb_eq in H
         end.
  set (k := 255 * d / r).
  assert (Hk : k * r + 1 <= 255 * d <= (k + 1) * r - 1).
  { pose proof (Z.div_mod (255 * d) r ltac:(lia)) as Hdm.
    pose proof (Z.mod_pos_bound (255 * d) r ltac:(lia)) as Hb.
    fold k in Hdm. lia. }
  assert (Hk0 : 0 <= k <= 254).
  { split; [apply Z.div_pos; lia|].
    assert (d < r).
    { destruct (Z.eq_dec d r) as [->|]; [|lia]. exfalso. apply Hmod.
      apply Z.mod_mul. lia. }
    assert (k < 255); [|lia]. apply Z.div_lt_upper_bound; lia. }
  destruct (SFdiv_normal m1 m2 e1 e2) as (mq & eq & Hdiv & He & Hq); try lia.
  unfold SF64div. rewrite Hdiv.
  set (E := e1 - e2 - 53) in *.
  destruct (Z.leb_spec 0 eq) as [Hpos|Hneg]; [lia|].
  rewrite Z.shiftr_div_pow2 by lia.
  assert (HA : 2 ^ 44 <= 2 ^ (- e2)) by (apply Z.pow_le_mono_r; lia).
  assert (HB : 2 ^ 29 <= 2 ^ (- E)) by (apply Z.pow_le_mono_r; lia).
  assert (Hnum : Zpos m1 * 2 ^ 53 = d * 2 ^ (- e2) * 2 ^ (- E)).
  { rewrite <- Z.mul_assoc, <- Z.pow_add_r by lia.
    replace (- e2 + - E) with (- e1 + 53) by lia.
    rewrite Z.pow_add_r by lia. lia. }
  destruct (floor_between k (2 ^ (- e2)) (2 ^ (- E)) (Zpos m2) d r
              (Zpos m1 * 2 ^ 53 / Zpos m2)) as [Hlow Hhigh]; try lia.
  { rewrite Hnum. reflexivity. }
  assert (Hpow : 2 ^ (- E) = 2 ^ (eq - E) * 2 ^ (- eq)).
  { rewrite <- Z.pow_add_r by lia. f_equal. lia. }
  assert (Hshift : 0 < 2 ^ (eq - E)) by (apply Z.pow_pos_nonneg; lia).
  assert (Hunit : 0 < 2 ^ (- eq)) by (apply Z.pow_pos_nonneg; lia).
  assert (Hres : Zpos mq / 2 ^ (- eq) = k).
  { symmetry. apply Z.div_unique with (Zpos mq - k * 2 ^ (- eq)); [|lia].
    left. rewrite Hpow in Hlow, Hhigh.
    assert (Hge : k * 2 ^ (- eq) * 2 ^ (eq - E) <= Zpos mq * 2 ^ (eq - E)) by lia.
    assert (Hlt : Zpos mq * 2 ^ (eq - E) < (k + 1) * 2 ^ (- eq) * 2 ^ (eq - E)) by lia.
    apply Z.mul_le_mono_pos_r in Hge; [|exact Hshift].
    apply Z.mul_lt_mono_pos_r in Hlt; [|exact Hshift]. lia. }
  rewrite Hres.
  destruct (Z.leb_spec 0 k); [|lia]. destruct (Z.ltb_spec k 256); [|lia]. reflexivity.
Qed.

Lemma sample4_map4 (f : Z -> Z) (vols : list (list (list (list Z)))) (i j y x : nat) :
  sample4 (map4 f vols) i j y x = option_map f (sample4 vols i j y x).
Proof.
  unfold sample4, sample2, map4. rewrite nth_error_map.
  destruct (nth_error vols i) as [vol|]; [|reflexivity]. simpl.
  rewrite nth_error_map. destruct (nth_error vol j) as [p|]; [|reflexivity]. simpl.
  rewrite nth_error_map. destruct (nth_error p y) as [r|]; [|reflexivity]. simpl.
  apply nth_error_map.
Qed.

Lemma sample4_In (vols : list (list (list (list Z)))) (i j y x : nat) (v : Z) :
  sample4 vols i j y x = Some v -> In v (elems4 vols).
Proof.
  unfold sample4, sample2.
  destruct (nth_error vols i) as [vol|] eqn:Hi; [|discriminate].
  destruct (nth_error vol j) as [p|] eqn:Hj; [|discriminate].
  destruct (nth_error p y) as [r|] eqn:Hy; [|discriminate].
  intros Hx. eapply In_elems4; eauto using nth_error_In.
Qed.

(** C2 (amended: the quotient is truncated, not rounded).  After assembly,
    with [lo] the least and [hi] the greatest sample of the assembled volume
    and [lo <> hi], the function returns a volume of bytes of the same shape,
    and wherever the exact scaled value [255 * (v - lo) / (hi - lo)] of a
    sample [v] is not a whole number, the sample at the same place of the
    output is its integer part: the quotient is cut off, not rounded. *)
Theorem normalized_samples_truncated (undef_cast : float -> Z) (src : OMEImageFile)
    (frames : list Z) (roi : option ImagejRoi) (channel : Z) (raw : ndarray4)
    (lo hi : Z) :
  assemble src frames roi channel = Ok raw ->
  is_min lo (elems4 (vols4 raw)) ->
  is_max hi (elems4 (vols4 raw)) ->
  lo <> hi ->
  exists out,
    bioformats_to_ndarray_zstack_timeseries undef_cast src frames roi channel = Ok out
    /\ dtype4 out = uint8
    /\ shape4 out = shape4 raw
    /\ forall i j y x v,
         sample4 (vols4 raw) i j y x = Some v ->
         (255 * (v - lo)) mod (hi - lo) <> 0 ->
         sample4 (vols4 out) i j y x = Some (255 * (v - lo) / (hi - lo)).
Proof.
  intros Hraw Hlo Hhi Hne.
  destruct (assemble_inv _ _ _ _ _ Hraw)
    as (w & h & x0 & y0 & x1 & y1 & hn & wn & _ & _ & _ & Hd & _ & Hrange & _).
  unfold bioformats_to_ndarray_zstack_timeseries. rewrite Hraw.
  cbv beta iota delta [bind].
  rewrite (normalize_scaled undef_cast raw lo hi) by (try rewrite Hd; assumption).
  eexists. split; [reflexivity|]. split; [reflexivity|]. split; [reflexivity|].
  intros i j y x v Hv Hfrac. simpl. rewrite sample4_map4, Hv. simpl. f_equal.
  apply sample4_In in Hv.
  rewrite List.Forall_forall in Hrange.
  pose proof (Hrange lo (proj1 Hlo)) as Hlo_range.
  pose proof (Hrange hi (proj1 Hhi)) as Hhi_range.
  pose proof (proj2 Hlo v Hv) as Hlov. pose proof (proj2 Hhi v Hv) as Hvhi.
  unfold in_dtype in *. simpl in *.
  unfold scaled_sample, cast_uint8.
  rewrite scaled_quotient_floor by lia. reflexivity.
Qed.

(** The samples 0, 1, 300: the scaled value of 1 is 0.85 and its byte is 0. *)
Lemma normalized_samples_truncated_witness :
  exists out,
    bioformats_to_ndarray_zstack_timeseries x86_cast (one_row_source [0; 1; 300]) [0] None 0
    = Ok out
    /\ sample4 (vols4 out) 0 0 0 1 = Some 0.
Proof.
  destruct (normalized_samples_truncated x86_cast (one_row_source [0; 1; 300]) [0] None 0
              {| dtype4 := uint16; shape4 := (1%nat, 1%nat, 1%nat, 3%nat);
                 vols4 := [[[[0; 1; 300]]]] |} 0 300)
    as (out & Hout & _ & _ & Hsamples).
  - reflexivity.
  - split; [simpl; auto|]. simpl. intros x Hx. lia.
  - split; [simpl; auto|]. simpl. intros x Hx. lia.
  - lia.
  - exists out. split; [exact Hout|].
    apply (Hsamples 0%nat 0%nat 0%nat 1%nat 1); [reflexivity | discriminate].
Defined.

Lemma list_min_spec (l : list Z) (m : Z) : list_min l = Ok m -> is_min m l.
Proof.
  destruct l as [|x l]; [discriminate|]. intros H; injection H as <-.
  pose proof (fold_min_le l x) as [H1 H2]. split; [apply fold_min_In|].
  intros y [<-|Hy]; auto.
Qed.

Lemma list_max_spec (l : list Z) (m : Z) : list_max l = Ok m -> is_max m l.
Proof.
  destruct l as [|x l]; [discriminate|]. intros H; injection H as <-.
  pose proof (fold_max_ge l x) as [H1 H2]. split; [apply fold_max_In|].
  intros y [<-|Hy]; auto.
Qed.

(** X7.  What the code does guarantee for a volume with a non-zero range: the
    least output sample is exactly 0 and the greatest is 254 or 255. *)
Lemma normalized_range (undef_cast : float -> Z) (src : OMEImageFile)
    (frames : list Z) (roi : option ImagejRoi) (channel : Z) (raw : ndarray4)
    (lo hi : Z) :
  assemble src frames roi channel = Ok raw ->
  is_min lo (elems4 (vols4 raw)) ->
  is_max hi (elems4 (vols4 raw)) ->
  lo <> hi ->
  exists out,
    bioformats_to_ndarray_zstack_timeseries undef_cast src frames roi channel = Ok out
    /\ list_min (elems4 (vols4 out)) = Ok 0
    /\ (list_max (elems4 (vols4 out)) = Ok 254 \/ list_max (elems4 (vols4 out)) = Ok 255).
Proof.
  intros Hraw Hlo Hhi Hne.
  destruct (assemble_inv _ _ _ _ _ Hraw)
    as (w & h & x0 & y0 & x1 & y1 & hn & wn & _ & _ & _ & Hd & _ & Hrange & _).
  unfold bioformats_to_ndarray_zstack_timeseries. rewrite Hraw.
  cbv beta iota delta [bind].
  rewrite (normalize_scaled undef_cast raw lo hi) by (try rewrite Hd; assumption).
  eexists. split; [reflexivity|]. simpl. rewrite elems4_map.
  rewrite List.Forall_forall in Hrange.
  pose proof (Hrange lo (proj1 Hlo)) as Hlo_r. pose proof (Hrange hi (proj1 Hhi)) as Hhi_r.
  pose proof (proj2 Hlo hi (proj1 Hhi)) as Hle.
  unfold in_dtype in Hlo_r, Hhi_r. simpl in Hlo_r, Hhi_r.
  assert (Hok : endpoints_ok (hi - lo) = true).
  { apply (all_from_spec _ (Z.to_nat 65535) 1); [exact endpoints_checked | lia]. }
  unfold endpoints_ok in Hok.
  destruct (cast_in_range (PrimFloat.div (float_of_uint 0) _)) as [a|] eqn:Ha;
    [|discriminate].
  destruct (cast_in_range (PrimFloat.div (float_of_uint (hi - lo)) _)) as [b|] eqn:Hb;
    [|discriminate].
  apply andb_true_iff in Hok as [Ha0 Hb0]. apply Z.eqb_eq in Ha0. subst a.
  assert (Hbyte : forall y, In y (map (scaled_sample undef_cast lo hi) (elems4 (vols4 raw)))
                            -> 0 <= y < 256).
  { intros y Hy. apply in_map_iff in Hy as (v & <- & _).
    apply (cast_uint8_byte undef_cast). }
  assert (Hzero : In 0 (map (scaled_sample undef_cast lo hi) (elems4 (vols4 raw)))).
  { apply in_map_iff. exists lo. split; [|apply Hlo].
    unfold scaled_sample, cast_uint8. rewrite Z.sub_diag, Ha. reflexivity. }
  assert (Hpeak : In b (map (scaled_sample undef_cast lo hi) (elems4 (vols4 raw)))).
  { apply in_map_iff. exists hi. split; [|apply Hhi].
    unfold scaled_sample, cast_uint8. rewrite Hb. reflexivity. }
  split.
  - apply list_min_is_min. split; [assumption|]. intros y Hy. apply Hbyte in Hy. lia.
  - destruct (list_max (map (scaled_sample undef_cast lo hi) (elems4 (vols4 raw))))
      as [m|e] eqn:Hm.
    + apply list_max_spec in Hm as [Hin Hge].
      pose proof (Hbyte m Hin) as Hm_byte. pose proof (Hge b Hpeak) as Hbm.
      apply orb_true_iff in Hb0 as [Hb0|Hb0]; apply Z.eqb_eq in Hb0; subst b.
      * assert (m = 254 \/ m = 255) as [->| ->] by lia; auto.
      * assert (m = 255) as -> by lia. auto.
    + destruct (map _ _); [destruct Hzero | discriminate].
Qed.






(** On the platform [x86_cast] the byte is 0. *)
Example constant_volume_zeros :
  normalize x86_cast constant_volume
  = Ok {| dtype4 := uint8; shape4 := (1%nat, 1%nat, 1%nat, 2%nat);
          vols4 := [[[[0; 0]]]] |}.
Proof. vm_compute. reflexivity. Qed.

Lemma unit_scale : PrimFloat.div (float_of_uint 255) 255 = 1%float.
Proof. vm_compute. reflexivity. Qed.

(** Every byte survives the division by 1.0 and the cast: checked on the 256
    bytes. *)
Lemma byte_through_float (v : Z) :
  0 <= v < 256 -> cast_in_range (PrimFloat.div (float_of_uint v) 1) = Some v.
Proof.
  intros Hv.
  assert (Hall : forallb (fun n =>
            match cast_in_range (PrimFloat.div (float_of_uint (Z.of_nat n)) 1) with
            | Some z => z =? Z.of_nat n
            | None => false
            end) (seq 0 256) = true) by (vm_compute; reflexivity).
  rewrite forallb_forall in Hall.
  specialize (Hall (Z.to_nat v)). rewrite Z2Nat.id in Hall by lia.
  assert (Hin : In (Z.to_nat v) (seq 0 256)) by (apply in_seq; lia).
  specialize (Hall Hin).
  destruct (cast_in_range _) as [z|]; [|discriminate].
  apply Z.eqb_eq in Hall. congruence.
Qed.

Lemma map4_id (vols : list (list (list (list Z)))) : map4 (fun v => v) vols = vols.
Proof.
  unfold map4.
  rewrite <- (map_id vols) at 2. apply map_ext. intros vol.
  rewrite <- (map_id vol) at 2. apply map_ext. intros p.
  rewrite <- (map_id p) at 2. apply map_ext. intros r.
  apply map_id.
Qed.

(** C5.  Line 56 applied to an 8-bit volume whose least sample is 0 and whose
    greatest is 255 returns that volume. *)
Theorem normalize_idempotent (undef_cast : float -> Z) (image : ndarray4) :
  dtype4 image = uint8 ->
  Forall (in_dtype uint8) (elems4 (vols4 image)) ->
  In 0 (elems4 (vols4 image)) ->
  In 255 (elems4 (vols4 image)) ->
  normalize undef_cast image = Ok image.
Proof.
  intros Hd Hrange H0 H255. rewrite List.Forall_forall in Hrange.
  assert (Hlo : is_min 0 (elems4 (vols4 image))).
  { split; [assumption|]. intros x Hx. apply Hrange in Hx. unfold in_dtype in Hx. lia. }
  assert (Hhi : is_max 255 (elems4 (vols4 image))).
  { split; [assumption|]. intros x Hx. apply Hrange in Hx.
    unfold in_dtype in Hx. simpl in Hx. lia. }
  unfold normalize.
  rewrite (list_min_is_min _ _ Hlo), (list_max_is_max _ _ Hhi). simpl.
  rewrite Hd.
  replace (wrap uint8 (255 - 0)) with 255 by reflexivity.
  rewrite unit_scale.
  match goal with
  | |- Ok {| dtype4 := _; shape4 := _; vols4 := ?m |} = _ =>
      assert (Hm : m = vols4 image)
  end.
  - rewrite <- (map4_id (vols4 image)) at 2. apply map4_ext_in.
    intros v Hv. apply Hrange in Hv. unfold normalize_elem.
    rewrite Z.sub_0_r, wrap_id by assumption.
    unfold cast_uint8. rewrite byte_through_float; [reflexivity|].
    unfold in_dtype in Hv. simpl in Hv. lia.
  - rewrite Hm. destruct image as [d s v]. simpl in *. subst d. reflexivity.
Qed.

(** The bytes 0, 17, 128, 255. *)
Lemma normalize_idempotent_witness :
  normalize x86_cast full_range_volume = Ok full_range_volume.
Proof.
  apply (normalize_idempotent x86_cast full_range_volume).
  - reflexivity.
  - simpl. unfold in_dtype. simpl. repeat constructor; lia.
  - simpl. auto.
  - simpl. auto 6.
Defined.

(** ** The configuration file *)

(** A value without a percent sign is its own interpolation. *)
Lemma interpolate_scan_plain (nested : string -> result string)
    (options : gmap string string) (v : string) :
  has_percent v = false -> interpolate_scan nested options Plain v = Ok v.
Proof.
  induction v as [|c v IH]; simpl; intros H; [reflexivity|].
  apply orb_false_iff in H as [Hc Hv]. rewrite Hc, (IH Hv). reflexivity.
Qed.

Lemma before_get_plain (options : gmap string string) (v : string) :
  has_percent v = false -> before_get options v = Ok v.
Proof. intros H. unfold before_get. simpl. apply interpolate_scan_plain, H. Qed.

Lemma section_get_plain (key : string) (data : gmap string string) (v : string) :
  data !! lower key = Some v -> has_percent v = false -> section_get key data = Ok v.
Proof. intros Hv Hp. unfold section_get. rewrite Hv. apply before_get_plain, Hp. Qed.

Lemma section_get_absent (key : string) (data : gmap string string) :
  data !! lower key = None ->
  section_get key data = Err KeyError /\ section_contains key data = false.
Proof. intros H. unfold section_get, section_contains. rewrite H. split; reflexivity. Qed.

Lemma section_get_contains (key : string) (data : gmap string string) (s : string) :
  section_get key data = Ok s -> section_contains key data = true.
Proof.
  unfold section_get, section_contains.
  destruct (data !! lower key); [reflexivity | discriminate].
Qed.

(** A section is presented with the defaults behind its own options. *)
Lemma parser_get_section (name : string) (prj : ConfigParser) (sect : gmap string string) :
  String.eqb name "DEFAULT" = false ->
  sections prj !! name = Some sect ->
  parser_get name prj = Ok (sect ∪ defaults prj).
Proof. intros Hn Hs. unfold parser_get. rewrite Hn, Hs. reflexivity. Qed.

Section ReadConfig.

Variable configparser_read : Path -> result ConfigParser.
Variable int_of_str : string -> result Z.
Variable float_of_str : string -> result float.
Variable ImagejRoi_fromfile : Path -> result ImagejRoi.
Variable OMEImageFile_open : string -> Z -> result OMEImageFile.

(** A relative path is resolved against the directory of the configuration
    file, the file is read and its time position replaces the frame value. *)
Lemma process_roi_relative (cfg_path : Path) (data : gmap string string)
    (im_frame s : string) (r : ImagejRoi) :
  section_get "ROI" data = Ok s ->
  is_absolute (Path_of_string s) = false ->
  ImagejRoi_fromfile (joinpath (parent cfg_path) (Path_of_string s)) = Ok r ->
  process_roi ImagejRoi_fromfile cfg_path data im_frame
  = Ok (Some r, FrameInt (t_position r)).
Proof.
  intros Hs Hrel Hr. unfold process_roi.
  rewrite (section_get_contains _ _ _ Hs), Hs.
  cbv beta iota delta [bind]. rewrite Hrel.
  cbv beta iota delta [bind negb]. rewrite Hr. reflexivity.
Qed.

(** With an absolute path nothing is read: lines 125-126 sit inside the
    branch of the relative path. *)
Lemma process_roi_absolute (cfg_path : Path) (data : gmap string string)
    (im_frame s : string) :
  section_get "ROI" data = Ok s ->
  is_absolute (Path_of_string s) = true ->
  process_roi ImagejRoi_fromfile cfg_path data im_frame = Ok (None, FrameStr im_frame).
Proof.
  intros Hs Habs. unfold process_roi.
  rewrite (section_get_contains _ _ _ Hs), Hs.
  cbv beta iota delta [bind]. rewrite Habs. reflexivity.
Qed.

Lemma read_config_roi (cfg_path : Path) (cfg : ExportConfig.t) :
  read_config configparser_read int_of_str float_of_str ImagejRoi_fromfile
    OMEImageFile_open cfg_path = Ok cfg ->
  exists prj data im_frame fv,
    configparser_read cfg_path = Ok prj
    /\ parser_get "DATA" prj = Ok data
    /\ section_get "frame" data = Ok im_frame
    /\ process_roi ImagejRoi_fromfile cfg_path data im_frame
       = Ok (ExportConfig.roi cfg, fv)
    /\ (frame_is_all fv = false ->
        exists fr, int_of_frame int_of_str fv = Ok fr /\ ExportConfig.frames cfg = [fr]).
Proof.
  unfold read_config, _load_project_file. intros H.
  unbind H as prj Hprj. unbind H as data Hdata.
  unbind H as s_series Hseries. unbind H as im_series Hint.
  unbind H as im_frame Hframe. unbind H as im_channel Hchannel.
  unbind H as s_image Himage. unbind H as rf Hroi. destruct rf as [roi fv].
  unbind H as img_file Himg. unbind H as frames Hframes.
  unbind H as channels Hchannels. unbind H as z_spacing Hz.
  injection H as <-. simpl.
  exists prj, data, im_frame, fv.
  split; [assumption|]. split; [assumption|]. split; [assumption|].
  split; [assumption|]. intros Hall. rewrite Hall in Hframes.
  unbind Hframes as fr Hfr. injection Hframes as <-. eauto.
Qed.

(** With a relative path the configuration carries the region of interest
    and the single frame of its time position. *)
Lemma read_config_relative_roi (cfg_path : Path) (cfg : ExportConfig.t)
    (prj : ConfigParser) (data : gmap string string) (s : string) (r : ImagejRoi) :
  read_config configparser_read int_of_str float_of_str ImagejRoi_fromfile
    OMEImageFile_open cfg_path = Ok cfg ->
  configparser_read cfg_path = Ok prj ->
  parser_get "DATA" prj = Ok data ->
  section_get "ROI" data = Ok s ->
  is_absolute (Path_of_string s) = false ->
  ImagejRoi_fromfile (joinpath (parent cfg_path) (Path_of_string s)) = Ok r ->
  ExportConfig.roi cfg = Some r /\ ExportConfig.frames cfg = [t_position r].
Proof.
  intros H Hprj Hdata Hs Hrel Hr.
  destruct (read_config_roi _ _ H) as (prj' & data' & im_frame & fv & Hp' & Hd & _ & Hp & Hfr).
  rewrite Hprj in Hp'. injection Hp' as <-.
  rewrite Hdata in Hd. injection Hd as <-.
  rewrite (process_roi_relative _ _ _ _ _ Hs Hrel Hr) in Hp.
  injection Hp as <- <-. split; [reflexivity|].
  destruct (Hfr eq_refl) as (fr & Hint & ->). simpl in Hint. congruence.
Qed.

End ReadConfig.

(** C6 fails on the code for an absolute path.  The project file selects
    frame 1 and names the region of interest [/data/cell.roi], whose time
    position is 0: the configuration comes back without a region of interest
    and with the frame of the file, [1]. *)
Theorem absolute_roi_not_loaded :
  exists cfg,
    example_read_config "/data/cell.roi" = Ok cfg
    /\ ExportConfig.roi cfg = None
    /\ ExportConfig.frames cfg = [1].
Proof.
  unfold example_read_config.
  destruct (read_config _ _ _ _ _ _) as [cfg|e] eqn:H;
    [|vm_compute in H; discriminate].
  exists cfg. split; [reflexivity|].
  destruct (read_config_roi _ _ _ _ _ _ _ H)
    as (prj & data & im_frame & fv & Hprj & Hd & Hf & Hp & Hfr).
  injection Hprj as <-.
  assert (Hdata : parser_get "DATA" (example_project "/data/cell.roi")
                  = Ok (example_data "/data/cell.roi" ∪ ∅))
    by (apply parser_get_section; [reflexivity | apply lookup_singleton_eq]).
  rewrite Hdata in Hd. injection Hd as <-.
  assert (Hframe : section_get "frame" (example_data "/data/cell.roi" ∪ ∅)
                   = Ok "1"%string) by (vm_compute; reflexivity).
  rewrite Hframe in Hf. injection Hf as <-.
  rewrite (process_roi_absolute _ _ _ _ "/data/cell.roi") in Hp
    by (vm_compute; reflexivity).
  injection Hp as <- <-. split; [reflexivity|].
  destruct (Hfr eq_refl) as (fr & Hint & ->). vm_compute in Hint. congruence.
Qed.

(** The same file with the relative path [cell.roi]: the region of interest is
    read and the frame selection is its time position. *)
Example relative_roi_loaded :
  exists cfg,
    example_read_config "cell.roi" = Ok cfg
    /\ ExportConfig.roi cfg = Some roi13
    /\ ExportConfig.frames cfg = [0].
Proof.
  unfold example_read_config.
  destruct (read_config _ _ _ _ _ _) as [cfg|e] eqn:H;
    [|vm_compute in H; discriminate].
  exists cfg. split; [reflexivity|].
  apply (read_config_relative_roi _ _ _ _ _ _ _ (example_project "cell.roi")
           (example_data "cell.roi" ∪ ∅) "cell.roi" roi13 H).
  - reflexivity.
  - apply parser_get_section; [reflexivity | apply lookup_singleton_eq].
  - vm_compute. reflexivity.
  - vm_compute. reflexivity.
  - reflexivity.
Qed.

(** ** The VTK image *)

Lemma length_concat_rect {A : Type} (w : nat) (rows : list (list A)) :
  Forall (fun r => length r = w) rows -> length (concat rows) = (length rows * w)%nat.
Proof.
  induction 1 as [|r rows Hr _ IH]; simpl; [reflexivity|].
  rewrite length_app, IH, Hr. reflexivity.
Qed.

Lemma nth_error_concat_rect {A : Type} (w : nat) (rows : list (list A)) (i j : nat)
    (r : list A) :
  Forall (fun r => length r = w) rows ->
  nth_error rows i = Some r -> (j < w)%nat ->
  nth_error (concat rows) (i * w + j) = nth_error r j.
Proof.
  intros Hrows. revert i. induction Hrows as [|r0 rows Hr0 _ IH]; intros i Hi Hj.
  - destruct i; discriminate.
  - destruct i as [|i]; simpl in *.
    + injection Hi as ->. apply nth_error_app1. lia.
    + rewrite nth_error_app2 by lia.
      replace (w + i * w + j - length r0)%nat with (i * w + j)%nat by lia.
      apply IH; assumption.
Qed.

Lemma concat_rows_rect (h w : nat) (planes : list (list (list Z))) :
  Forall (has_shape2 h w) planes ->
  Forall (fun p => length p = h) planes
  /\ Forall (fun r => length r = w) (concat planes).
Proof.
  induction 1 as [|p planes [Hl Hr] _ [IH1 IH2]]; simpl.
  - split; constructor.
  - split; [constructor; assumption|]. apply Forall_app. split; assumption.
Qed.

Lemma elems3_length (nz h w : nat) (planes : list (list (list Z))) :
  has_shape3 nz h w planes -> length (elems3 planes) = (nz * h * w)%nat.
Proof.
  intros [Hl Hp]. destruct (concat_rows_rect _ _ _ Hp) as [H1 H2].
  unfold elems3. rewrite (length_concat_rect w) by assumption.
  rewrite (length_concat_rect h) by assumption. rewrite Hl. reflexivity.
Qed.

Lemma elems3_nth (nz h w : nat) (planes : list (list (list Z))) (k i j : nat)
    (p : list (list Z)) (r : list Z) :
  has_shape3 nz h w planes ->
  nth_error planes k = Some p -> nth_error p i = Some r -> (j < w)%nat ->
  nth_error (elems3 planes) ((k * h + i) * w + j) = nth_error r j.
Proof.
  intros [Hl Hp] Hk Hi Hj. destruct (concat_rows_rect _ _ _ Hp) as [H1 H2].
  unfold elems3. apply nth_error_concat_rect; [assumption| |assumption].
  rewrite (nth_error_concat_rect h _ k i p); [assumption|assumption|assumption|].
  rewrite List.Forall_forall in H1. rewrite <- (H1 p).
  - apply nth_error_Some. congruence.
  - eapply nth_error_In; eauto.
Qed.

Lemma tobytes_uint8 (data : ndarray3) :
  dtype3 data = uint8 ->
  Forall (in_dtype uint8) (elems3 (planes3 data)) ->
  tobytes data = elems3 (planes3 data).
Proof.
  intros Hd Hr. unfold tobytes. rewrite Hd.
  induction Hr as [|v l Hv _ IH]; simpl; [reflexivity|].
  rewrite IH. unfold in_dtype in Hv. simpl in Hv.
  rewrite Z.mod_small by lia. reflexivity.
Qed.

(** C7.  For an 8-bit array of shape (z, row, col) the image has data extent
    and whole extent (1, col, 1, row, 1, z), spacing
    (um_per_pix, um_per_pix, um_per_z), one scalar component called "density"
    of type unsigned char, and its buffer holds the z*row*col samples of the
    array, the sample at (k, i, j) at offset (k*row + i)*col + j. *)
Theorem vtk_image_of_array (data : ndarray3) (z row col : nat) (um_per_pix um_per_z : float) :
  dtype3 data = uint8 ->
  shape3 data = (z, row, col) ->
  wf3 data ->
  let im := _ndarray_to_vtk_image data um_per_pix um_per_z in
  data_extent im = (1, Z.of_nat col, 1, Z.of_nat row, 1, Z.of_nat z)
  /\ whole_extent im = (1, Z.of_nat col, 1, Z.of_nat row, 1, Z.of_nat z)
  /\ data_spacing im = (um_per_pix, um_per_pix, um_per_z)
  /\ number_of_scalar_components im = 1
  /\ scalar_array_name im = "density"%string
  /\ data_scalar_type im = VTK_UNSIGNED_CHAR
  /\ import_void_pointer im = elems3 (planes3 data)
  /\ length (import_void_pointer im) = (z * row * col)%nat
  /\ (forall k i j p r,
        nth_error (planes3 data) k = Some p -> nth_error p i = Some r -> (j < col)%nat ->
        nth_error (import_void_pointer im) ((k * row + i) * col + j) = nth_error r j).
Proof.
  intros Hd Hs [Hshape Hrange] im. rewrite Hs in Hshape.
  assert (Hbuf : import_void_pointer im = elems3 (planes3 data)).
  { subst im. unfold _ndarray_to_vtk_image. rewrite Hs. simpl.
    rewrite firstn_all. apply tobytes_uint8; [assumption|].
    rewrite <- Hd. assumption. }
  subst im. unfold _ndarray_to_vtk_image in *. rewrite Hs in *. simpl in *.
  repeat (split; [reflexivity|]).
  split; [assumption|]. rewrite Hbuf. split.
  - apply elems3_length. assumption.
  - intros k i j p r Hk Hi Hj. eapply elems3_nth; eauto.
Qed.

(** A 2 by 2 by 3 array: extent (1, 3, 1, 2, 1, 2), twelve bytes in order. *)
Lemma vtk_image_of_array_witness :
  let im := _ndarray_to_vtk_image small_volume 0.5 2 in
  data_extent im = (1, 3, 1, 2, 1, 2)
  /\ import_void_pointer im = [1; 2; 3; 4; 5; 6; 7; 8; 9; 10; 11; 12].
Proof.
  destruct (vtk_image_of_array small_volume 2 2 3 0.5 2)
    as (He & _ & _ & _ & _ & _ & Hb & _).
  - reflexivity.
  - reflexivity.
  - split.
    + simpl. unfold has_shape3, has_shape2. simpl. repeat constructor.
    + simpl. unfold in_dtype. simpl. repeat constructor; lia.
  - split; [exact He | exact Hb].
Defined.

(** ** The writer *)

Section WriterProperties.

Variable vdb_update : vtkImageImport -> string -> gmap string node -> gmap string node.

(** The function removes a file at the destination and then lets the writer
    act on the file system: nothing follows the writer. *)
Lemma save_unfold (vtk_image : vtkImageImport) (filename : string) (fs : gmap string node) :
  fs !! filename <> Some Dir ->
  _save_vtk_image_to_disk vdb_update vtk_image filename fs
  = Ok (vdb_update vtk_image filename (delete filename fs)).
Proof.
  intros Hdir. unfold _save_vtk_image_to_disk, os_path_exists, os_remove.
  destruct (fs !! filename) as [[content|]|] eqn:Hlook; simpl.
  - reflexivity.
  - congruence.
  - rewrite delete_id by assumption. reflexivity.
Qed.

(** A directory at the destination: [os.remove] raises. *)
Lemma save_on_directory (vtk_image : vtkImageImport) (filename : string)
    (fs : gmap string node) :
  fs !! filename = Some Dir ->
  _save_vtk_image_to_disk vdb_update vtk_image filename fs = Err IsADirectoryError.
Proof.
  intros Hdir. unfold _save_vtk_image_to_disk, os_path_exists, os_remove.
  rewrite Hdir. reflexivity.
Qed.

End WriterProperties.

(** C8.  Let the writer complete whenever the destination is free.  Two
    calls at the same path both succeed: each finds the path free because the
    file that was there has been removed, and afterwards the path holds the
    file of the second image and every other path is as it was. *)
Theorem save_twice_overwrites
    (vdb_update : vtkImageImport -> string -> gmap string node -> gmap string node)
    (serialize : vtkImageImport -> list Z)
    (im1 im2 : vtkImageImport) (filename : string) (fs : gmap string node) :
  fs !! filename <> Some Dir ->
  (forall im fs', fs' !! filename = None ->
     vdb_update im filename fs' = <[filename := File (serialize im)]> fs') ->
  exists fs1 fs2,
    _save_vtk_image_to_disk vdb_update im1 filename fs = Ok fs1
    /\ _save_vtk_image_to_disk vdb_update im2 filename fs1 = Ok fs2
    /\ fs2 !! filename = Some (File (serialize im2))
    /\ (forall other, other <> filename -> fs2 !! other = fs !! other).
Proof.
  intros Hdir Hwriter.
  exists (<[filename := File (serialize im1)]> (delete filename fs)).
  exists (<[filename := File (serialize im2)]> fs).
  split; [|split; [|split]].
  - rewrite save_unfold by assumption. f_equal.
    apply Hwriter. apply lookup_delete_eq.
  - rewrite save_unfold by (rewrite lookup_insert_eq; discriminate). f_equal.
    rewrite delete_insert_eq, delete_delete_eq.
    rewrite Hwriter by apply lookup_delete_eq.
    apply insert_delete_eq.
  - apply lookup_insert_eq.
  - intros other Hne. apply lookup_insert_ne. congruence.
Qed.

(** A file of one byte is replaced by the volume's image, and that by an
    empty image. *)
Lemma save_twice_overwrites_witness :
  exists fs2,
    (let* fs1 := _save_vtk_image_to_disk buffer_writer
                   (_ndarray_to_vtk_image small_volume 1 1) "out.vdb"
                   {[ "out.vdb"%string := File [0] ]} in
     _save_vtk_image_to_disk buffer_writer vtkImageImport_new "out.vdb" fs1) = Ok fs2
    /\ fs2 !! "out.vdb"%string = Some (File []).
Proof.
  destruct (save_twice_overwrites buffer_writer import_void_pointer
              (_ndarray_to_vtk_image small_volume 1 1) vtkImageImport_new
              "out.vdb" {[ "out.vdb"%string := File [0] ]})
    as (fs1 & fs2 & H1 & H2 & H3 & _).
  - rewrite lookup_singleton_eq. discriminate.
  - reflexivity.
  - exists fs2. rewrite H1. simpl. split; [exact H2 | exact H3].
Defined.

(** C9 as stated fails: nothing in the function stands between the writer
    and the destination.  When the writer breaks off after the first byte,
    the torn file is what the destination holds, and the file that was there
    before is gone. *)
Lemma torn_file_left_behind :
  exists fs',
    _save_vtk_image_to_disk torn_writer (_ndarray_to_vtk_image small_volume 1 1)
      "out.vdb" {[ "out.vdb"%string := File [0; 0] ]} = Ok fs'
    /\ fs' !! "out.vdb"%string = Some (File [1])
    /\ fs' !! "out.vdb"%string <> None
    /\ fs' !! "out.vdb"%string
       <> Some (File (import_void_pointer (_ndarray_to_vtk_image small_volume 1 1))).
Proof.
  eexists. split; [|split; [|split]].
  - rewrite save_unfold by (rewrite lookup_singleton_eq; discriminate). reflexivity.
  - unfold torn_writer. rewrite lookup_insert_eq. reflexivity.
  - unfold torn_writer. rewrite lookup_insert_eq. discriminate.
  - unfold torn_writer. rewrite lookup_insert_eq. discriminate.
Qed.

(** C9 (amended).  The function removes a file that exists at the destination
    and hands the destination itself to the OpenVDB writer; what the path
    holds afterwards is what the writer left there, complete or not, and the
    earlier file is not restored. *)
Theorem save_leaves_writer_result
    (vdb_update : vtkImageImport -> string -> gmap string node -> gmap string node)
    (vtk_image : vtkImageImport) (filename : string) (fs : gmap string node)
    (left_behind : option node) :
  fs !! filename <> Some Dir ->
  vdb_update vtk_image filename (delete filename fs) !! filename = left_behind ->
  exists fs',
    _save_vtk_image_to_disk vdb_update vtk_image filename fs = Ok fs'
    /\ fs' !! filename = left_behind.
Proof.
  intros Hdir Hleft. eexists. split; [apply save_unfold; assumption|]. assumption.
Qed.

(** The torn writer on a destination that held two bytes. *)
Lemma save_leaves_writer_result_witness :
  exists fs',
    _save_vtk_image_to_disk torn_writer (_ndarray_to_vtk_image small_volume 1 1)
      "out.vdb" {[ "out.vdb"%string := File [0; 0] ]} = Ok fs'
    /\ fs' !! "out.vdb"%string = Some (File [1]).
Proof.
  apply (save_leaves_writer_result torn_writer (_ndarray_to_vtk_image small_volume 1 1)
           "out.vdb" {[ "out.vdb"%string := File [0; 0] ]} (Some (File [1]))).
  - rewrite lookup_singleton_eq. discriminate.
  - unfold torn_writer. rewrite lookup_insert_eq. reflexivity.
Defined.

(** ** The driver *)

Section DriverProperties.

Variable undef_cast : float -> Z.
Variable vdb_update : vtkImageImport -> string -> gmap string node -> gmap string node.
Variable ensure_dir : Path -> gmap string node -> result (Path * gmap string node).

(** The loop over the frames of the volume is the sequence of the writes of
    the selected frames. *)
Lemma export_frames_selected (cfg : ExportConfig.t) (F : list Z) (export_path : Path)
    (ch : Z) (items : list (nat * ndarray3)) (fs : gmap string node) :
  for_state (export_frame vdb_update (with_frames cfg F) export_path ch) items fs
  = save_all vdb_update
      (map (frame_write cfg export_path ch)
           (List.filter (fun item => existsb (Z.eqb (Z.of_nat (fst item))) F) items))
      fs.
Proof.
  revert fs. induction items as [|[fr vol] items IH]; intros fs; [reflexivity|].
  simpl. unfold frame_selected. simpl.
  destruct (existsb (Z.eqb (Z.of_nat fr)) F); simpl.
  - unfold save_all in *. simpl.
    destruct (_save_vtk_image_to_disk _ _ _ _) as [fs'|e]; simpl; [apply IH | reflexivity].
  - apply IH.
Qed.

End DriverProperties.


(** The example source exported with the selections [1] and [0, 1]: the file
    of frame 1 is the same under both, the file of frame 0 exists only under
    the second. *)
Example selected_frame_same_file :
  file_after (example_export [1]) "openvdb/ch0/vol_ch0_fr001.vdb"
  = file_after (example_export [0; 1]) "openvdb/ch0/vol_ch0_fr001.vdb"
  /\ file_after (example_export [1]) "openvdb/ch0/vol_ch0_fr001.vdb"
     = Some (File (elems3 [[[0; 11; 22; 34]; [45; 56; 68; 79];
                            [90; 102; 113; 124]; [136; 147; 158; 170]];
                           [[0; 14; 28; 42]; [56; 70; 85; 99];
                            [113; 127; 141; 155]; [170; 184; 198; 212]];
                           [[0; 17; 34; 51]; [68; 85; 102; 118];
                            [136; 153; 170; 187]; [204; 220; 237; 254]]]))
  /\ file_after (example_export [1]) "openvdb/ch0/vol_ch0_fr000.vdb" = None
  /\ file_after (example_export [0; 1]) "openvdb/ch0/vol_ch0_fr000.vdb" <> None.
Proof.
  split; [vm_compute; reflexivity|]. split; [vm_compute; reflexivity|].
  split; [vm_compute; reflexivity|]. vm_compute. discriminate.
Qed.

(** * Further properties of the script *)

(** ** Assembly: what the volume holds and when the call raises *)

Lemma for_each_nth {A B : Type} (f : A -> result B) (l : list A) (ys : list B)
    (i : nat) (x : A) :
  for_each f l = Ok ys -> nth_error l i = Some x ->
  exists y, nth_error ys i = Some y /\ f x = Ok y.
Proof.
  revert ys i. induction l as [|a l IH]; intros ys i H Hi.
  - destruct i; discriminate.
  - simpl in H. unbind H as y Hy. unbind H as rest Hrest. injection H as <-.
    destruct i as [|i]; simpl in *.
    + injection Hi as ->. eauto.
    + eapply IH; eauto.
Qed.

(** The volume holds, at frame position [i] and slice position [j], the plane
    that line 50 stored for the [i]-th frame and the [j]-th z. *)
Lemma assemble_planes (src : OMEImageFile) (frames : list Z) (roi : option ImagejRoi)
    (channel : Z) (raw : ndarray4) (i j : nat) (frame z : Z) :
  assemble src frames roi channel = Ok raw ->
  nth_error frames i = Some frame -> nth_error (zstacks src) j = Some z ->
  exists w h x0 y0 x1 y1 hn wn ix p vol rows,
    crop_rectangle src roi = Ok (w, h, x0, y0, x1, y1)
    /\ np_dim h = Ok hn /\ np_dim w = Ok wn
    /\ ix_at src channel z frame = Ok ix /\ image src ix = Ok p
    /\ nth_error (vols4 raw) i = Some vol /\ nth_error vol j = Some rows
    /\ assign_plane hn wn (slice2 p y0 y1 x0 x1) = Ok rows.
Proof.
  unfold assemble. intros H Hi Hj. unbind H as rect Hrect.
  destruct rect as [[[[[w h] x0] y0] x1] y1].
  unbind H as hn Hh. unbind H as wn Hw. unbind H as vols Hvols.
  injection H as <-. simpl.
  destruct (for_each_nth _ _ _ _ _ Hvols Hi) as (vol & Hvol & Hplanes).
  destruct (for_each_nth _ _ _ _ _ Hplanes Hj) as (rows & Hrows & Hread).
  unfold read_plane in Hread. unbind Hread as ix Hix. unbind Hread as p Hp.
  exists w, h, x0, y0, x1, y1, hn, wn, ix, p, vol, rows. auto 10.
Qed.

Lemma broadcast_axis_same {A : Type} (n : nat) (l : list A) :
  length l = n -> broadcast_axis n l = l.
Proof. intros <-. destruct l as [|x [|y l]]; reflexivity. Qed.

Lemma py_slice_nth {A : Type} (start n : Z) (l : list A) (k : nat) :
  0 <= start -> 0 <= n -> start + n <= Z.of_nat (length l) -> (k < Z.to_nat n)%nat ->
  nth_error (py_slice start (start + n) l) k = nth_error l (Z.to_nat start + k).
Proof.
  intros Hs Hn Hlen Hk. unfold py_slice.
  rewrite (slice_len_window start n (length l)) by assumption.
  rewrite nth_error_firstn.
  destruct (Nat.ltb_spec k (Z.to_nat n)); [|lia].
  rewrite nth_error_skipn. f_equal. unfold slice_bound.
  destruct (Z.ltb_spec start 0); lia.
Qed.

(** A window that lies inside the plane is copied sample by sample. *)
Lemma assign_plane_window (p : ndarray2) (H W hn wn : nat) (x0 y0 : Z)
    (rows : list (list Z)) (y x : nat) :
  wf2 p -> shape2 p = (H, W) ->
  0 <= y0 -> y0 + Z.of_nat hn <= Z.of_nat H ->
  0 <= x0 -> x0 + Z.of_nat wn <= Z.of_nat W ->
  assign_plane hn wn (slice2 p y0 (y0 + Z.of_nat hn) x0 (x0 + Z.of_nat wn)) = Ok rows ->
  (y < hn)%nat -> (x < wn)%nat ->
  sample2 rows y x
  = option_map (wrap uint16) (sample2 (rows2 p) (Z.to_nat y0 + y) (Z.to_nat x0 + x)).
Proof.
  intros [Hlen Hrows] Hshape Hy0 Hy1 Hx0 Hx1 Hassign Hy Hx.
  rewrite Hshape in Hlen, Hrows. simpl in Hlen, Hrows.
  unfold assign_plane, slice2 in Hassign. simpl in Hassign.
  rewrite Hshape in Hassign. simpl in Hassign.
  rewrite !slice_len_window in Hassign by lia. rewrite !Nat2Z.id in Hassign.
  unfold broadcastable in Hassign. rewrite !Nat.eqb_refl in Hassign.
  simpl in Hassign. injection Hassign as <-.
  assert (Hrow : exists r, nth_error (rows2 p) (Z.to_nat y0 + y) = Some r).
  { destruct (nth_error (rows2 p) (Z.to_nat y0 + y)) as [r|] eqn:E; [eauto|].
    apply nth_error_None in E. lia. }
  destruct Hrow as [r Hr].
  assert (Hrw : length r = W).
  { rewrite List.Forall_forall in Hrows. apply Hrows. eapply nth_error_In; eauto. }
  rewrite broadcast_axis_same
    by (rewrite length_map, py_slice_length, Hlen, slice_len_window, Nat2Z.id by lia;
        reflexivity).
  unfold sample2. rewrite nth_error_map, nth_error_map.
  rewrite py_slice_nth by lia. rewrite Hr. simpl.
  rewrite broadcast_axis_same
    by (rewrite py_slice_length, Hrw, slice_len_window, Nat2Z.id by lia; reflexivity).
  rewrite nth_error_map. rewrite py_slice_nth by lia. reflexivity.
Qed.

Lemma np_dim_int (z : Z) (n : nat) : np_dim (PyInt z) = Ok n -> 0 <= z /\ n = Z.to_nat z.
Proof.
  simpl. destruct (Z.ltb_spec z 0); [discriminate|]. intros H'; injection H' as <-. auto.
Qed.

(** X1.  The assembled volume holds the cropped planes in place: the sample
    at frame position [i], slice position [j], row [y], column [x] is the
    sample of the plane of the [i]-th frame and [j]-th z at row [y], column
    [x] without a region of interest, and at row [top + y], column [left + x]
    with a region of integer bounds that lies inside the plane, stored as an
    unsigned 16-bit number.  The window is anchored at (left, top) whatever
    the order of the bounds. *)
Theorem assembled_samples (src : OMEImageFile) (frames : list Z) (channel : Z)
    (raw : ndarray4) (i j : nat) (frame z ix : Z) (p : ndarray2) (H W y x : nat) :
  planes_wf src ->
  nth_error frames i = Some frame -> nth_error (zstacks src) j = Some z ->
  ix_at src channel z frame = Ok ix -> image src ix = Ok p -> shape2 p = (H, W) ->
  (assemble src frames None channel = Ok raw ->
   height src <= Z.of_nat H -> width src <= Z.of_nat W ->
   Z.of_nat y < height src -> Z.of_nat x < width src ->
   sample4 (vols4 raw) i j y x = option_map (wrap uint16) (sample2 (rows2 p) y x))
  /\ (forall l r t b tpos,
      assemble src frames (Some (int_roi l r t b tpos)) channel = Ok raw ->
      roi_inside l r t b H W ->
      Z.of_nat y < Z.abs (t - b) -> Z.of_nat x < Z.abs (r - l) ->
      sample4 (vols4 raw) i j y x
      = option_map (wrap uint16) (sample2 (rows2 p) (Z.to_nat t + y) (Z.to_nat l + x))).
Proof.
  intros Hwf Hi Hj Hix Hp Hshape. split.
  - intros Hraw HH HW Hy Hx.
    destruct (assemble_planes _ _ _ _ _ _ _ _ _ Hraw Hi Hj)
      as (w & h & x0 & y0 & x1 & y1 & hn & wn & ix' & p' & vol & rows
          & Hrect & Hh & Hw & Hix' & Hp' & Hvol & Hrows & Hassign).
    rewrite Hix in Hix'. injection Hix' as <-. rewrite Hp in Hp'. injection Hp' as <-.
    simpl in Hrect. injection Hrect as <- <- <- <- <- <-.
    apply np_dim_int in Hh as [Hh0 ->]. apply np_dim_int in Hw as [Hw0 ->].
    unfold sample4. rewrite Hvol, Hrows.
    rewrite (assign_plane_window p H W (Z.to_nat (height src)) (Z.to_nat (width src))
               0 0 rows y x); try lia; try (eapply Hwf; eassumption); try assumption.
    + reflexivity.
    + rewrite !Z2Nat.id by lia. exact Hassign.
  - intros l r t b tpos Hraw (Hl & HlW & Ht & HtH) Hy Hx.
    destruct (assemble_planes _ _ _ _ _ _ _ _ _ Hraw Hi Hj)
      as (w & h & x0 & y0 & x1 & y1 & hn & wn & ix' & p' & vol & rows
          & Hrect & Hh & Hw & Hix' & Hp' & Hvol & Hrows & Hassign).
    rewrite Hix in Hix'. injection Hix' as <-. rewrite Hp in Hp'. injection Hp' as <-.
    simpl in Hrect. injection Hrect as <- <- <- <- <- <-.
    apply np_dim_int in Hh as [Hh0 ->]. apply np_dim_int in Hw as [Hw0 ->].
    unfold sample4. rewrite Hvol, Hrows.
    rewrite (assign_plane_window p H W (Z.to_nat (Z.abs (t - b))) (Z.to_nat (Z.abs (r - l)))
               l t rows y x); try lia; try (eapply Hwf; eassumption); try assumption.
    + reflexivity.
    + rewrite !Z2Nat.id by lia. exact Hassign.
Qed.

(** The example source with the region (1, 3, 1, 3): the first sample of the
    first plane is the sample at row 1, column 1 of the plane. *)
Lemma assembled_samples_witness :
  exists raw,
    assemble src44 [0; 1] (Some roi13) 0 = Ok raw
    /\ sample4 (vols4 raw) 0 0 0 0
       = option_map (wrap uint16) (sample2 (rows2 (plane44 1)) 1 1).
Proof.
  destruct (assemble src44 [0; 1] (Some roi13) 0) as [raw|e] eqn:Hraw;
    [|vm_compute in Hraw; discriminate].
  exists raw. split; [reflexivity|].
  refine (proj2 (assembled_samples src44 [0; 1] 0 raw 0 0 0 0 0 (plane44 1) 4 4 0 0
                   src44_planes_wf eq_refl eq_refl eq_refl eq_refl eq_refl)
                1 3 1 3 0 Hraw _ _ _).
  - unfold roi_inside. simpl. lia.
  - simpl. lia.
  - simpl. lia.
Defined.

Lemma assemble_empty (src : OMEImageFile) (frames : list Z) (roi : option ImagejRoi)
    (channel : Z) (raw : ndarray4) :
  frames = [] \/ zstacks src = [] ->
  assemble src frames roi channel = Ok raw -> elems4 (vols4 raw) = [].
Proof.
  intros Hempty H. unfold assemble in H. unbind H as rect Hrect.
  destruct rect as [[[[[w h] x0] y0] x1] y1].
  unbind H as hn Hh. unbind H as wn Hw. unbind H as vols Hvols.
  injection H as <-. simpl. destruct Hempty as [-> | Hz].
  - simpl in Hvols. injection Hvols as <-. reflexivity.
  - rewrite Hz in Hvols. simpl in Hvols.
    assert (Hall : Forall (fun v => v = []) vols).
    { eapply for_each_Forall; [|exact Hvols]. intros fr v _ Hv. congruence. }
    clear Hvols. induction Hall as [|v vols -> _ IH]; simpl; auto.
Qed.

(** X2.  With an empty frame list, or a source without z-slices, the call
    raises ValueError (the minimum of an array without elements) and never
    returns an empty volume; this holds with no region of interest and with
    one of integer bounds. *)
Theorem empty_selection_raises (undef_cast : float -> Z) (src : OMEImageFile)
    (frames : list Z) (roi : option ImagejRoi) (channel : Z) :
  integer_bounds roi ->
  frames = [] \/ zstacks src = [] ->
  bioformats_to_ndarray_zstack_timeseries undef_cast src frames roi channel
  = Err ValueError.
Proof.
  intros Hint Hempty. unfold bioformats_to_ndarray_zstack_timeseries.
  destruct (assemble src frames roi channel) as [raw|e] eqn:Hraw.
  - simpl. unfold normalize.
    rewrite (assemble_empty _ _ _ _ _ Hempty Hraw). reflexivity.
  - simpl. f_equal. unfold assemble in Hraw.
    destruct roi as [r|].
    + destruct Hint as (l & r' & t & b & tpos & ->). simpl in Hraw.
      destruct (Z.ltb_spec (Z.abs (t - b)) 0); [lia|].
      destruct (Z.ltb_spec (Z.abs (r' - l)) 0); [lia|].
      simpl in Hraw. destruct Hempty as [-> | Hz].
      * discriminate.
      * rewrite Hz in Hraw. simpl in Hraw.
        destruct (for_each _ frames) as [vols|e'] eqn:Hv; [discriminate|].
        exfalso. clear Hraw. revert e' Hv.
        induction frames as [|f frames IH]; simpl; intros e' Hv; [discriminate|].
        destruct (for_each _ frames); simpl in Hv; [discriminate|]. eauto.
    + simpl in Hraw.
      destruct (Z.ltb_spec (height src) 0); [simpl in Hraw; congruence|].
      destruct (Z.ltb_spec (width src) 0); [simpl in Hraw; congruence|].
      simpl in Hraw. destruct Hempty as [-> | Hz].
      * discriminate.
      * rewrite Hz in Hraw. simpl in Hraw.
        destruct (for_each _ frames) as [vols|e'] eqn:Hv; [discriminate|].
        exfalso. clear Hraw. revert e' Hv.
        induction frames as [|f frames IH]; simpl; intros e' Hv; [discriminate|].
        destruct (for_each _ frames); simpl in Hv; [discriminate|]. eauto.
Qed.

(** The example source asked for no frame at all. *)
Lemma empty_selection_raises_witness :
  bioformats_to_ndarray_zstack_timeseries x86_cast src44 [] None 0 = Err ValueError.
Proof.
  apply (empty_selection_raises x86_cast src44 [] None 0).
  - exact I.
  - left. reflexivity.
Defined.

(** X3.  A region of interest with a floating bound never yields a volume:
    the derived width or height is a float and the allocation refuses it, if
    the arithmetic on the bounds has not raised before. *)
Theorem float_roi_never_returns (undef_cast : float -> Z) (src : OMEImageFile)
    (frames : list Z) (r : ImagejRoi) (channel : Z) :
  (forall l r' t b,
     (left r, right r, top r, bottom r) <> (PyInt l, PyInt r', PyInt t, PyInt b)) ->
  exists e,
    bioformats_to_ndarray_zstack_timeseries undef_cast src frames (Some r) channel = Err e.
Proof.
  intros Hfloat. destruct (float_bound_raises src frames r channel Hfloat) as [e He].
  exists e. unfold bioformats_to_ndarray_zstack_timeseries. rewrite He. reflexivity.
Qed.

(** A region whose right bound alone is the float 3.0. *)
Lemma float_roi_never_returns_witness :
  exists e,
    bioformats_to_ndarray_zstack_timeseries x86_cast src44 [0; 1]
      (Some {| left := PyInt 1; right := PyFloat 3; top := PyInt 1; bottom := PyInt 3;
               t_position := 0 |}) 0 = Err e.
Proof.
  apply (float_roi_never_returns x86_cast src44 [0; 1]
           {| left := PyInt 1; right := PyFloat 3; top := PyInt 1; bottom := PyInt 3;
              t_position := 0 |} 0).
  intros l r' t b. simpl. discriminate.
Defined.

(** X4.  The source is asked for every (frame, z) pair, and a pair it cannot
    deliver ends the call with an exception: no volume with a missing plane
    is returned. *)
Theorem missing_plane_raises (undef_cast : float -> Z) (src : OMEImageFile)
    (frames : list Z) (roi : option ImagejRoi) (channel : Z) (frame z : Z) :
  In frame frames -> In z (zstacks src) ->
  (forall ix p, ix_at src channel z frame = Ok ix -> image src ix <> Ok p) ->
  exists e,
    bioformats_to_ndarray_zstack_timeseries undef_cast src frames roi channel = Err e.
Proof.
  intros Hf Hz Hmissing. unfold bioformats_to_ndarray_zstack_timeseries.
  destruct (assemble src frames roi channel) as [raw|e] eqn:Hraw; [|simpl; eauto].
  exfalso. apply In_nth_error in Hf as [i Hi]. apply In_nth_error in Hz as [j Hj].
  destruct (assemble_planes _ _ _ _ _ _ _ _ _ Hraw Hi Hj)
    as (w & h & x0 & y0 & x1 & y1 & hn & wn & ix & p & vol & rows
        & _ & _ & _ & Hix & Hp & _).
  exact (Hmissing ix p Hix Hp).
Qed.

(** The example source has two frames; frame 2 is asked for. *)
Lemma missing_plane_raises_witness :
  exists e, bioformats_to_ndarray_zstack_timeseries x86_cast src44 [0; 2] None 0 = Err e.
Proof.
  apply (missing_plane_raises x86_cast src44 [0; 2] None 0 2 0).
  - simpl. auto.
  - simpl. auto.
  - intros ix p Hix. simpl in Hix. discriminate.
Defined.

Lemma py_slice_nth_clipped {A : Type} (start stop : Z) (l : list A) (k : nat) :
  0 <= start -> (k < slice_len start stop (length l))%nat ->
  nth_error (py_slice start stop l) k = nth_error l (Z.to_nat start + k).
Proof.
  intros Hs Hk. unfold py_slice. rewrite nth_error_firstn.
  destruct (Nat.ltb_spec k (slice_len start stop (length l))); [|lia].
  rewrite nth_error_skipn. f_equal.
  unfold slice_len, slice_bound in *.
  destruct (Z.ltb_spec start 0); [lia|].
  destruct (Z.ltb_spec stop 0); lia.
Qed.

Lemma slice2_sample (p : ndarray2) (y0 y1 x0 x1 : Z) (a b : nat) :
  wf2 p -> 0 <= y0 -> 0 <= x0 ->
  (a < slice_len y0 y1 (fst (shape2 p)))%nat ->
  (b < slice_len x0 x1 (snd (shape2 p)))%nat ->
  sample2 (rows2 (slice2 p y0 y1 x0 x1)) a b
  = sample2 (rows2 p) (Z.to_nat y0 + a) (Z.to_nat x0 + b).
Proof.
  intros [Hlen Hrows] Hy0 Hx0 Ha Hb. unfold sample2, slice2. simpl.
  rewrite nth_error_map, py_slice_nth_clipped by (rewrite ?Hlen; assumption).
  destruct (nth_error (rows2 p) (Z.to_nat y0 + a)) as [r|] eqn:Hr; simpl; [|reflexivity].
  apply py_slice_nth_clipped; [assumption|].
  rewrite List.Forall_forall in Hrows. rewrite (Hrows r); [assumption|].
  eapply nth_error_In; eauto.
Qed.

Lemma broadcast_axis_nth {A : Type} (n : nat) (l : list A) (k : nat) :
  broadcastable (length l) n = true -> (k < n)%nat ->
  nth_error (broadcast_axis n l) k
  = nth_error l (if Nat.eqb (length l) 1 then 0%nat else k).
Proof.
  unfold broadcastable. intros Hb Hk.
  destruct l as [|x [|y l]]; simpl in *; try reflexivity.
  apply nth_error_repeat. assumption.
Qed.

(** Line 50 sample by sample: an axis of length one of the cropped plane is
    read at index 0 for every index of the destination. *)
Lemma assign_plane_sample (hn wn : nat) (src : ndarray2) (rows : list (list Z))
    (y x : nat) :
  wf2 src -> assign_plane hn wn src = Ok rows -> (y < hn)%nat -> (x < wn)%nat ->
  sample2 rows y x
  = option_map (wrap uint16)
      (sample2 (rows2 src)
         (if Nat.eqb (fst (shape2 src)) 1 then 0%nat else y)
         (if Nat.eqb (snd (shape2 src)) 1 then 0%nat else x)).
Proof.
  unfold assign_plane, wf2. destruct (shape2 src) as [hs ws]. simpl.
  intros [Hlen Hrows] H Hy Hx.
  destruct (broadcastable hs hn && broadcastable ws wn) eqn:Hb; [|discriminate].
  apply andb_true_iff in Hb as [Hb1 Hb2]. injection H as <-.
  unfold sample2. rewrite nth_error_map.
  rewrite broadcast_axis_nth by (rewrite ?Hlen; assumption). rewrite Hlen.
  destruct (nth_error (rows2 src) (if Nat.eqb hs 1 then 0%nat else y)) as [r|] eqn:Hr;
    simpl; [|reflexivity].
  assert (Hrw : length r = ws).
  { rewrite List.Forall_forall in Hrows. apply Hrows. eapply nth_error_In; eauto. }
  rewrite nth_error_map.
  rewrite broadcast_axis_nth by (rewrite ?Hrw; assumption). rewrite Hrw. reflexivity.
Qed.

Lemma assemble_total_broadcast (src : OMEImageFile) (frames : list Z)
    (roi : option ImagejRoi) (channel : Z) (w h : pynum) (x0 y0 x1 y1 : Z)
    (hn wn H W : nat) :
  crop_rectangle src roi = Ok (w, h, x0, y0, x1, y1) ->
  np_dim h = Ok hn -> np_dim w = Ok wn ->
  planes_available src frames channel H W ->
  broadcastable (slice_len y0 y1 H) hn = true ->
  broadcastable (slice_len x0 x1 W) wn = true ->
  exists img, assemble src frames roi channel = Ok img.
Proof.
  intros Hrect Hh Hw Hav Hby Hbx. unfold assemble.
  rewrite Hrect; simpl. rewrite Hh; simpl. rewrite Hw; simpl.
  destruct (for_each_total
    (fun frame => for_each (read_plane src channel hn wn x0 y0 x1 y1 frame) (zstacks src))
    frames) as [vols Hvols].
  - intros frame Hfr. apply for_each_total. intros z Hz.
    destruct (Hav frame z Hfr Hz) as (ix & p & Hix & Hp & Hshape).
    unfold read_plane. rewrite Hix; simpl. rewrite Hp; simpl.
    unfold assign_plane, slice2; simpl. rewrite Hshape; simpl.
    rewrite Hby, Hbx. simpl. eauto.
  - rewrite Hvols. simpl. eauto.
Qed.

Lemma slice_len_overhang (x0 n : Z) (N : nat) :
  0 <= x0 -> Z.of_nat N < x0 + n ->
  slice_len x0 (x0 + n) N = Z.to_nat (Z.of_nat N - x0).
Proof.
  intros H0 Hn. unfold slice_len, slice_bound.
  destruct (Z.ltb_spec (x0 + n) 0); destruct (Z.ltb_spec x0 0); lia.
Qed.

Lemma overhang_not_broadcastable (x0 n : Z) (N : nat) :
  0 <= x0 -> 0 < n -> Z.of_nat N < x0 + n -> Z.of_nat N <> x0 + 1 ->
  broadcastable (slice_len x0 (x0 + n) N) (Z.to_nat n) = false.
Proof.
  intros H0 Hpos Hn H1. rewrite slice_len_overhang by assumption.
  unfold broadcastable. apply orb_false_iff. split; apply Nat.eqb_neq; lia.
Qed.

(** X5.  A region of integer bounds and positive size that hangs over the
    right or the bottom edge of the plane, with none or at least two columns
    (rows) left inside,
    makes the call raise ValueError at the first plane: the clipped crop does
    not fit the allocated slot.  Nothing clamps the window. *)
Theorem overhanging_roi_raises (undef_cast : float -> Z) (src : OMEImageFile)
    (frame : Z) (frames : list Z) (z : Z) (zs : list Z) (channel : Z)
    (l r t b tpos ix : Z) (p : ndarray2) (H W : nat) :
  zstacks src = z :: zs ->
  ix_at src channel z frame = Ok ix -> image src ix = Ok p -> shape2 p = (H, W) ->
  (0 <= l /\ 0 < Z.abs (r - l)
   /\ Z.of_nat W < l + Z.abs (r - l) /\ Z.of_nat W <> l + 1)
  \/ (0 <= t /\ 0 < Z.abs (t - b)
      /\ Z.of_nat H < t + Z.abs (t - b) /\ Z.of_nat H <> t + 1) ->
  bioformats_to_ndarray_zstack_timeseries undef_cast src (frame :: frames)
    (Some (int_roi l r t b tpos)) channel
  = Err ValueError.
Proof.
  intros Hz Hix Hp Hshape Hover.
  unfold bioformats_to_ndarray_zstack_timeseries, assemble. simpl.
  destruct (Z.ltb_spec (Z.abs (t - b)) 0); [lia|].
  destruct (Z.ltb_spec (Z.abs (r - l)) 0); [lia|].
  simpl. rewrite Hz. simpl. unfold read_plane at 1. rewrite Hix. simpl. rewrite Hp. simpl.
  unfold assign_plane, slice2. simpl. rewrite Hshape. simpl.
  destruct Hover as [(Hin & Hpos & Hout & Hne) | (Hin & Hpos & Hout & Hne)].
  - rewrite (overhang_not_broadcastable l _ W) by assumption.
    rewrite andb_false_r. reflexivity.
  - rewrite (overhang_not_broadcastable t _ H) by assumption.
    reflexivity.
Qed.

(** The region (2, 6, 1, 3) on the 4 by 4 planes of the example source: two
    of its four columns lie inside. *)
Lemma overhanging_roi_raises_witness :
  bioformats_to_ndarray_zstack_timeseries x86_cast src44 [0; 1]
    (Some (int_roi 2 6 1 3 0)) 0
  = Err ValueError.
Proof.
  apply (overhanging_roi_raises x86_cast src44 0 [1] 0 [1; 2] 0 2 6 1 3 0 0
           (plane44 1) 4 4).
  - reflexivity.
  - reflexivity.
  - reflexivity.
  - reflexivity.
  - left. simpl. lia.
Defined.

(** X6.  A region of integer bounds whose left bound is the last column of
    the plane, that is no wider than the plane and whose rows lie inside,
    raises nothing although all its columns but the first lie outside the
    plane: the one column left by the clipped crop is broadcast, and every
    column of the assembled planes repeats the last column of the source. *)
Theorem last_column_is_broadcast (src : OMEImageFile) (frames : list Z) (channel : Z)
    (l r t b tpos : Z) (H W : nat) :
  planes_wf src ->
  planes_available src frames channel H W ->
  0 <= l -> l + 1 = Z.of_nat W -> Z.abs (r - l) <= Z.of_nat W ->
  0 <= t -> t + Z.abs (t - b) <= Z.of_nat H ->
  exists raw,
    assemble src frames (Some (int_roi l r t b tpos)) channel = Ok raw
    /\ forall i j frame z ix p y x,
         nth_error frames i = Some frame -> nth_error (zstacks src) j = Some z ->
         ix_at src channel z frame = Ok ix -> image src ix = Ok p ->
         Z.of_nat y < Z.abs (t - b) -> Z.of_nat x < Z.abs (r - l) ->
         sample4 (vols4 raw) i j y x
         = option_map (wrap uint16) (sample2 (rows2 p) (Z.to_nat t + y) (Z.to_nat l)).
Proof.
  intros Hwf Hav Hl HlW _ Ht HtH.
  assert (Hh : np_dim (PyInt (Z.abs (t - b))) = Ok (Z.to_nat (Z.abs (t - b)))).
  { simpl. destruct (Z.ltb_spec (Z.abs (t - b)) 0); [lia | reflexivity]. }
  assert (Hw : np_dim (PyInt (Z.abs (r - l))) = Ok (Z.to_nat (Z.abs (r - l)))).
  { simpl. destruct (Z.ltb_spec (Z.abs (r - l)) 0); [lia | reflexivity]. }
  assert (Hsy : slice_len t (t + Z.abs (t - b)) H = Z.to_nat (Z.abs (t - b)))
    by (apply slice_len_window; lia).
  assert (Hsx : Z.abs (r - l) = 0
                \/ slice_len l (l + Z.abs (r - l)) W = 1%nat).
  { destruct (Z.eq_dec (Z.abs (r - l)) 0) as [E|E]; [auto|right].
    unfold slice_len, slice_bound.
    destruct (Z.ltb_spec (l + Z.abs (r - l)) 0); destruct (Z.ltb_spec l 0); lia. }
  destruct (assemble_total_broadcast src frames (Some (int_roi l r t b tpos)) channel
              (PyInt (Z.abs (r - l))) (PyInt (Z.abs (t - b)))
              l t (l + Z.abs (r - l)) (t + Z.abs (t - b))
              (Z.to_nat (Z.abs (t - b))) (Z.to_nat (Z.abs (r - l))) H W)
    as [raw Hraw]; try assumption; try reflexivity.
  { rewrite Hsy. unfold broadcastable. rewrite Nat.eqb_refl. reflexivity. }
  { unfold broadcastable. destruct Hsx as [E | ->].
    - rewrite E. simpl. unfold slice_len, slice_bound.
      destruct (Z.ltb_spec (l + 0) 0); destruct (Z.ltb_spec l 0); try lia.
      apply orb_true_iff. left. apply Nat.eqb_eq. lia.
    - apply orb_true_r. }
  exists raw. split; [assumption|].
  intros i j frame z ix p y x Hi Hj Hix Hp Hy Hx.
  destruct (assemble_planes _ _ _ _ _ _ _ _ _ Hraw Hi Hj)
    as (w' & h' & x0 & y0 & x1 & y1 & hn & wn & ix' & p' & vol & rows
        & Hrect & Hh' & Hw' & Hix' & Hp' & Hvol & Hrows & Hassign).
  rewrite Hix in Hix'. injection Hix' as <-. rewrite Hp in Hp'. injection Hp' as <-.
  simpl in Hrect. injection Hrect as <- <- <- <- <- <-.
  rewrite Hh in Hh'. injection Hh' as <-. rewrite Hw in Hw'. injection Hw' as <-.
  destruct (Hav frame z (nth_error_In _ _ Hi) (nth_error_In _ _ Hj))
    as (ix'' & p'' & Hix'' & Hp'' & Hshape).
  rewrite Hix in Hix''. injection Hix'' as <-. rewrite Hp in Hp''. injection Hp'' as <-.
  destruct Hsx as [E | Hone]; [lia|].
  unfold sample4. rewrite Hvol, Hrows.
  rewrite (assign_plane_sample _ _ _ _ y x (slice2_wf _ _ _ _ _ (Hwf _ _ Hp)) Hassign)
    by lia.
  assert (Hs1 : fst (shape2 (slice2 p t (t + Z.abs (t - b)) l (l + Z.abs (r - l))))
                = Z.to_nat (Z.abs (t - b)))
    by (simpl; rewrite Hshape; exact Hsy).
  assert (Hs2 : snd (shape2 (slice2 p t (t + Z.abs (t - b)) l (l + Z.abs (r - l))))
                = 1%nat)
    by (simpl; rewrite Hshape; exact Hone).
  rewrite Hs1, Hs2.
  assert (Hy' : (if Nat.eqb (Z.to_nat (Z.abs (t - b))) 1 then 0%nat else y) = y).
  { destruct (Nat.eqb_spec (Z.to_nat (Z.abs (t - b))) 1); lia. }
  rewrite Hy'. change (Nat.eqb 1 1) with true. cbv iota.
  rewrite (slice2_sample p t _ l _ y 0 (Hwf _ _ Hp));
    rewrite ?Hshape; simpl fst; simpl snd; try lia.
  rewrite Nat.add_0_r. reflexivity.
Qed.

(** The region (3, 6, 0, 2) on the 4 by 4 planes of the example source: three
    columns wide, one of them inside. *)
Lemma last_column_is_broadcast_witness :
  exists raw,
    assemble src44 [0; 1] (Some (int_roi 3 6 0 2 0)) 0 = Ok raw
    /\ sample4 (vols4 raw) 0 0 1 2
       = option_map (wrap uint16) (sample2 (rows2 (plane44 1)) 1 3).
Proof.
  destruct (last_column_is_broadcast src44 [0; 1] 0 3 6 0 2 0 4 4
              src44_planes_wf src44_planes_available)
    as (raw & Hraw & Hsamples); try (simpl; lia).
  exists raw. split; [exact Hraw|].
  apply (Hsamples 0%nat 0%nat 0 0 0 (plane44 1) 1%nat 2%nat); try reflexivity; simpl; lia.
Defined.

(** ** Normalization *)

(** The samples 0 and 33: the output spans 0..254. *)
Lemma normalized_range_witness :
  exists out,
    bioformats_to_ndarray_zstack_timeseries x86_cast (one_row_source [0; 33]) [0] None 0
    = Ok out
    /\ list_min (elems4 (vols4 out)) = Ok 0
    /\ (list_max (elems4 (vols4 out)) = Ok 254 \/ list_max (elems4 (vols4 out)) = Ok 255).
Proof.
  apply (normalized_range x86_cast (one_row_source [0; 33]) [0] None 0
           {| dtype4 := uint16; shape4 := (1%nat, 1%nat, 1%nat, 2%nat);
              vols4 := [[[[0; 33]]]] |} 0 33).
  - reflexivity.
  - split; [simpl; auto|]. simpl. intros x Hx. lia.
  - split; [simpl; auto|]. simpl. intros x Hx. lia.
  - discriminate.
Defined.

Lemma map4_map4 (f g : Z -> Z) (vols : list (list (list (list Z)))) :
  map4 f (map4 g vols) = map4 (fun v => f (g v)) vols.
Proof.
  unfold map4. rewrite map_map. apply map_ext. intros vol.
  rewrite map_map. apply map_ext. intros p.
  rewrite map_map. apply map_ext. intros r.
  apply map_map.
Qed.

Lemma is_min_offset (k lo : Z) (l : list Z) :
  is_min lo l -> is_min (lo + k) (map (fun v => v + k) l).
Proof.
  intros [Hin Hle]. split.
  - apply in_map_iff. eauto.
  - intros x Hx. apply in_map_iff in Hx as (v & <- & Hv). specialize (Hle v Hv). lia.
Qed.

Lemma is_max_offset (k hi : Z) (l : list Z) :
  is_max hi l -> is_max (hi + k) (map (fun v => v + k) l).
Proof.
  intros [Hin Hle]. split.
  - apply in_map_iff. eauto.
  - intros x Hx. apply in_map_iff in Hx as (v & <- & Hv). specialize (Hle v Hv). lia.
Qed.

(** X8.  Line 56 does not see a common offset: adding the same number to
    every sample, as long as the samples still fit the array's type, leaves
    the normalized volume unchanged. *)
Theorem normalize_offset_invariant (undef_cast : float -> Z) (image : ndarray4) (k : Z) :
  Forall (in_dtype (dtype4 image)) (elems4 (vols4 image)) ->
  Forall (in_dtype (dtype4 image)) (elems4 (vols4 (add_offset k image))) ->
  normalize undef_cast (add_offset k image) = normalize undef_cast image.
Proof.
  intros Hrange Hshifted.
  destruct (elems4 (vols4 image)) as [|v0 rest] eqn:Helems.
  - unfold normalize. simpl. rewrite elems4_map, Helems. reflexivity.
  - destruct (list_min (elems4 (vols4 image))) as [lo|e] eqn:Hlo;
      [|rewrite Helems in Hlo; discriminate].
    destruct (list_max (elems4 (vols4 image))) as [hi|e] eqn:Hhi;
      [|rewrite Helems in Hhi; discriminate].
    apply list_min_spec in Hlo. apply list_max_spec in Hhi.
    rewrite <- Helems in Hrange.
    rewrite (normalize_scaled undef_cast image lo hi Hrange Hlo Hhi).
    rewrite (normalize_scaled undef_cast (add_offset k image) (lo + k) (hi + k)).
    + simpl. rewrite map4_map4. f_equal. f_equal.
      apply map4_ext_in. intros v _. unfold scaled_sample.
      replace (v + k - (lo + k)) with (v - lo) by lia.
      replace (hi + k - (lo + k)) with (hi - lo) by lia. reflexivity.
    + exact Hshifted.
    + simpl. rewrite elems4_map. apply is_min_offset. assumption.
    + simpl. rewrite elems4_map. apply is_max_offset. assumption.
Qed.

(** The samples 10, 20, 50 and the same samples raised by 1000. *)
Lemma normalize_offset_invariant_witness :
  normalize x86_cast
    (add_offset 1000 {| dtype4 := uint16; shape4 := (1%nat, 1%nat, 1%nat, 3%nat);
                        vols4 := [[[[10; 20; 50]]]] |})
  = normalize x86_cast {| dtype4 := uint16; shape4 := (1%nat, 1%nat, 1%nat, 3%nat);
                          vols4 := [[[[10; 20; 50]]]] |}.
Proof.
  apply (normalize_offset_invariant x86_cast
           {| dtype4 := uint16; shape4 := (1%nat, 1%nat, 1%nat, 3%nat);
              vols4 := [[[[10; 20; 50]]]] |} 1000).
  - simpl. unfold in_dtype. simpl. repeat constructor; lia.
  - simpl. unfold in_dtype. simpl. repeat constructor; lia.
Defined.

(** ** The VTK image and the writer *)

(** X9.  The function never looks at the array's type.  For a 16-bit array of
    shape (z, row, col) the image still declares one unsigned char per voxel
    and the extents (1, col, 1, row, 1, z), while its buffer holds two bytes
    per sample, 2*z*row*col in all. *)
Theorem vtk_image_of_wide_array (data : ndarray3) (z row col : nat)
    (um_per_pix um_per_z : float) :
  dtype3 data = uint16 ->
  shape3 data = (z, row, col) ->
  wf3 data ->
  let im := _ndarray_to_vtk_image data um_per_pix um_per_z in
  data_scalar_type im = VTK_UNSIGNED_CHAR
  /\ number_of_scalar_components im = 1
  /\ data_extent im = (1, Z.of_nat col, 1, Z.of_nat row, 1, Z.of_nat z)
  /\ length (import_void_pointer im) = (2 * (z * row * col))%nat.
Proof.
  intros Hd Hs [Hshape _] im. rewrite Hs in Hshape.
  subst im. unfold _ndarray_to_vtk_image. rewrite Hs. simpl.
  repeat (split; [reflexivity|]).
  rewrite firstn_all. unfold tobytes. rewrite Hd.
  rewrite (flat_map_constant_length (c := 2)) by reflexivity.
  rewrite (elems3_length z row col) by assumption. lia.
Qed.

(** One plane of one row of two 16-bit samples: four bytes. *)
Lemma vtk_image_of_wide_array_witness :
  let im := _ndarray_to_vtk_image
              {| dtype3 := uint16; shape3 := (1%nat, 1%nat, 2%nat);
                 planes3 := [[[258; 3]]] |} 1 1 in
  data_scalar_type im = VTK_UNSIGNED_CHAR
  /\ length (import_void_pointer im) = 4%nat.
Proof.
  destruct (vtk_image_of_wide_array
              {| dtype3 := uint16; shape3 := (1%nat, 1%nat, 2%nat);
                 planes3 := [[[258; 3]]] |} 1 1 2 1 1)
    as (Ht & _ & _ & Hlen).
  - reflexivity.
  - reflexivity.
  - split.
    + simpl. unfold has_shape3, has_shape2. simpl. repeat constructor.
    + simpl. unfold in_dtype. simpl. repeat constructor; lia.
  - split; [exact Ht | exact Hlen].
Defined.

Lemma concat_rect_inj {A : Type} (w : nat) (l1 l2 : list (list A)) :
  Forall (fun r => length r = w) l1 -> Forall (fun r => length r = w) l2 ->
  length l1 = length l2 -> concat l1 = concat l2 -> l1 = l2.
Proof.
  intros H1. revert l2. induction H1 as [|r1 l1 Hr1 _ IH]; intros l2 H2 Hlen Hc.
  - destruct l2; [reflexivity | discriminate].
  - destruct l2 as [|r2 l2]; [discriminate|].
    inversion H2 as [|? ? Hr2 H2']; subst. simpl in Hc, Hlen.
    apply app_inj_1 in Hc as [-> Hc]; [|congruence].
    f_equal. apply IH; [assumption | lia | assumption].
Qed.

Lemma planes_rect_inj (nz h w : nat) (a b : list (list (list Z))) :
  has_shape3 nz h w a -> has_shape3 nz h w b -> elems3 a = elems3 b -> a = b.
Proof.
  intros [Hla Ha] [Hlb Hb] He.
  destruct (concat_rows_rect _ _ _ Ha) as [Ha1 Ha2].
  destruct (concat_rows_rect _ _ _ Hb) as [Hb1 Hb2].
  apply (concat_rect_inj h); [assumption | assumption | congruence |].
  apply (concat_rect_inj w); [assumption | assumption | | exact He].
  rewrite (length_concat_rect h), (length_concat_rect h) by assumption. congruence.
Qed.

(** X10.  Nothing of an 8-bit array is lost in its image: two arrays of bytes
    with the same image are the same array, shape and samples. *)
Theorem vtk_image_determines_array (a b : ndarray3) (um_per_pix um_per_z : float) :
  dtype3 a = uint8 -> dtype3 b = uint8 -> wf3 a -> wf3 b ->
  _ndarray_to_vtk_image a um_per_pix um_per_z = _ndarray_to_vtk_image b um_per_pix um_per_z ->
  a = b.
Proof.
  intros Hda Hdb [Hsa Hra] [Hsb Hrb] Him.
  assert (Hext := f_equal data_extent Him).
  assert (Hbuf := f_equal import_void_pointer Him).
  unfold _ndarray_to_vtk_image in Hext, Hbuf.
  destruct a as [da [[za ra] ca] pa], b as [db [[zb rb] cb] pb]. simpl in *.
  subst da db. rewrite !firstn_all in Hbuf.
  rewrite !tobytes_uint8 in Hbuf by (simpl; auto). simpl in Hbuf.
  injection Hext as Hc Hr Hz.
  apply Nat2Z.inj in Hc, Hr, Hz. subst zb rb cb.
  f_equal. eapply planes_rect_inj; eauto.
Qed.

(** Two arrays of the same shape whose images are equal. *)
Lemma vtk_image_determines_array_witness : small_volume = small_volume.
Proof.
  apply (vtk_image_determines_array small_volume small_volume 1 1).
  - reflexivity.
  - reflexivity.
  - split; [simpl; unfold has_shape3, has_shape2; simpl; repeat constructor|].
    simpl. unfold in_dtype. simpl. repeat constructor; lia.
  - split; [simpl; unfold has_shape3, has_shape2; simpl; repeat constructor|].
    simpl. unfold in_dtype. simpl. repeat constructor; lia.
  - reflexivity.
Defined.

(** X11.  A destination that is a directory: [os.path.exists] answers true,
    [os.remove] raises, and the call ends there, whatever the array and the
    writer. *)
Theorem save_ndarray_on_directory
    (vdb_update : vtkImageImport -> string -> gmap string node -> gmap string node)
    (data : ndarray3) (um_per_pix um_per_z : float) (filename : string)
    (fs : gmap string node) :
  fs !! filename = Some Dir ->
  save_ndarray_as_vdb vdb_update data um_per_pix um_per_z filename fs
  = Err IsADirectoryError.
Proof.
  intros Hdir. unfold save_ndarray_as_vdb. apply save_on_directory. assumption.
Qed.

(** The directory [openvdb] given as the file name. *)
Lemma save_ndarray_on_directory_witness :
  save_ndarray_as_vdb buffer_writer small_volume 1 1 "openvdb"
    {[ "openvdb"%string := Dir ]}
  = Err IsADirectoryError.
Proof.
  apply (save_ndarray_on_directory buffer_writer small_volume 1 1 "openvdb"
           {[ "openvdb"%string := Dir ]}).
  apply lookup_singleton_eq.
Defined.

(** ** The configuration file *)

Section ReadConfigProperties.

Variable configparser_read : Path -> result ConfigParser.
Variable int_of_str : string -> result Z.
Variable float_of_str : string -> result float.
Variable ImagejRoi_fromfile : Path -> result ImagejRoi.
Variable OMEImageFile_open : string -> Z -> result OMEImageFile.

(** Reading a key: KeyError when it is absent, else the interpolation of its
    value. *)
Lemma section_get_cases (key : string) (data : gmap string string) :
  (data !! lower key = None /\ section_get key data = Err KeyError)
  \/ (exists v, data !! lower key = Some v /\ section_get key data = before_get data v).
Proof.
  unfold section_get. destruct (data !! lower key) as [v|]; [right; eauto | left; auto].
Qed.

Lemma process_roi_absent (cfg_path : Path) (data : gmap string string) (im_frame : string) :
  section_contains "ROI" data = false ->
  process_roi ImagejRoi_fromfile cfg_path data im_frame = Ok (None, FrameStr im_frame).
Proof. intros Hs. unfold process_roi. rewrite Hs. reflexivity. Qed.

(** X12.  A parsed file without a [DATA] section, or whose [DATA] section
    (with the defaults behind it) lacks one of [series], [frame], [channel],
    [image], makes [read_config] raise and return no configuration.  The error
    is KeyError, unless reading an earlier key has failed first: the
    interpolation of the value of [series], [frame] or [channel], or [int] on
    the value of [series]. *)
Theorem missing_key_raises (cfg_path : Path) (prj : ConfigParser) :
  configparser_read cfg_path = Ok prj ->
  (sections prj !! "DATA"%string = None
   \/ exists data,
        parser_get "DATA" prj = Ok data
        /\ (data !! "series"%string = None \/ data !! "frame"%string = None
            \/ data !! "channel"%string = None \/ data !! "image"%string = None)) ->
  exists e,
    read_config configparser_read int_of_str float_of_str ImagejRoi_fromfile
      OMEImageFile_open cfg_path = Err e
    /\ (e = KeyError
        \/ (exists data key v,
              parser_get "DATA" prj = Ok data
              /\ In key ["series"; "frame"; "channel"]%string
              /\ data !! key = Some v /\ before_get data v = Err e)
        \/ (exists data s,
              parser_get "DATA" prj = Ok data
              /\ section_get "series" data = Ok s /\ int_of_str s = Err e)).
Proof.
  intros Hprj Hmissing. unfold read_config, _load_project_file. rewrite Hprj.
  cbv beta iota delta [bind]. fold (@bind).
  destruct Hmissing as [Hnone | (data & Hdata & Hkeys)].
  - unfold parser_get. simpl. rewrite Hnone. simpl. eauto.
  - rewrite Hdata. cbv beta iota delta [bind]. fold (@bind).
    destruct (section_get_cases "series" data) as [[_ ->] | (v & Hv & Hget)];
      [simpl; eauto|].
    destruct (section_get "series" data) as [s|e] eqn:Hs;
      [|simpl; exists e; split; [reflexivity|]; right; left;
        exists data, "series"%string, v; simpl; auto 10].
    simpl. destruct (int_of_str s) as [series|e] eqn:Hint;
      [|simpl; exists e; split; [reflexivity|]; right; right; eauto].
    simpl. clear v Hv Hget.
    destruct (section_get_cases "frame" data) as [[_ ->] | (v & Hv & Hget)];
      [simpl; eauto|].
    destruct (section_get "frame" data) as [fr|e] eqn:Hf;
      [|simpl; exists e; split; [reflexivity|]; right; left;
        exists data, "frame"%string, v; simpl; auto 10].
    simpl. clear v Hv Hget.
    destruct (section_get_cases "channel" data) as [[_ ->] | (v & Hv & Hget)];
      [simpl; eauto|].
    destruct (section_get "channel" data) as [ch|e] eqn:Hc;
      [|simpl; exists e; split; [reflexivity|]; right; left;
        exists data, "channel"%string, v; simpl; auto 10].
    simpl.
    destruct (section_get_cases "image" data) as [[_ ->] | (v' & Hv' & _)];
      [simpl; eauto|].
    exfalso.
    destruct (section_get_cases "series" data) as [[_ Hn] | (v1 & Hv1 & _)];
      [congruence|].
    destruct (section_get_cases "frame" data) as [[_ Hn] | (v2 & Hv2 & _)];
      [congruence|].
    change (lower "series") with "series"%string in Hv1.
    change (lower "frame") with "frame"%string in Hv2.
    change (lower "channel") with "channel"%string in Hv.
    change (lower "image") with "image"%string in Hv'.
    destruct Hkeys as [?|[?|[?|?]]]; congruence.
Qed.

(** X13.  A file whose [DATA] section reads [series], [frame], [channel] and
    [image] and has no region of interest yields a configuration: [all]
    selects every frame (channel) of the image, a numeral the single frame
    (channel) it names; the image is opened at the path of [image] as
    [pathlib] renders it; the z spacing is the value of [um_per_z] when the
    key is there and the image's own otherwise; [path] is the directory of the
    configuration file and [name] its last component. *)
Theorem read_config_without_roi (cfg_path : Path) (prj : ConfigParser)
    (data : gmap string string)
    (s_series s_frame s_channel s_image : string) (series fr ch : Z)
    (img : OMEImageFile) (spacing : float) :
  configparser_read cfg_path = Ok prj ->
  parser_get "DATA" prj = Ok data ->
  section_get "series" data = Ok s_series -> int_of_str s_series = Ok series ->
  section_get "frame" data = Ok s_frame ->
  (String.eqb s_frame "all" = false -> int_of_str s_frame = Ok fr) ->
  section_get "channel" data = Ok s_channel ->
  (String.eqb s_channel "all" = false -> int_of_str s_channel = Ok ch) ->
  section_get "image" data = Ok s_image ->
  OMEImageFile_open (as_posix (Path_of_string s_image)) series = Ok img ->
  section_contains "ROI" data = false ->
  (if section_contains "um_per_z" data
   then exists s, section_get "um_per_z" data = Ok s /\ float_of_str s = Ok spacing
   else um_per_z img = spacing) ->
  exists cfg,
    read_config configparser_read int_of_str float_of_str ImagejRoi_fromfile
      OMEImageFile_open cfg_path = Ok cfg
    /\ ExportConfig.series cfg = series
    /\ ExportConfig.image_file cfg = img
    /\ ExportConfig.roi cfg = None
    /\ ExportConfig.frames cfg
       = (if String.eqb s_frame "all" then py_range (n_frames img) else [fr])
    /\ ExportConfig.channels cfg
       = (if String.eqb s_channel "all" then py_range (n_channels img) else [ch])
    /\ ExportConfig.um_per_z cfg = spacing
    /\ ExportConfig.path cfg = parent cfg_path
    /\ ExportConfig.name cfg = path_name cfg_path.
Proof.
  intros Hprj Hdata Hseries Hint Hframe Hfr Hchannel Hch Himage Himg Hroi Hz.
  unfold read_config, _load_project_file.
  rewrite Hprj. cbv beta iota delta [bind]. rewrite Hdata.
  cbv beta iota delta [bind].
  rewrite Hseries, Hint, Hframe, Hchannel, Himage.
  rewrite (process_roi_absent _ _ _ Hroi). rewrite Himg.
  unfold frame_is_all, int_of_frame.
  assert (Hframes :
    (if String.eqb s_frame "all" then Ok (py_range (n_frames img))
     else match int_of_str s_frame with Ok a => Ok [a] | Err e => Err e end)
    = Ok (if String.eqb s_frame "all" then py_range (n_frames img) else [fr])).
  { destruct (String.eqb s_frame "all"); [reflexivity|]. rewrite Hfr by reflexivity.
    reflexivity. }
  assert (Hchannels :
    (if String.eqb s_channel "all" then Ok (py_range (n_channels img))
     else match int_of_str s_channel with Ok a => Ok [a] | Err e => Err e end)
    = Ok (if String.eqb s_channel "all" then py_range (n_channels img) else [ch])).
  { destruct (String.eqb s_channel "all"); [reflexivity|]. rewrite Hch by reflexivity.
    reflexivity. }
  rewrite Hframes, Hchannels.
  destruct (section_contains "um_per_z" data).
  - destruct Hz as (s & -> & ->).
    eexists. split; [reflexivity|]. simpl. auto 10.
  - rewrite Hz. eexists. split; [reflexivity|]. simpl. auto 10.
Qed.

(** X14.  With a region of interest given by a relative path the file is read
    from the directory of the configuration file, and the configuration
    selects the single frame of its time position whatever text [DATA.frame]
    reads as, [all] and text that is no number included: [int] is never
    applied to it. *)
Theorem relative_roi_overrides_frame (cfg_path : Path) (prj : ConfigParser)
    (data : gmap string string)
    (s_series s_frame s_channel s_image s_roi : string) (series ch : Z)
    (img : OMEImageFile) (r : ImagejRoi) (spacing : float) :
  configparser_read cfg_path = Ok prj ->
  parser_get "DATA" prj = Ok data ->
  section_get "series" data = Ok s_series -> int_of_str s_series = Ok series ->
  section_get "frame" data = Ok s_frame ->
  section_get "channel" data = Ok s_channel ->
  (String.eqb s_channel "all" = false -> int_of_str s_channel = Ok ch) ->
  section_get "image" data = Ok s_image ->
  OMEImageFile_open (as_posix (Path_of_string s_image)) series = Ok img ->
  section_get "ROI" data = Ok s_roi ->
  is_absolute (Path_of_string s_roi) = false ->
  ImagejRoi_fromfile (joinpath (parent cfg_path) (Path_of_string s_roi)) = Ok r ->
  (if section_contains "um_per_z" data
   then exists s, section_get "um_per_z" data = Ok s /\ float_of_str s = Ok spacing
   else um_per_z img = spacing) ->
  exists cfg,
    read_config configparser_read int_of_str float_of_str ImagejRoi_fromfile
      OMEImageFile_open cfg_path = Ok cfg
    /\ ExportConfig.roi cfg = Some r
    /\ ExportConfig.frames cfg = [t_position r].
Proof.
  intros Hprj Hdata Hseries Hint Hframe Hchannel Hch Himage Himg Hroi Hrel Hr Hz.
  unfold read_config, _load_project_file.
  rewrite Hprj. cbv beta iota delta [bind]. rewrite Hdata.
  cbv beta iota delta [bind].
  rewrite Hseries, Hint, Hframe, Hchannel, Himage.
  rewrite (process_roi_relative ImagejRoi_fromfile cfg_path data s_frame s_roi r Hroi Hrel Hr).
  rewrite Himg. unfold frame_is_all, int_of_frame.
  assert (Hchannels :
    (if String.eqb s_channel "all" then Ok (py_range (n_channels img))
     else match int_of_str s_channel with Ok a => Ok [a] | Err e => Err e end)
    = Ok (if String.eqb s_channel "all" then py_range (n_channels img) else [ch])).
  { destruct (String.eqb s_channel "all"); [reflexivity|]. rewrite Hch by reflexivity.
    reflexivity. }
  rewrite Hchannels.
  destruct (section_contains "um_per_z" data).
  - destruct Hz as (s & -> & ->).
    eexists. split; [reflexivity|]. simpl. auto.
  - eexists. split; [reflexivity|]. simpl. auto.
Qed.

End ReadConfigProperties.

(** A file that cannot be opened is skipped: the parser stays empty. *)
Lemma missing_key_raises_witness :
  read_config (fun _ => Ok {| defaults := ∅; sections := ∅ |}) decimal_int example_float
    (fun _ => Ok roi13) (fun _ _ => Ok src44) (Path_of_string "example.cfg")
  = Err KeyError.
Proof.
  destruct (missing_key_raises (fun _ => Ok {| defaults := ∅; sections := ∅ |})
              decimal_int example_float (fun _ => Ok roi13)
              (fun _ _ => Ok src44) (Path_of_string "example.cfg")
              {| defaults := ∅; sections := ∅ |} eq_refl)
    as (e & He & Hcase).
  - left. apply lookup_empty.
  - rewrite He. f_equal.
    destruct Hcase as [-> | [(data & _ & _ & Hd & _) | (data & _ & Hd & _)]];
      [reflexivity | discriminate Hd | discriminate Hd].
Defined.

(** The plain example file: every frame of the two of the source, channel 1,
    z spacing 0.5. *)
Lemma read_config_without_roi_witness :
  exists cfg,
    read_config (fun _ => Ok example_project_plain) decimal_int
      example_float (fun _ => Ok roi13) (fun _ _ => Ok src44)
      (Path_of_string "example.cfg") = Ok cfg
    /\ ExportConfig.frames cfg = [0; 1]
    /\ ExportConfig.channels cfg = [1]
    /\ ExportConfig.um_per_z cfg = 0.5%float.
Proof.
  destruct (read_config_without_roi
              (fun _ => Ok example_project_plain) decimal_int
              example_float (fun _ => Ok roi13) (fun _ _ => Ok src44)
              (Path_of_string "example.cfg") example_project_plain
              (example_data_plain ∪ ∅)
              "0" "all" "1" "stack.tif" 0 0 1 src44 0.5%float)
    as (cfg & Hcfg & _ & _ & _ & Hframes & Hchannels & Hz & _).
  - reflexivity.
  - apply parser_get_section; [reflexivity | apply lookup_singleton_eq].
  - vm_compute. reflexivity.
  - reflexivity.
  - vm_compute. reflexivity.
  - discriminate.
  - vm_compute. reflexivity.
  - reflexivity.
  - vm_compute. reflexivity.
  - reflexivity.
  - vm_compute. reflexivity.
  - assert (Hkey : section_contains "um_per_z" (example_data_plain ∪ ∅) = true)
      by (vm_compute; reflexivity).
    rewrite Hkey. exists "0.5"%string. split; [vm_compute|]; reflexivity.
  - exists cfg. split; [exact Hcfg|]. split; [exact Hframes|].
    split; [exact Hchannels | exact Hz].
Defined.

(** The example file with the relative path [cell.roi]; it asks for frame 1
    and the region's time position is 0. *)
Lemma relative_roi_overrides_frame_witness :
  exists cfg,
    example_read_config "cell.roi" = Ok cfg
    /\ ExportConfig.roi cfg = Some roi13
    /\ ExportConfig.frames cfg = [0].
Proof.
  apply (relative_roi_overrides_frame
           (fun _ => Ok (example_project "cell.roi")) decimal_int (fun _ => Err ValueError)
           (fun _ => Ok roi13) (fun _ _ => Ok src44) (Path_of_string "example.cfg")
           (example_project "cell.roi") (example_data "cell.roi" ∪ ∅)
           "0" "1" "0" "stack.tif" "cell.roi" 0 0 src44 roi13
           (um_per_z src44)).
  - reflexivity.
  - apply parser_get_section; [reflexivity | apply lookup_singleton_eq].
  - vm_compute. reflexivity.
  - reflexivity.
  - vm_compute. reflexivity.
  - vm_compute. reflexivity.
  - reflexivity.
  - vm_compute. reflexivity.
  - reflexivity.
  - vm_compute. reflexivity.
  - reflexivity.
  - reflexivity.
  - assert (Hkey : section_contains "um_per_z" (example_data "cell.roi" ∪ ∅) = false)
      by (vm_compute; reflexivity).
    rewrite Hkey. reflexivity.
Defined.

(** ** The driver *)

Lemma timeseries_length (undef_cast : float -> Z) (src : OMEImageFile) (frames : list Z)
    (roi : option ImagejRoi) (channel : Z) (vols : ndarray4) :
  bioformats_to_ndarray_zstack_timeseries undef_cast src frames roi channel = Ok vols ->
  length (vols4 vols) = length frames.
Proof.
  unfold bioformats_to_ndarray_zstack_timeseries. intros H. unbind H as raw Hraw.
  apply normalize_inv in H as (lo & hi & _ & _ & _ & _ & ->).
  unfold map4. rewrite length_map.
  unfold assemble in Hraw. unbind Hraw as rect Hrect.
  destruct rect as [[[[[w h] x0] y0] x1] y1].
  unbind Hraw as hn Hh. unbind Hraw as wn Hw. unbind Hraw as v Hv.
  injection Hraw as <-. simpl. eapply for_each_length; eauto.
Qed.

Lemma length_iter4 (a : ndarray4) : length (iter4 a) = length (vols4 a).
Proof.
  unfold iter4. destruct (shape4 a) as [[[nt nz] h] w]. apply length_map.
Qed.

Lemma length_py_range (n : Z) : length (py_range n) = Z.to_nat n.
Proof. unfold py_range. rewrite length_map, length_seq. reflexivity. Qed.

Lemma In_enumerate {A : Type} (l : list A) (k : nat) (x : A) :
  In (k, x) (enumerate l) -> (k < length l)%nat.
Proof.
  unfold enumerate. intros H. apply in_combine_l in H. apply in_seq in H. lia.
Qed.

Lemma In_py_range (n x : Z) : In x (py_range n) <-> 0 <= x < n.
Proof.
  unfold py_range. rewrite in_map_iff. split.
  - intros (k & <- & Hk). apply in_seq in Hk. lia.
  - intros Hx. exists (Z.to_nat x). split; [lia|]. apply in_seq. lia.
Qed.

Lemma for_state_skip {A S : Type} (body : S -> A -> result S) (l : list A) (s : S) :
  (forall x s', In x l -> body s' x = Ok s') -> for_state body l s = Ok s.
Proof.
  induction l as [|x l IH]; intros H; simpl; [reflexivity|].
  rewrite H by (simpl; auto). simpl. apply IH. intros y s' Hy. apply H. simpl. auto.
Qed.

Lemma with_frames_same (cfg : ExportConfig.t) : with_frames cfg (ExportConfig.frames cfg) = cfg.
Proof. destruct cfg. reflexivity. Qed.

Lemma filter_all {A : Type} (f : A -> bool) (l : list A) :
  (forall x, In x l -> f x = true) -> List.filter f l = l.
Proof.
  induction l as [|x l IH]; intros H; simpl; [reflexivity|].
  rewrite H by (simpl; auto). f_equal. apply IH. intros y Hy. apply H. simpl. auto.
Qed.

(** X15.  A selection none of whose frames exists in the image (a frame
    number or a time position at or beyond [n_frames], or a negative one)
    writes no file.  The directory is still made and the whole series is
    still assembled and normalized: the export raises exactly what
    [ensure_dir] or the assembly raise, and otherwise returns the file system
    as [ensure_dir] left it. *)
Theorem unmatched_selection_writes_nothing (undef_cast : float -> Z)
    (vdb_update : vtkImageImport -> string -> gmap string node -> gmap string node)
    (ensure_dir : Path -> gmap string node -> result (Path * gmap string node))
    (cfg_path : Path) (cfg : ExportConfig.t) (fs : gmap string node) (ch : Z) :
  (forall f, In f (ExportConfig.frames cfg) ->
             f < 0 \/ n_frames (ExportConfig.image_file cfg) <= f) ->
  export_channel undef_cast vdb_update ensure_dir cfg_path cfg fs ch
  = let* r := ensure_dir
        (joinpath (joinpath (parent cfg_path) (Path_of_string "openvdb"))
                  (Path_of_string (String.append "ch" (format_d 1 ch)))) fs in
    let* _ := bioformats_to_ndarray_zstack_timeseries undef_cast
                (ExportConfig.image_file cfg)
                (py_range (n_frames (ExportConfig.image_file cfg)))
                (ExportConfig.roi cfg) ch in
    Ok (snd r).
Proof.
  intros Hout. unfold export_channel.
  destruct (ensure_dir _ fs) as [[export_path fs1]|e]; [|reflexivity].
  cbv beta iota delta [bind snd]. fold (@bind).
  destruct (bioformats_to_ndarray_zstack_timeseries _ _ _ _ _) as [vols|e] eqn:Hvols;
    [|reflexivity].
  cbv beta iota delta [bind].
  apply for_state_skip. intros [fr vol] fs' Hin.
  apply In_enumerate in Hin.
  rewrite length_iter4, (timeseries_length _ _ _ _ _ _ Hvols), length_py_range in Hin.
  unfold export_frame, frame_selected.
  destruct (existsb (Z.eqb (Z.of_nat fr)) (ExportConfig.frames cfg)) eqn:Hsel;
    [|reflexivity].
  exfalso. apply existsb_exists in Hsel as (f & Hf & Heq).
  apply Z.eqb_eq in Heq. subst f. destruct (Hout _ Hf); lia.
Qed.

(** X16.  With every frame selected ([frame = all]) the loop writes one file
    per frame of the image, in the order of the frames, each from the slice of
    the one normalized volume. *)
Theorem all_frames_written (undef_cast : float -> Z)
    (vdb_update : vtkImageImport -> string -> gmap string node -> gmap string node)
    (ensure_dir : Path -> gmap string node -> result (Path * gmap string node))
    (cfg_path : Path) (cfg : ExportConfig.t) (fs fs1 : gmap string node) (ch : Z)
    (export_path : Path) (vols : ndarray4) :
  ensure_dir
    (joinpath (joinpath (parent cfg_path) (Path_of_string "openvdb"))
              (Path_of_string (String.append "ch" (format_d 1 ch)))) fs
  = Ok (export_path, fs1) ->
  bioformats_to_ndarray_zstack_timeseries undef_cast (ExportConfig.image_file cfg)
    (py_range (n_frames (ExportConfig.image_file cfg))) (ExportConfig.roi cfg) ch
  = Ok vols ->
  ExportConfig.frames cfg = py_range (n_frames (ExportConfig.image_file cfg)) ->
  export_channel undef_cast vdb_update ensure_dir cfg_path cfg fs ch
  = save_all vdb_update
      (map (frame_write cfg export_path ch) (enumerate (iter4 vols))) fs1
  /\ length (map (frame_write cfg export_path ch) (enumerate (iter4 vols)))
     = Z.to_nat (n_frames (ExportConfig.image_file cfg)).
Proof.
  intros Hdir Hvols Hall. split.
  - unfold export_channel. rewrite Hdir. cbv beta iota delta [bind]. rewrite Hvols.
    rewrite <- (with_frames_same cfg) at 1.
    rewrite export_frames_selected. f_equal. f_equal.
    apply filter_all. intros [fr vol] Hin. simpl.
    apply In_enumerate in Hin.
    rewrite length_iter4, (timeseries_length _ _ _ _ _ _ Hvols), length_py_range in Hin.
    apply existsb_exists. exists (Z.of_nat fr). split; [|apply Z.eqb_refl].
    rewrite Hall. apply In_py_range. lia.
  - unfold enumerate. rewrite length_map, length_combine, length_seq, Nat.min_id.
    rewrite length_iter4, (timeseries_length _ _ _ _ _ _ Hvols). apply length_py_range.
Qed.

(** The example source has two frames; frame 5 is selected. *)
Lemma unmatched_selection_writes_nothing_witness :
  example_export [5] = Ok (<[ "openvdb/ch0"%string := Dir ]> ∅).
Proof.
  unfold example_export.
  rewrite (unmatched_selection_writes_nothing x86_cast buffer_writer record_dir
             (Path_of_string "example.cfg") (example_cfg [5]) ∅ 0)
    by (simpl; intros f [<-|[]]; lia).
  unfold record_dir. cbv beta iota delta [bind snd]. fold (@bind).
  destruct (bioformats_to_ndarray_zstack_timeseries _ _ _ _ _) as [vols|e] eqn:Hvols;
    [reflexivity | vm_compute in Hvols; discriminate].
Defined.

(** The example source with both of its frames selected. *)
Lemma all_frames_written_witness :
  exists vols,
    bioformats_to_ndarray_zstack_timeseries x86_cast src44 (py_range 2) None 0 = Ok vols
    /\ example_export [0; 1]
       = save_all buffer_writer
           (map (frame_write (example_cfg [0; 1]) (Path_of_string "openvdb/ch0") 0)
                (enumerate (iter4 vols)))
           (<[ "openvdb/ch0"%string := Dir ]> ∅)
    /\ length (map (frame_write (example_cfg [0; 1]) (Path_of_string "openvdb/ch0") 0)
                   (enumerate (iter4 vols))) = 2%nat.
Proof.
  destruct (bioformats_to_ndarray_zstack_timeseries x86_cast src44 (py_range 2) None 0)
    as [vols|e] eqn:Hvols; [|vm_compute in Hvols; discriminate].
  exists vols. split; [reflexivity|].
  apply (all_frames_written x86_cast buffer_writer record_dir
           (Path_of_string "example.cfg") (example_cfg [0; 1]) ∅
           (<[ "openvdb/ch0"%string := Dir ]> ∅) 0
           (Path_of_string "openvdb/ch0") vols).
  - reflexivity.
  - exact Hvols.
  - reflexivity.
Defined.

(** ** File names *)

Lemma has_slash_app (a b : string) :
  has_slash (String.append a b) = has_slash a || has_slash b.
Proof.
  induction a as [|c a IH]; simpl; [reflexivity|].
  rewrite IH. apply orb_assoc.
Qed.

Lemma components_no_slash (s : string) : has_slash s = false -> components s = [s].
Proof.
  induction s as [|c s IH]; simpl; [reflexivity|].
  intros H. apply orb_false_iff in H as [Hc Hs]. rewrite Hc, (IH Hs). reflexivity.
Qed.

Lemma has_slash_digit (x : N) (s : string) :
  has_slash (String (pretty_N_char x) s) = has_slash s.
Proof.
  unfold pretty_N_char. simpl.
  repeat (match goal with |- context [match ?v with _ => _ end] => destruct v end;
          try reflexivity).
Qed.

Lemma has_slash_pretty_N_go (x : N) (s : string) :
  has_slash (pretty_N_go x s) = has_slash s.
Proof.
  revert s. induction (N.lt_wf_0 x) as [x _ IH]. intros s.
  destruct (N.eq_dec x 0%N) as [->|Hx]; [reflexivity|].
  rewrite pretty_N_go_step by lia.
  rewrite IH by (apply N.div_lt; lia). apply has_slash_digit.
Qed.

Lemma has_slash_pretty_N (x : N) : has_slash (pretty x) = false.
Proof.
  unfold pretty, pretty_N. destruct (decide (x = 0%N)); [reflexivity|].
  apply has_slash_pretty_N_go.
Qed.

Lemma has_slash_pretty_Z (z : Z) : has_slash (pretty z) = false.
Proof.
  destruct z as [|p|p]; [reflexivity | apply has_slash_pretty_N |].
  unfold pretty, pretty_Z. rewrite has_slash_app.
  change (pretty p) with (pretty (Npos p)). rewrite has_slash_pretty_N. reflexivity.
Qed.

Lemma has_slash_zeros (k : nat) : has_slash (String.concat "" (repeat "0"%string k)) = false.
Proof.
  induction k as [|k IH]; [reflexivity|].
  simpl. destruct (repeat "0"%string k) eqn:E; [reflexivity|].
  rewrite has_slash_app. simpl. exact IH.
Qed.

Lemma has_slash_format_d (width : nat) (z : Z) : has_slash (format_d width z) = false.
Proof.
  unfold format_d. rewrite !has_slash_app, has_slash_zeros, has_slash_pretty_Z.
  destruct (z <? 0); reflexivity.
Qed.

Lemma string_length_app (a b : string) :
  String.length (String.append a b) = (String.length a + String.length b)%nat.
Proof. induction a as [|c a IH]; simpl; [reflexivity | rewrite IH; reflexivity]. Qed.

Lemma string_app_inv_tail (a b t : string) :
  String.append a t = String.append b t -> a = b.
Proof.
  revert b. induction a as [|c a IH]; intros b H.
  - destruct b as [|d b]; [reflexivity|]. exfalso.
    apply (f_equal String.length) in H. rewrite !string_length_app in H.
    simpl in H. lia.
  - destruct b as [|d b].
    + exfalso. apply (f_equal String.length) in H. rewrite !string_length_app in H.
      simpl in H. lia.
    + simpl in H. injection H as -> H. f_equal. apply IH. assumption.
Qed.

Lemma string_app_inv_head (p a b : string) :
  String.append p a = String.append p b -> a = b.
Proof.
  induction p as [|c p IH]; simpl; intros H; [assumption|].
  injection H as H. auto.
Qed.

Lemma pretty_N_go_head (x : N) (s : string) :
  (0 < x)%N ->
  exists c rest, pretty_N_go x s = String c rest /\ c <> "0"%char.
Proof.
  revert s. induction (N.lt_wf_0 x) as [x _ IH]. intros s Hx.
  rewrite pretty_N_go_step by assumption.
  destruct (N.eq_dec (x `div` 10)%N 0%N) as [Hq|Hq].
  - rewrite Hq. rewrite pretty_N_go_0. eexists _, _. split; [reflexivity|].
    apply N.div_small_iff in Hq; [|lia].
    rewrite N.mod_small by assumption.
    assert (x = 1 \/ x = 2 \/ x = 3 \/ x = 4 \/ x = 5 \/ x = 6 \/ x = 7 \/ x = 8 \/ x = 9)%N
      as Hcases by lia.
    destruct Hcases as [->|[->|[->|[->|[->|[->|[->|[->| ->]]]]]]]]; discriminate.
  - apply IH; [apply N.div_lt; lia | apply N.neq_0_lt_0; assumption].
Qed.

Lemma pretty_nonneg_head (z : Z) :
  0 <= z ->
  pretty z = "0"%string
  \/ exists c rest, pretty z = String c rest /\ c <> "0"%char.
Proof.
  intros Hz. destruct z as [|p|p]; [left; reflexivity | right | lia].
  unfold pretty, pretty_Z, pretty, pretty_positive, pretty, pretty_N.
  destruct (decide (N.pos p = 0%N)); [discriminate|].
  apply pretty_N_go_head. lia.
Qed.

Lemma zeros_S (k : nat) :
  String.concat "" (repeat "0"%string (S k))
  = String "0" (String.concat "" (repeat "0"%string k)).
Proof. simpl. destruct (repeat "0"%string k); reflexivity. Qed.

Lemma padded_pretty_inj (a b : nat) (x y : Z) :
  0 <= x -> 0 <= y ->
  String.append (String.concat "" (repeat "0"%string a)) (pretty x)
  = String.append (String.concat "" (repeat "0"%string b)) (pretty y) ->
  x = y.
Proof.
  intros Hx Hy. revert b. induction a as [|a IH]; intros b H.
  - destruct b as [|b]; [simpl in H; apply (inj pretty); assumption|].
    rewrite zeros_S in H. simpl in H.
    destruct (pretty_nonneg_head x Hx) as [E | (c & rest & E & Hc)]; rewrite E in H.
    + injection H as H. symmetry in H.
      apply (f_equal String.length) in H. rewrite string_length_app in H. simpl in H.
      destruct (pretty_nonneg_head y Hy) as [E' | (c & rest & E' & _)];
        rewrite E' in H; simpl in H; lia.
    + injection H as -> _. congruence.
  - destruct b as [|b].
    + rewrite zeros_S in H. simpl in H.
      destruct (pretty_nonneg_head y Hy) as [E | (c & rest & E & Hc)]; rewrite E in H.
      * injection H as H.
        apply (f_equal String.length) in H. rewrite string_length_app in H. simpl in H.
        destruct (pretty_nonneg_head x Hx) as [E' | (c & rest & E' & _)];
          rewrite E' in H; simpl in H; lia.
      * injection H as <- _. congruence.
    + rewrite !zeros_S in H. simpl in H. injection H as H. eauto.
Qed.

Lemma format_d_inj (width : nat) (x y : Z) :
  0 <= x -> 0 <= y -> format_d width x = format_d width y -> x = y.
Proof.
  intros Hx Hy. unfold format_d.
  destruct (Z.ltb_spec x 0); [lia|]. destruct (Z.ltb_spec y 0); [lia|].
  rewrite !Z.abs_eq by assumption. simpl. apply padded_pretty_inj; assumption.
Qed.

Lemma concat_slash_cons (x : string) (xs : list string) :
  xs <> [] ->
  String.concat "/" (x :: xs)
  = String.append x (String.append "/" (String.concat "/" xs)).
Proof. destruct xs; [congruence | reflexivity]. Qed.

Lemma concat_slash_last_inj (ps : list string) (a b : string) :
  String.concat "/" (ps ++ [a]) = String.concat "/" (ps ++ [b]) -> a = b.
Proof.
  induction ps as [|x ps IH]; simpl app; intros H; [exact H|].
  rewrite !concat_slash_cons in H by (destruct ps; discriminate).
  apply string_app_inv_head in H. apply string_app_inv_head in H. auto.
Qed.

Lemma Path_of_plain_name (s : string) :
  has_slash s = false -> is_dot s = false ->
  Path_of_string s = {| root := NoRoot; parts := [s] |}.
Proof.
  intros Hs Hd. unfold Path_of_string. rewrite (components_no_slash s Hs). simpl.
  rewrite Hd. simpl. f_equal. unfold root_of_string.
  destruct s as [|c s]; [reflexivity|]. simpl in Hs.
  apply orb_false_iff in Hs as [Hc _]. simpl. rewrite Hc. reflexivity.
Qed.

Lemma as_posix_join_name (p : Path) (n : string) :
  as_posix (joinpath p {| root := NoRoot; parts := [n] |})
  = String.append (root_string (root p)) (String.concat "/" (parts p ++ [n])).
Proof.
  unfold joinpath, as_posix. simpl.
  destruct (root p); [|reflexivity|reflexivity]. destruct (parts p); reflexivity.
Qed.

Lemma vol_filename_inj (export_path : Path) (ch : Z) (fr fr' : nat) :
  vol_filename export_path ch fr = vol_filename export_path ch fr' -> fr = fr'.
Proof.
  intros Heq. unfold vol_filename in Heq.
  pose (name := fun n : nat =>
    String.append "vol_ch"
      (String.append (format_d 1 ch)
        (String.append "_fr" (String.append (format_d 3 (Z.of_nat n)) ".vdb")))).
  change (as_posix (joinpath export_path (Path_of_string (name fr)))
          = as_posix (joinpath export_path (Path_of_string (name fr')))) in Heq.
  assert (Hplain : forall n, Path_of_string (name n)
                             = {| root := NoRoot; parts := [name n] |}).
  { intros n. apply Path_of_plain_name; [|reflexivity].
    unfold name. rewrite !has_slash_app, !has_slash_format_d. reflexivity. }
  rewrite !Hplain, !as_posix_join_name in Heq.
  apply string_app_inv_head in Heq.
  assert (Hname : name fr = name fr')
    by (apply (concat_slash_last_inj (parts export_path)); exact Heq).
  unfold name in Hname.
  do 3 apply string_app_inv_head in Hname.
  apply string_app_inv_tail in Hname.
  apply format_d_inj in Hname; lia.
Qed.

(** X17.  Within the loop over the frames of one channel no two frames share
    a file: the names that line 160 builds for two different frame numbers in
    the same directory are different, however many digits the numbers have. *)
Theorem frame_files_are_distinct (export_path : Path) (ch : Z) (fr fr' : nat) :
  fr <> fr' -> vol_filename export_path ch fr <> vol_filename export_path ch fr'.
Proof.
  intros Hne Heq. apply Hne. eapply vol_filename_inj. exact Heq.
Qed.

(** Frames 7 and 1007 in the directory of channel 0. *)
Lemma frame_files_are_distinct_witness :
  vol_filename (Path_of_string "openvdb/ch0") 0 7
  <> vol_filename (Path_of_string "openvdb/ch0") 0 1007.
Proof.
  apply (frame_files_are_distinct (Path_of_string "openvdb/ch0") 0 7 1007).
  discriminate.
Defined.

(** ** What the export leaves on disk *)

Section ExportedFiles.

Variable vdb_update : vtkImageImport -> string -> gmap string node -> gmap string node.
Variable serialize : vtkImageImport -> list Z.

(** The writer completes whenever the destination is free. *)
Hypothesis writer_completes :
  forall im p fs', fs' !! p = None ->
    vdb_update im p fs' = <[p := File (serialize im)]> fs'.

Lemma save_completes (im : vtkImageImport) (p : string) (fs : gmap string node) :
  fs !! p <> Some Dir ->
  _save_vtk_image_to_disk vdb_update im p fs = Ok (<[p := File (serialize im)]> fs).
Proof.
  intros Hdir. rewrite save_unfold by assumption. f_equal.
  rewrite writer_completes by apply lookup_delete_eq. apply insert_delete_eq.
Qed.

Lemma save_all_files (writes : list (string * vtkImageImport)) (fs : gmap string node) :
  List.NoDup (map fst writes) ->
  (forall w, In w writes -> fs !! fst w <> Some Dir) ->
  exists fs',
    save_all vdb_update writes fs = Ok fs'
    /\ (forall w, In w writes -> fs' !! fst w = Some (File (serialize (snd w))))
    /\ (forall q, ~ In q (map fst writes) -> fs' !! q = fs !! q).
Proof.
  revert fs. induction writes as [|[p im] writes IH]; intros fs Hnodup Hdir.
  - exists fs. split; [reflexivity|]. split; [intros w []|auto].
  - simpl in Hnodup. apply List.NoDup_cons_iff in Hnodup as [Hfresh Hnodup].
    destruct (IH (<[p := File (serialize im)]> fs) Hnodup) as (fs' & Hrun & Hfiles & Hrest).
    { intros w Hw. destruct (decide (p = fst w)) as [->|Hne].
      - rewrite lookup_insert_eq. discriminate.
      - rewrite lookup_insert_ne by assumption. apply Hdir. simpl. auto. }
    exists fs'. split; [|split].
    + unfold save_all in *. simpl.
      rewrite save_completes by (apply (Hdir (p, im)); simpl; auto). simpl. exact Hrun.
    + intros w [<-|Hw]; [|auto]. simpl.
      rewrite Hrest by assumption. apply lookup_insert_eq.
    + intros q Hq. simpl in Hq.
      rewrite Hrest by tauto. apply lookup_insert_ne. tauto.
Qed.

End ExportedFiles.

Lemma enumerate_nth_gen {A : Type} (l : list A) (s k : nat) (x : A) :
  nth_error l k = Some x -> In ((s + k)%nat, x) (combine (seq s (length l)) l).
Proof.
  revert s k. induction l as [|a l IH]; intros s k H; [destruct k; discriminate|].
  destruct k as [|k]; simpl in *.
  - injection H as ->. left. f_equal. lia.
  - right. replace (s + S k)%nat with (S s + k)%nat by lia. apply IH. assumption.
Qed.

Lemma enumerate_nth {A : Type} (l : list A) (k : nat) (x : A) :
  nth_error l k = Some x -> In (k, x) (enumerate l).
Proof. intros H. apply (enumerate_nth_gen l 0 k x H). Qed.

Lemma NoDup_fst_filter {A B : Type} (f : A * B -> bool) (l : list (A * B)) :
  List.NoDup (map fst l) -> List.NoDup (map fst (List.filter f l)).
Proof.
  induction l as [|x l IH]; simpl; intros H; [constructor|].
  apply List.NoDup_cons_iff in H as [Hx Hl].
  destruct (f x); simpl; [|auto].
  apply List.NoDup_cons_iff. split; [|auto].
  intros Hin. apply Hx. apply in_map_iff in Hin as (y & Hy & Hin).
  apply filter_In in Hin as [Hin _]. apply in_map_iff. eauto.
Qed.

Lemma enumerate_fst {A : Type} (l : list A) : map fst (enumerate l) = seq 0 (length l).
Proof.
  unfold enumerate. generalize 0%nat. induction l as [|a l IH]; intros s; simpl;
    [reflexivity|]. rewrite IH. reflexivity.
Qed.

(** X18.  What a channel's export leaves on disk when the OpenVDB writer
    completes and no frame file name is taken by a directory: the call
    succeeds, every selected frame of the image has its file, holding the image
    of that frame's slice of the volume normalized over the whole series, and
    every path that is no frame file of this channel is as [ensure_dir] left
    it. *)
Theorem exported_files (undef_cast : float -> Z)
    (vdb_update : vtkImageImport -> string -> gmap string node -> gmap string node)
    (serialize : vtkImageImport -> list Z)
    (ensure_dir : Path -> gmap string node -> result (Path * gmap string node))
    (cfg_path : Path) (cfg : ExportConfig.t) (fs fs1 : gmap string node) (ch : Z)
    (export_path : Path) (vols : ndarray4) :
  (forall im p fs', fs' !! p = None ->
     vdb_update im p fs' = <[p := File (serialize im)]> fs') ->
  ensure_dir
    (joinpath (joinpath (parent cfg_path) (Path_of_string "openvdb"))
              (Path_of_string (String.append "ch" (format_d 1 ch)))) fs
  = Ok (export_path, fs1) ->
  bioformats_to_ndarray_zstack_timeseries undef_cast (ExportConfig.image_file cfg)
    (py_range (n_frames (ExportConfig.image_file cfg))) (ExportConfig.roi cfg) ch
  = Ok vols ->
  (forall k, fs1 !! vol_filename export_path ch k <> Some Dir) ->
  exists fs',
    export_channel undef_cast vdb_update ensure_dir cfg_path cfg fs ch = Ok fs'
    /\ (forall k vol,
          nth_error (iter4 vols) k = Some vol ->
          In (Z.of_nat k) (ExportConfig.frames cfg) ->
          fs' !! vol_filename export_path ch k
          = Some (File (serialize
                          (_ndarray_to_vtk_image vol
                             (um_per_pix (ExportConfig.image_file cfg))
                             (ExportConfig.um_per_z cfg)))))
    /\ (forall q, (forall k, q <> vol_filename export_path ch k) -> fs' !! q = fs1 !! q).
Proof.
  intros Hwriter Hdir Hvols Hfree.
  pose (writes := map (frame_write cfg export_path ch)
                      (List.filter
                         (fun item => existsb (Z.eqb (Z.of_nat (fst item)))
                                              (ExportConfig.frames cfg))
                         (enumerate (iter4 vols)))).
  assert (Hnames : map fst writes
                   = map (vol_filename export_path ch)
                       (map fst (List.filter
                          (fun item => existsb (Z.eqb (Z.of_nat (fst item)))
                                               (ExportConfig.frames cfg))
                          (enumerate (iter4 vols))))).
  { unfold writes. rewrite !map_map. reflexivity. }
  destruct (save_all_files vdb_update serialize Hwriter writes fs1)
    as (fs' & Hrun & Hfiles & Hrest).
  - rewrite Hnames. apply Finite.Injective_map_NoDup.
    + intros a b. apply vol_filename_inj.
    + apply NoDup_fst_filter. rewrite enumerate_fst. apply seq_NoDup.
  - intros w Hw. apply in_map_iff in Hw as (item & <- & _). simpl. apply Hfree.
  - exists fs'. split; [|split].
    + unfold export_channel. rewrite Hdir. cbv beta iota delta [bind]. rewrite Hvols.
      rewrite <- (with_frames_same cfg) at 1. rewrite export_frames_selected.
      exact Hrun.
    + intros k vol Hk Hsel.
      apply (Hfiles (frame_write cfg export_path ch (k, vol))).
      unfold writes. apply in_map. apply filter_In. split; [apply enumerate_nth; exact Hk|].
      simpl. apply existsb_exists. exists (Z.of_nat k). split; [exact Hsel | apply Z.eqb_refl].
    + intros q Hq. apply Hrest. rewrite Hnames. intros Hin.
      apply in_map_iff in Hin as (k & Hk & _). exact (Hq k (eq_sym Hk)).
Qed.

(** The example source with frame 1 selected: the file of frame 1 holds the
    48 bytes of its slice. *)
Lemma exported_files_witness :
  exists fs' vols vol,
    bioformats_to_ndarray_zstack_timeseries x86_cast src44 (py_range 2) None 0 = Ok vols
    /\ nth_error (iter4 vols) 1 = Some vol
    /\ example_export [1] = Ok fs'
    /\ fs' !! vol_filename (Path_of_string "openvdb/ch0") 0 1
       = Some (File (import_void_pointer (_ndarray_to_vtk_image vol 0.5 2))).
Proof.
  destruct (bioformats_to_ndarray_zstack_timeseries x86_cast src44 (py_range 2) None 0)
    as [vols|e] eqn:Hvols; [|vm_compute in Hvols; discriminate].
  destruct (nth_error (iter4 vols) 1) as [vol|] eqn:Hvol.
  2:{ exfalso. apply nth_error_None in Hvol.
      rewrite length_iter4, (timeseries_length _ _ _ _ _ _ Hvols) in Hvol.
      simpl in Hvol. lia. }
  destruct (exported_files x86_cast buffer_writer import_void_pointer record_dir
              (Path_of_string "example.cfg") (example_cfg [1]) ∅
              (<[ "openvdb/ch0"%string := Dir ]> ∅) 0
              (Path_of_string "openvdb/ch0") vols)
    as (fs' & Hrun & Hfiles & _).
  - reflexivity.
  - reflexivity.
  - exact Hvols.
  - intros k Hk. destruct (decide ("openvdb/ch0"%string
                                    = vol_filename (Path_of_string "openvdb/ch0") 0 k))
      as [E|E].
    + apply (f_equal String.length) in E. unfold vol_filename in E.
      rewrite (Path_of_plain_name
                 (String.append "vol_ch"
                    (String.append (format_d 1 0)
                       (String.append "_fr"
                          (String.append (format_d 3 (Z.of_nat k)) ".vdb"))))) in E
        by (rewrite ?has_slash_app, ?has_slash_format_d; reflexivity).
      rewrite as_posix_join_name in E.
      change (Path_of_string "openvdb/ch0")
        with {| root := NoRoot; parts := ["openvdb"; "ch0"]%string |} in E.
      cbn [root root_string parts app String.concat] in E.
      rewrite !string_length_app in E. simpl in E. lia.
    + rewrite lookup_insert_ne in Hk by exact E. rewrite lookup_empty in Hk. discriminate.
  - exists fs', vols, vol. split; [reflexivity|]. split; [exact Hvol|].
    split; [exact Hrun|]. apply (Hfiles 1%nat vol Hvol). simpl. auto.
Defined.

(** ** The frame selection *)



